(** * hannds: quantisation, labelling, windowing and continuation sampling

    A shallow embedding of [hannds_data.py] (classes [AllData],
    [HanndsDataset] and [ContinuationSampler]) and of [single_file.py]
    (class [SingleFileAnnotate]), the properties the specification states
    about them, and further properties of the code.

    Python integers are unbounded, so they are [Z]; [//] on integers is
    floor division, which is [Z.div] for every non-zero divisor.  NumPy
    arrays are nested lists, with the index and slice rules of NumPy written
    out (negative indices wrap once, slices clamp, an integer index out of
    range raises [IndexError]).  Exceptions are values of [exn] carried by
    [result].  Files live in a finite map from paths to contents that is
    handed from call to call. *)

From stdpp Require Import gmap list sorting pretty.
From Stdlib Require Import String ZArith QArith Qround Lia Permutation List.
Import ListNotations.

Local Open Scope Z_scope.

(* ===================================================================== *)
(** * Part I: the embedding                                               *)
(* ===================================================================== *)

(** ** Python values, exceptions and control flow *)

Module Py.

Inductive exn : Type :=
| StopIteration
| RuntimeError
| ZeroDivisionError
| IndexError
| ValueError
| TypeError
| AssertionError.

Inductive result (A : Type) : Type :=
| Ok (a : A)
| Raise (e : exn).
Arguments Ok {A} a.
Arguments Raise {A} e.

Definition bind {A B} (r : result A) (k : A -> result B) : result B :=
  match r with
  | Ok a => k a
  | Raise e => Raise e
  end.

(** [a // b] on integers. *)
Definition floordiv (a b : Z) : result Z :=
  if b =? 0 then Raise ZeroDivisionError else Ok (a / b).

(** [range(n)]: [0, 1, ..., n-1], empty when [n <= 0]. *)
Definition range (n : Z) : list Z :=
  List.map Z.of_nat (seq 0 (Z.to_nat n)).

(** [assert c]. *)
Definition assert (c : bool) : result unit :=
  if c then Ok tt else Raise AssertionError.

(** The bounds of [a[start:stop]] on an axis of length [n]: a negative
    bound counts from the end, then both are clamped to [0, n]. *)
Definition slice_bound (n i : Z) : Z :=
  let i' := if i <? 0 then i + n else i in
  Z.max 0 (Z.min n i').

(** [a[start:stop]] on the first axis. *)
Definition slice {A} (a : list A) (start stop : Z) : list A :=
  let n := Z.of_nat (length a) in
  let lo := slice_bound n start in
  let hi := slice_bound n stop in
  firstn (Z.to_nat (hi - lo)) (skipn (Z.to_nat lo) a).

(** An integer index on an axis of length [n]: [-n <= i < n] or
    [IndexError]. *)
Definition index (n i : Z) : result nat :=
  if (0 <=? i) && (i <? n) then Ok (Z.to_nat i)
  else if (- n <=? i) && (i <? 0) then Ok (Z.to_nat (i + n))
  else Raise IndexError.

(** [for x in xs: s = body x s] in straight-line code. *)
Fixpoint for_ {A S} (xs : list A) (body : A -> S -> result S) (s : S)
  : result S :=
  match xs with
  | [] => Ok s
  | x :: xs' => bind (body x s) (for_ xs' body)
  end.

(** [enumerate(xs)] *)
Definition enumerate {A} (xs : list A) : list (Z * A) :=
  combine (range (Z.of_nat (length xs))) xs.

(** [xs[i]] on a list. *)
Definition getitem {A} (xs : list A) (i : Z) : result A :=
  match index (Z.of_nat (length xs)) i with
  | Ok n => match nth_error xs n with
            | Some x => Ok x
            | None => Raise IndexError
            end
  | Raise e => Raise e
  end.

(** *** Generators

    A generator body is run to its end: the values it yields, in order,
    and how the body finished (it returned, or it raised). *)
Definition gen (A : Type) : Type := (list Z * result A)%type.

Definition gret {A} (a : A) : gen A := ([], Ok a).

Definition gbind {A B} (g : gen A) (k : A -> gen B) : gen B :=
  match g with
  | (ys, Ok a) => let '(ys', r) := k a in (ys ++ ys', r)
  | (ys, Raise e) => (ys, Raise e)
  end.

Definition yield (v : Z) : gen unit := ([v], Ok tt).

Definition graise {A} (e : exn) : gen A := ([], Raise e).

Definition glift {A} (r : result A) : gen A := ([], r).

(** [for x in xs: s = body x s], with the loop's variables in [s]. *)
Fixpoint gfor {S} (xs : list Z) (body : Z -> S -> gen S) (s : S) : gen S :=
  match xs with
  | [] => gret s
  | x :: xs' => gbind (body x s) (gfor xs' body)
  end.

(** What the consumer of [iter(body())] sees.  A body that returns ends
    the iteration.  A body that raises [StopIteration] itself ends the
    iteration too under the rules the module was written for (Python up
    to 3.6); since PEP 479 became the default (Python 3.7) the generator
    object turns that exception into [RuntimeError]. *)
Inductive generator_stop : Type := Legacy | PEP479.

Definition emitted {A} (g : gen A) : list Z := fst g.

(** [list(it)]: pull until the iterator is exhausted. *)
Definition drain {A} (sem : generator_stop) (g : gen A) : result (list Z) :=
  match g with
  | (ys, Ok _) => Ok ys
  | (ys, Raise StopIteration) =>
      match sem with
      | Legacy => Ok ys
      | PEP479 => Raise RuntimeError
      end
  | (_, Raise e) => Raise e
  end.

End Py.

Notation "x <- c1 ;; c2" := (Py.bind c1 (fun x => c2))
  (at level 100, c1 at next level, right associativity).
Notation "x <~ c1 ;; c2" := (Py.gbind c1 (fun x => c2))
  (at level 100, c1 at next level, right associativity).

(** ** class ContinuationSampler *)

Module ContinuationSampler.

Record t : Type := __init__ { len_dataset : Z; batch_size : Z }.

Definition __len__ (self : t) : Py.result Z :=
  num_batches <- Py.floordiv (len_dataset self) (batch_size self) ;;
  Py.Ok (num_batches * batch_size self).

(** The generator body.  The inner loop carries the variable [index]. *)
Definition _generate_indices (self : t) : Py.gen unit :=
  step <~ Py.glift (Py.floordiv (len_dataset self) (batch_size self)) ;;
  let num_batches := step in
  _ <~ Py.gfor (Py.range num_batches) (fun i (_ : unit) =>
         let index := i in
         _ <~ Py.gfor (Py.range (batch_size self)) (fun j index =>
                _ <~ Py.yield index ;;
                Py.gret (index + step)) index ;;
         Py.gret tt) tt ;;
  Py.graise Py.StopIteration.

Definition __iter__ (self : t) : Py.gen unit := _generate_indices self.

End ContinuationSampler.

(** ** Floating-point numbers

    Times are Python floats.  The module only multiplies a float by an
    integer and rounds the product down or up to an integer, so the
    embedding is written against that interface; what is proved holds for
    every arithmetic that keeps a non-negative product non-negative, finite
    IEEE doubles and exact rationals alike. *)

Class FloatOps : Type := {
  float : Type;
  (** [0.0] *)
  fzero : float;
  (** a decimal literal *)
  fliteral : Q -> float;
  (** [x <= y] *)
  fle : float -> float -> Prop;
  (** [x * n] and [n * x] for an integer [n] *)
  fmul : float -> Z -> float;
  (** [math.floor] and [math.ceil] *)
  ffloor : float -> Z;
  fceil : float -> Z;
  fle_trans : forall x y z, fle x y -> fle y z -> fle x z;
  ffloor_mul_nonneg : forall x n, fle fzero x -> 0 <= n -> 0 <= ffloor (fmul x n);
  fceil_mul_nonneg : forall x n, fle fzero x -> 0 <= n -> 0 <= fceil (fmul x n);
}.

(** Exact rational arithmetic. *)
Lemma Qfloor_mul_nonneg (x : Q) (n : Z) :
  (0 <= x)%Q -> 0 <= n -> 0 <= Qfloor (x * inject_Z n).
Proof.
  intros Hx Hn. change 0 with (Qfloor 0). apply Qfloor_resp_le.
  apply Qmult_le_0_compat; [exact Hx|]. unfold Qle. cbn. lia.
Qed.

Lemma Qceiling_mul_nonneg (x : Q) (n : Z) :
  (0 <= x)%Q -> 0 <= n -> 0 <= Qceiling (x * inject_Z n).
Proof.
  intros Hx Hn. change 0 with (Qceiling 0). apply Qceiling_resp_le.
  apply Qmult_le_0_compat; [exact Hx|]. unfold Qle. cbn. lia.
Qed.

#[export] Instance Qfloat : FloatOps := {|
  float := Q;
  fzero := 0%Q;
  fliteral q := q;
  fle := Qle;
  fmul x n := (x * inject_Z n)%Q;
  ffloor := Qfloor;
  fceil := Qceiling;
  fle_trans := Qle_trans;
  ffloor_mul_nonneg := Qfloor_mul_nonneg;
  fceil_mul_nonneg := Qceiling_mul_nonneg;
|}.

(** ** NumPy arrays

    An array carries the sizes of its inner axes, so that an array with no
    rows still has a shape: [(len rows, ncols)] for two axes,
    [(len cells, dim1, dim2)] for three. *)

Module Np.

Record array2 (A : Type) : Type := Array2 { ncols : Z; rows : list (list A) }.
Arguments Array2 {A} ncols rows.
Arguments ncols {A} a.
Arguments rows {A} a.

Record array3 (A : Type) : Type :=
  Array3 { dim1 : Z; dim2 : Z; cells : list (list (list A)) }.
Arguments Array3 {A} dim1 dim2 cells.
Arguments dim1 {A} a.
Arguments dim2 {A} a.
Arguments cells {A} a.

(** Every row and every plane has the length the shape says. *)
Definition shaped3 {A} (a : array3 A) : Prop :=
  0 <= dim1 a /\ 0 <= dim2 a /\
  Forall (fun r => Z.of_nat (length r) = dim1 a /\
                   Forall (fun p => Z.of_nat (length p) = dim2 a) r) (cells a).

(** [a.shape[0]] *)
Definition shape0_2 {A} (a : array2 A) : Z := Z.of_nat (length (rows a)).
Definition shape0_3 {A} (a : array3 A) : Z := Z.of_nat (length (cells a)).

(** [a[t][k]] and [a[t][h][k]] at positions inside the array. *)
Definition get2 {A} (a : array2 A) (t k : nat) : option A :=
  match rows a !! t with
  | Some r => r !! k
  | None => None
  end.

Definition get3 {A} (a : array3 A) (t h k : nat) : option A :=
  match cells a !! t with
  | Some r => match r !! h with
              | Some p => p !! k
              | None => None
              end
  | None => None
  end.

(** [a[:, h, :]] *)
Definition take1 {A} (a : array3 A) (h : Z) : Py.result (array2 A) :=
  i <- Py.index (dim1 a) h ;;
  Py.Ok (Array2 (dim2 a) (List.map (fun r => nth i r []) (cells a))).

(** [a[start:stop]] on two axes: the rows of the slice. *)
Definition slice2 {A} (a : array2 A) (start stop : Z) : array2 A :=
  Array2 (ncols a) (Py.slice (rows a) start stop).

(** [np.zeros((n, m))] *)
Definition zeros2 (n m : Z) : Py.result (array2 Z) :=
  if (n <? 0) || (m <? 0) then Py.Raise Py.ValueError
  else Py.Ok (Array2 m (repeat (repeat 0 (Z.to_nat m)) (Z.to_nat n))).

(** [np.zeros((n, d1, d2), dtype=np.bool)] *)
Definition zeros3 (n d1 d2 : Z) : Py.result (array3 bool) :=
  if (n <? 0) || (d1 <? 0) || (d2 <? 0) then Py.Raise Py.ValueError
  else Py.Ok (Array3 d1 d2
                (repeat (repeat (repeat false (Z.to_nat d2)) (Z.to_nat d1))
                        (Z.to_nat n))).

(** [np.logical_or(a, b)] for two arrays of one shape (here always two
    planes of the same array). *)
Definition logical_or (a b : array2 bool) : array2 bool :=
  Array2 (ncols a) (zip_with (zip_with orb) (rows a) (rows b)).

(** [y[mask] = v].  A mask of the shape of [y] selects the cells to
    write.  Otherwise NumPy compares the mask with [y] axis by axis and
    raises [IndexError] at an axis where the lengths differ, but it does not
    compare an axis along which the mask is empty: such a mask has no cell,
    nothing is written and [y] stays as it is.  (This is NumPy from 1.20
    on.  Earlier versions also let through a mask of another shape that has
    as many cells as [y] and holds no [True]; for the masks of this module
    that is the case of no row at all, and the theorems about masks of
    another shape are stated for arrays that have a row.) *)
Definition setitem_mask (y : array2 Z) (mask : array2 bool) (v : Z)
  : Py.result (array2 Z) :=
  if (shape0_2 y =? shape0_2 mask) && (ncols y =? ncols mask)
  then Py.Ok (Array2 (ncols y)
                (zip_with (zip_with (fun yv (m : bool) => if m then v else yv))
                          (rows y) (rows mask)))
  else if (negb (shape0_2 mask =? 0) && negb (shape0_2 mask =? shape0_2 y))
          || (negb (ncols mask =? 0) && negb (ncols mask =? ncols y))
  then Py.Raise Py.IndexError
  else Py.Ok y.

(** [a[start:stop, h, k] = v]: the two integer indices are checked,
    the slice is clamped; every row of the slice gets [v] at [(h, k)]. *)
Definition setitem_slice {A} (a : array3 A) (start stop h k : Z) (v : A)
  : Py.result (array3 A) :=
  ih <- Py.index (dim1 a) h ;;
  ik <- Py.index (dim2 a) k ;;
  let n := shape0_3 a in
  let lo := Py.slice_bound n start in
  let hi := Py.slice_bound n stop in
  Py.Ok (Array3 (dim1 a) (dim2 a)
           (imap (fun t row =>
                    if (lo <=? Z.of_nat t) && (Z.of_nat t <? hi)
                    then alter (fun p => <[ik := v]> p) ih row
                    else row)
                 (cells a))).

(** [a.astype(dtype)]: a new array, every cell converted. *)
Definition astype2 {A B} (conv : A -> B) (a : array2 A) : array2 B :=
  Array2 (ncols a) (List.map (List.map conv) (rows a)).

Definition astype3 {A B} (conv : A -> B) (a : array3 A) : array3 B :=
  Array3 (dim1 a) (dim2 a) (List.map (List.map (List.map conv)) (cells a)).

(** [np.concatenate(parts, axis=0)] *)
Definition concatenate2 {A} (parts : list (array2 A)) : Py.result (array2 A) :=
  match parts with
  | [] => Py.Raise Py.ValueError
  | p :: _ =>
      if forallb (fun q => ncols q =? ncols p) parts
      then Py.Ok (Array2 (ncols p) (concat (List.map rows parts)))
      else Py.Raise Py.ValueError
  end.

(** Conversions between the dtypes the module uses.  The numeric cells
    only ever hold 0, 1 and 2, which [float32], [float64] and [longlong]
    all represent exactly; they are kept as integers. *)
Definition bool_to_bool (b : bool) : bool := b.
Definition bool_to_float32 (b : bool) : Z := if b then 1 else 0.
Definition float64_to_longlong (v : Z) : Z := v.

End Np.

(** ** class AllData

    File discovery, MIDI parsing and saving belong to [glob], [pretty_midi]
    and [np.save].  [_convert] is the body of its loop for one parsed file,
    returning the array [hands] it saves; [initialize_from_dir] is the
    split of the file list, up to the three lists it stores. *)

Module AllData.

Section WithFloat.

Context {F : FloatOps}.

(** [pretty_midi.Note] and what [_convert] reads of a [PrettyMIDI]:
    [get_end_time()] and the notes of each instrument.  The end time is
    what the library returns, the time of the latest event of the file over
    all its instruments and meta events; [_convert] takes it as it comes, so
    it is a field of its own here and a property holds for every value of
    it. *)
Record Note : Type := mkNote { pitch : Z; start : float; end_ : float }.

Record PrettyMIDI : Type :=
  mkMIDI { get_end_time : float; instruments : list (list Note) }.

(** [for note in midi_hand.notes: ...] *)
Definition fill_notes (samples_per_sec hand : Z) (notes : list Note)
           (hands : Np.array3 bool) : Py.result (Np.array3 bool) :=
  Py.for_ notes (fun note hands =>
    let start := ffloor (fmul (start note) samples_per_sec) in
    let end_ := fceil (fmul (end_ note) samples_per_sec) in
    Np.setitem_slice hands start end_ hand (pitch note - 21) true) hands.

Definition _convert (ms_window : Z) (midi : PrettyMIDI)
  : Py.result (Np.array3 bool) :=
  samples_per_sec <- Py.floordiv 1000 ms_window ;;
  left <- Py.getitem (instruments midi) 0 ;;
  right <- Py.getitem (instruments midi) 1 ;;
  let midi_data := [left; right] in
  let n_windows := fceil (fmul (get_end_time midi) samples_per_sec) in
  hands <- Np.zeros3 n_windows 2 88 ;;
  Py.for_ (Py.enumerate midi_data) (fun '(hand, midi_hand) hands =>
    fill_notes samples_per_sec hand midi_hand hands) hands.

(** [r.shuffle] of [random.Random(42)] is the parameter [shuffle]. *)
Definition initialize_from_dir {File : Type}
           (shuffle : list File -> list File) (all_files : list File)
  : Py.result (list File * list File * list File) :=
  let all_files := shuffle all_files in
  let len := Z.of_nat (length all_files) in
  let n_valid_test := fceil (fmul (fliteral (15 # 100)) len) in
  let n_train := len - n_valid_test * 2 in
  let range_train := (0, n_train) in
  let range_valid := (snd range_train, snd range_train + n_valid_test) in
  let range_test := (snd range_valid, snd range_valid + n_valid_test) in
  _ <- Py.assert (snd range_test =? len) ;;
  let train_files := Py.slice all_files (fst range_train) (snd range_train) in
  let valid_files := Py.slice all_files (fst range_valid) (snd range_valid) in
  let test_files := Py.slice all_files (fst range_test) (snd range_test) in
  Py.Ok (train_files, valid_files, test_files).

End WithFloat.

End AllData.

(** ** class HanndsDataset *)

Definition LEFT_HAND_LABEL : Z := 1.
Definition RIGHT_HAND_LABEL : Z := 2.

Module HanndsDataset.

Record XY : Type := mkXY { X : Np.array2 Z; Y : Np.array2 Z }.

Record t : Type := mk { len_sequence : Z; data : XY }.

Definition _compute_X_Y (data : Np.array3 bool)
  : Py.result (Np.array2 Z * Np.array2 Z) :=
  let data := Np.astype3 Np.bool_to_bool data in
  let batch_size := Np.shape0_3 data in
  left <- Np.take1 data 0 ;;
  right <- Np.take1 data 1 ;;
  let X := Np.logical_or left right in
  Y <- Np.zeros2 batch_size 88 ;;
  mask <- Np.take1 data 0 ;;
  Y <- Np.setitem_mask Y mask LEFT_HAND_LABEL ;;
  mask <- Np.take1 data 1 ;;
  Y <- Np.setitem_mask Y mask RIGHT_HAND_LABEL ;;
  Py.Ok (Np.astype2 Np.bool_to_float32 X, Np.astype2 Np.float64_to_longlong Y).

Definition __init__ (npy_data : Np.array3 bool) (len_sequence : Z)
  : Py.result t :=
  xy <- _compute_X_Y npy_data ;;
  Py.Ok (mk len_sequence (mkXY (fst xy) (snd xy))).

Definition __len__ (self : t) : Py.result Z :=
  if len_sequence self =? -1 then Py.Ok 1
  else
    q <- Py.floordiv (Np.shape0_2 (X (data self))) (len_sequence self) ;;
    Py.Ok (q - 1).

Definition __getitem__ (self : t) (idx : Z)
  : Py.result (Np.array2 Z * Np.array2 Z) :=
  if len_sequence self =? -1 then Py.Ok (X (data self), Y (data self))
  else
    let start := idx * len_sequence self in
    let end_ := start + len_sequence self in
    let res1 := Np.slice2 (X (data self)) start end_ in
    let res2 := Np.slice2 (Y (data self)) start end_ in
    _ <- Py.assert ((Np.shape0_2 res1 =? Np.shape0_2 res2)
                    && (Np.shape0_2 res2 =? len_sequence self)) ;;
    Py.Ok (res1, res2).

End HanndsDataset.

(** ** Arrays as objects

    The values above say what [_compute_X_Y] computes.  To say what it
    leaves alone, arrays are objects in a store: [astype], [logical_or] and
    [zeros] allocate a new object, [data[:, h, :]] is a view that reads
    through to the array it was taken from, and [Y[mask] = v] overwrites
    the object [Y] in place.  The store survives an exception. *)

Module Heap.

Abbreviation loc := positive.

Inductive dtype : Type := bool_ | float32 | float64 | longlong.

Inductive ndarray : Type :=
| Bool3 (a : Np.array3 bool)
| Bool2 (a : Np.array2 bool)
| Num2 (dt : dtype) (a : Np.array2 Z).

Definition M (A : Type) : Type :=
  gmap loc ndarray -> Py.result A * gmap loc ndarray.

Definition ret {A} (a : A) : M A := fun st => (Py.Ok a, st).

Definition bind {A B} (m : M A) (k : A -> M B) : M B :=
  fun st =>
    match m st with
    | (Py.Ok a, st') => k a st'
    | (Py.Raise e, st') => (Py.Raise e, st')
    end.

Definition lift {A} (r : Py.result A) : M A := fun st => (r, st).

(** A new object, at a location the store does not use. *)
Definition alloc (v : ndarray) : M loc :=
  fun st => let l := fresh (dom st) in (Py.Ok l, <[l := v]> st).

(** The object a reference points to (a Python reference always points
    to one; the other branch is never taken). *)
Definition load (l : loc) : M ndarray :=
  fun st =>
    match st !! l with
    | Some v => (Py.Ok v, st)
    | None => (Py.Raise Py.RuntimeError, st)
    end.

(** Overwrite the object at [l]. *)
Definition write (l : loc) (v : ndarray) : M unit :=
  fun st => (Py.Ok tt, <[l := v]> st).

Notation "x <<- c1 ;; c2" := (bind c1 (fun x => c2))
  (at level 100, c1 at next level, right associativity).

Definition load_bool3 (l : loc) : M (Np.array3 bool) :=
  v <<- load l ;;
  match v with
  | Bool3 a => ret a
  | _ => lift (Py.Raise Py.TypeError)
  end.

Definition load_bool2 (l : loc) : M (Np.array2 bool) :=
  v <<- load l ;;
  match v with
  | Bool2 a => ret a
  | _ => lift (Py.Raise Py.TypeError)
  end.

Definition load_num2 (l : loc) : M (dtype * Np.array2 Z) :=
  v <<- load l ;;
  match v with
  | Num2 dt a => ret (dt, a)
  | _ => lift (Py.Raise Py.TypeError)
  end.

(** [a.astype(np.bool)] of a boolean array: a copy. *)
Definition astype_bool (a : loc) : M loc :=
  v <<- load_bool3 a ;;
  alloc (Bool3 (Np.astype3 Np.bool_to_bool v)).

(** [a.shape[0]] *)
Definition shape0 (a : loc) : M Z :=
  v <<- load_bool3 a ;;
  ret (Np.shape0_3 v).

(** [a[:, h, :]]: a view, the array it belongs to and the plane. *)
Definition view : Type := (loc * Z)%type.

Definition getitem_plane (a : loc) (h : Z) : M view :=
  v <<- load_bool3 a ;;
  _ <<- lift (Py.index (Np.dim1 v) h) ;;
  ret (a, h).

Definition read_view (w : view) : M (Np.array2 bool) :=
  v <<- load_bool3 (fst w) ;;
  lift (Np.take1 v (snd w)).

(** [np.logical_or(v1, v2)] *)
Definition logical_or (w1 w2 : view) : M loc :=
  a <<- read_view w1 ;;
  b <<- read_view w2 ;;
  alloc (Bool2 (Np.logical_or a b)).

(** [np.zeros((n, m))], of dtype [float64]. *)
Definition zeros (n m : Z) : M loc :=
  z <<- lift (Np.zeros2 n m) ;;
  alloc (Num2 float64 z).

(** [y[mask] = v], in place. *)
Definition setitem_mask (y : loc) (mask : view) (v : Z) : M unit :=
  m <<- read_view mask ;;
  old <<- load_num2 y ;;
  new <<- lift (Np.setitem_mask (snd old) m v) ;;
  write y (Num2 (fst old) new).

(** [x.astype(np.float32)] and [y.astype(np.longlong)] *)
Definition astype_float32 (x : loc) : M loc :=
  v <<- load_bool2 x ;;
  alloc (Num2 float32 (Np.astype2 Np.bool_to_float32 v)).

Definition astype_longlong (y : loc) : M loc :=
  v <<- load_num2 y ;;
  alloc (Num2 longlong (Np.astype2 Np.float64_to_longlong (snd v))).

Module HanndsDataset.

Record XY : Type := mkXY { X : loc; Y : loc }.

Record t : Type := mk { len_sequence : Z; data : XY }.

Definition _compute_X_Y (data : loc) : M (loc * loc) :=
  data <<- astype_bool data ;;
  batch_size <<- shape0 data ;;
  left <<- getitem_plane data 0 ;;
  right <<- getitem_plane data 1 ;;
  X <<- logical_or left right ;;
  Y <<- zeros batch_size 88 ;;
  mask <<- getitem_plane data 0 ;;
  _ <<- setitem_mask Y mask LEFT_HAND_LABEL ;;
  mask <<- getitem_plane data 1 ;;
  _ <<- setitem_mask Y mask RIGHT_HAND_LABEL ;;
  X' <<- astype_float32 X ;;
  Y' <<- astype_longlong Y ;;
  ret (X', Y').

Definition __init__ (npy_data : loc) (len_sequence : Z) : M t :=
  xy <<- _compute_X_Y npy_data ;;
  ret (mk len_sequence (mkXY (fst xy) (snd xy))).

End HanndsDataset.

End Heap.

(** ** More of NumPy *)

Module Npx.

(** [np.concatenate(parts, axis=0)] of arrays with three axes: at least
    one array, all with the inner shape of the first. *)
Definition concatenate3 {A} (parts : list (Np.array3 A))
  : Py.result (Np.array3 A) :=
  match parts with
  | [] => Py.Raise Py.ValueError
  | p :: _ =>
      if forallb (fun q => (Np.dim1 q =? Np.dim1 p) && (Np.dim2 q =? Np.dim2 p)) parts
      then Py.Ok (Np.Array3 (Np.dim1 p) (Np.dim2 p) (concat (List.map Np.cells parts)))
      else Py.Raise Py.ValueError
  end.

End Npx.

(** One time step of [X] and of [Y], computed from the hand planes of that
    time step as [_compute_X_Y] does for the whole array. *)
Definition X_row (step : list (list bool)) : list Z :=
  List.map Np.bool_to_float32 (zip_with orb (nth 0 step []) (nth 1 step [])).

Definition Y_row (step : list (list bool)) : list Z :=
  List.map Np.float64_to_longlong
    (zip_with (fun yv (m : bool) => if m then RIGHT_HAND_LABEL else yv)
       (zip_with (fun yv (m : bool) => if m then LEFT_HAND_LABEL else yv)
          (repeat 0 88) (nth 0 step []))
       (nth 1 step [])).

(** ** The file system

    Files live in a map from paths to contents, which a call may change and
    which survives an exception.  What belongs to [glob], [os.path],
    [pretty_midi] and the [.npy] format is a parameter: the matches of a
    pattern, the join of two path parts, the parse of a MIDI file, the
    encoding and decoding of an array. *)

Module Os.

Inductive exn : Type :=
| FileNotFoundError
| Python (e : Py.exn).

Inductive result (A : Type) : Type :=
| Ok (a : A)
| Raise (e : exn).
Arguments Ok {A} a.
Arguments Raise {A} e.

Definition bind {A B} (r : result A) (k : A -> result B) : result B :=
  match r with
  | Ok a => k a
  | Raise e => Raise e
  end.

(** An exception of the pure code, seen from code that also does I/O. *)
Definition lift {A} (r : Py.result A) : result A :=
  match r with
  | Py.Ok a => Ok a
  | Py.Raise e => Raise (Python e)
  end.

(** [a <= b] on [str]. *)
Definition str_le (a b : string) : Prop := String.leb a b = true.

#[export] Instance str_le_dec (a b : string) : Decision (str_le a b).
Proof. unfold str_le. apply _. Defined.

(** [sorted(files)] *)
Definition sorted (files : list string) : list string := merge_sort str_le files.

End Os.

Notation "x <-- c1 ;; c2" := (Os.bind c1 (fun x => c2))
  (at level 100, c1 at next level, right associativity).

Module Disk.

(** An [AllData] object; a field holds [None] until it is assigned. *)
Record AllData : Type := mkAllData {
  train_files : option (list string);
  valid_files : option (list string);
  test_files : option (list string);
  debug : bool;
  train_data : option HanndsDataset.t;
  valid_data : option HanndsDataset.t;
  test_data : option HanndsDataset.t;
}.

(** Iterating over or slicing a field that is still [None]. *)
Definition the_list {A} (field : option (list A)) : Os.result (list A) :=
  match field with
  | Some l => Os.Ok l
  | None => Os.Raise (Os.Python Py.TypeError)
  end.

Section WithFiles.

Context {F : FloatOps}.

(** What a file holds. *)
Context {File : Type}.

(** [pretty_midi.PrettyMIDI(path)] on the contents of an existing file. *)
Variable parse_midi : File -> Os.result AllData.PrettyMIDI.

(** [np.save] and [np.load] on the contents of a file. *)
Variable npy_encode : Np.array3 bool -> File.
Variable npy_decode : File -> Os.result (Np.array3 bool).

(** [glob.glob(pattern)] and [os.path.join(a, b)]. *)
Variable glob : gmap string File -> string -> list string.
Variable join : string -> string -> string.

(** [os.path.isfile(path)] and [os.path.exists(path)]; only files are
    modelled, so the two agree. *)
Definition isfile (disk : gmap string File) (path : string) : bool :=
  bool_decide (is_Some (disk !! path)).

Definition exists_ (disk : gmap string File) (path : string) : bool :=
  bool_decide (is_Some (disk !! path)).

Definition PrettyMIDI (disk : gmap string File) (path : string)
  : Os.result AllData.PrettyMIDI :=
  match disk !! path with
  | Some f => parse_midi f
  | None => Os.Raise Os.FileNotFoundError
  end.

Definition np_load (disk : gmap string File) (path : string)
  : Os.result (Np.array3 bool) :=
  match disk !! path with
  | Some f => npy_decode f
  | None => Os.Raise Os.FileNotFoundError
  end.

Definition np_save (path : string) (a : Np.array3 bool) (disk : gmap string File)
  : gmap string File :=
  <[path := npy_encode a]> disk.

(** [for f in files: body], the disk handed from one step to the next. *)
Fixpoint for_files (files : list string)
         (body : string -> gmap string File -> Os.result unit * gmap string File)
         (disk : gmap string File) : Os.result unit * gmap string File :=
  match files with
  | [] => (Os.Ok tt, disk)
  | f :: files' =>
      match body f disk with
      | (Os.Ok _, disk') => for_files files' body disk'
      | (Os.Raise e, disk') => (Os.Raise e, disk')
      end
  end.

(** [[np.load(f) for f in files]] *)
Fixpoint load_all (disk : gmap string File) (files : list string)
  : Os.result (list (Np.array3 bool)) :=
  match files with
  | [] => Os.Ok []
  | f :: files' =>
      a <-- np_load disk f ;;
      rest <-- load_all disk files' ;;
      Os.Ok (a :: rest)
  end.

Definition _get_files_from_path (disk : gmap string File) (path : string)
           (extensions : list string) : Os.result (list string) :=
  if isfile disk path then Os.Ok (Os.sorted [path])
  else
    let files := flat_map (fun file_type => glob disk (join path file_type))
                          extensions in
    if Z.of_nat (length files) =? 0 then Os.Raise Os.FileNotFoundError
    else Os.Ok (Os.sorted files).

(** [midi_file + '_' + str(ms_window) + 'ms' + '.npy'] *)
Definition npy_name (midi_file : string) (ms_window : Z) : string :=
  String.append
    (String.append
       (String.append (String.append midi_file "_") (pretty ms_window)) "ms")
    ".npy".

(** Lines 71 to 86 of [_convert]: the grid of one parsed file, with the
    rate computed before the loop. *)
Definition quantize (samples_per_sec : Z) (midi : AllData.PrettyMIDI)
  : Py.result (Np.array3 bool) :=
  left <- Py.getitem (AllData.instruments midi) 0 ;;
  right <- Py.getitem (AllData.instruments midi) 1 ;;
  let midi_data := [left; right] in
  let n_windows := fceil (fmul (AllData.get_end_time midi) samples_per_sec) in
  hands <- Np.zeros3 n_windows 2 88 ;;
  Py.for_ (Py.enumerate midi_data) (fun '(hand, midi_hand) hands =>
    AllData.fill_notes samples_per_sec hand midi_hand hands) hands.

(** The body of the loop of [_convert] for one MIDI file. *)
Definition convert_file (samples_per_sec ms_window : Z) (overwrite : bool)
           (midi_file : string) (disk : gmap string File)
  : Os.result unit * gmap string File :=
  let npy_file := npy_name midi_file ms_window in
  if overwrite || negb (exists_ disk npy_file) then
    match PrettyMIDI disk midi_file with
    | Os.Raise e => (Os.Raise e, disk)
    | Os.Ok midi =>
        match quantize samples_per_sec midi with
        | Py.Raise e => (Os.Raise (Os.Python e), disk)
        | Py.Ok hands => (Os.Ok tt, np_save npy_file hands disk)
        end
    end
  else (Os.Ok tt, disk).

Definition _convert (path : string) (ms_window : Z) (overwrite : bool)
           (disk : gmap string File) : Os.result unit * gmap string File :=
  match _get_files_from_path disk path ["*.mid"%string; "*.midi"%string] with
  | Os.Raise e => (Os.Raise e, disk)
  | Os.Ok midi_files =>
      match Py.floordiv 1000 ms_window with
      | Py.Raise e => (Os.Raise (Os.Python e), disk)
      | Py.Ok samples_per_sec =>
          for_files midi_files
                    (convert_file samples_per_sec ms_window overwrite) disk
      end
  end.

Definition _dataset_for_files (disk : gmap string File) (npy_files : list string)
           (len_sequence : Z) (debug : bool) : Os.result HanndsDataset.t :=
  arrays <-- (if debug then load_all disk (Py.slice npy_files 0 2)
              else load_all disk npy_files) ;;
  npy_data <-- Os.lift (Npx.concatenate3 arrays) ;;
  Os.lift (HanndsDataset.__init__ npy_data len_sequence).

(** [AllData(debug)]: the artifacts are made, then the fields are set. *)
Definition __init__ (debug : bool) (disk : gmap string File)
  : Os.result AllData * gmap string File :=
  match _convert "data/" 20 false disk with
  | (Os.Raise e, disk') => (Os.Raise e, disk')
  | (Os.Ok _, disk') =>
      (Os.Ok (mkAllData None None None debug None None None), disk')
  end.

(** The object after the call; an exception leaves it out of the model. *)
Definition _make_datasets (disk : gmap string File) (self : AllData)
           (len_train_sequence : Z) : Os.result AllData :=
  files <-- the_list (train_files self) ;;
  train <-- _dataset_for_files disk files len_train_sequence (debug self) ;;
  files <-- the_list (valid_files self) ;;
  valid <-- _dataset_for_files disk files (-1) (debug self) ;;
  files <-- the_list (test_files self) ;;
  test <-- _dataset_for_files disk files (-1) (debug self) ;;
  Os.Ok (mkAllData (train_files self) (valid_files self) (test_files self)
                   (debug self) (Some train) (Some valid) (Some test)).

Definition initialize_from_lists (disk : gmap string File) (self : AllData)
           (train valid test : list string) (len_train_sequence : Z)
  : Os.result AllData :=
  let self := mkAllData (Some train) (Some valid) (Some test) (debug self)
                        (train_data self) (valid_data self) (test_data self) in
  _make_datasets disk self len_train_sequence.

(** [shuffle] is [random.Random(42).shuffle]; the split is
    [AllData.initialize_from_dir] above. *)
Definition initialize_from_dir (shuffle : list string -> list string)
           (disk : gmap string File) (self : AllData) (len_train_sequence : Z)
  : Os.result AllData :=
  all_files <-- _get_files_from_path disk "data/" ["*.npy"%string] ;;
  split <-- Os.lift (AllData.initialize_from_dir shuffle all_files) ;;
  let self := mkAllData (Some (fst (fst split))) (Some (snd (fst split)))
                        (Some (snd split)) (debug self)
                        (train_data self) (valid_data self) (test_data self) in
  _make_datasets disk self len_train_sequence.

End WithFiles.

End Disk.

(** ** single_file.py

    [SingleFileAnnotate.process] reads a MIDI file with [mido], asks a
    [KalmanMapper] for the hand of every note and writes a file with a track
    for each hand.  The mapper and the conversions between ticks, tempo and
    seconds belong to other modules and are parameters; each of them may
    raise. *)

Module Str.

(** [s.replace(old, new)] for [old] that is not empty: the occurrences are
    taken from the left and do not overlap; [skip] counts the characters of
    an occurrence still to pass over. *)
Fixpoint replace_from (old new : string) (skip : nat) (s : string) : string :=
  match s with
  | EmptyString => EmptyString
  | String c s' =>
      match skip with
      | S skip' => replace_from old new skip' s'
      | O =>
          if String.prefix old s
          then String.append new (replace_from old new (String.length old - 1) s')
          else String c (replace_from old new 0 s')
      end
  end.

(** With an empty [old], [new] goes before every character and at the
    end. *)
Fixpoint between (new : string) (s : string) : string :=
  match s with
  | EmptyString => new
  | String c s' => String.append new (String c (between new s'))
  end.

Definition replace (old new s : string) : string :=
  match old with
  | EmptyString => between new s
  | String _ _ => replace_from old new 0 s
  end.

(** [old in s] *)
Fixpoint contains (old s : string) : bool :=
  String.prefix old s ||
  match s with
  | EmptyString => false
  | String _ s' => contains old s'
  end.

End Str.

Module Mido.

(** A message with the attributes that [process] reads; [note] and
    [velocity] mean something for note messages only, [tempo] for
    [set_tempo] only, and [time] is in ticks. *)
Record Message : Type := mkMessage {
  type : string;
  note : Z;
  velocity : Z;
  tempo : Z;
  time : Z;
}.

(** [msg.copy(time=t)] *)
Definition copy (msg : Message) (t : Z) : Message :=
  mkMessage (type msg) (note msg) (velocity msg) (tempo msg) t.

Definition DEFAULT_TICKS_PER_BEAT : Z := 480.

Record MidiFile : Type := mkMidiFile {
  ticks_per_beat : Z;
  tracks : list (list Message);
}.

(** [_to_reltime(messages)], with its variable [now]. *)
Fixpoint to_reltime_from (now : Z) (messages : list Message) : list Message :=
  match messages with
  | [] => []
  | msg :: rest =>
      let delta := time msg - now in
      copy msg delta :: to_reltime_from (time msg) rest
  end.

Definition _to_reltime (messages : list Message) : list Message :=
  to_reltime_from 0 messages.

End Mido.

Module SingleFileAnnotate.

(** [kalman_mapper.MidiEvent(pitch, is_note_on, when, is_left)] *)
Record MidiEvent {F : FloatOps} : Type := mkMidiEvent {
  pitch : Z;
  is_note_on : bool;
  when : float;
  is_left : option bool;
}.

(** The variables of [process] that change in its loop. *)
Record locals {F : FloatOps} {KalmanMapper : Type} : Type := mkLocals {
  left_hand : list Mido.Message;
  right_hand : list Mido.Message;
  bpm : float;
  left_hand_is_playing : gset Z;
  total_sec : float;
  total_ticks : Z;
  mapper : KalmanMapper;
}.
Arguments locals {F} KalmanMapper.

Section WithMapper.

Context {F : FloatOps}.

(** [x + y] on floats. *)
Variable fadd : float -> float -> float.

(** [mido.tick2second(tick, ticks_per_beat, tempo)], [mido.bpm2tempo(bpm)]
    and [mido.tempo2bpm(tempo)]. *)
Variable tick2second : Z -> Z -> Z -> Py.result float.
Variable bpm2tempo : float -> Py.result Z.
Variable tempo2bpm : Z -> Py.result float.

(** The mapper: [mapper.midi_event(event)] changes it, and
    [mapper.last_was_left_hand] is read as a truth value. *)
Variable KalmanMapper : Type.
Variable midi_event : MidiEvent -> KalmanMapper -> Py.result KalmanMapper.
Variable last_was_left_hand : KalmanMapper -> bool.

(** The body of the inner loop, lines 27 to 50. *)
Definition step (ticks_per_beat : Z) (msg : Mido.Message) (s : locals KalmanMapper)
  : Py.result (locals KalmanMapper) :=
  tempo <- bpm2tempo (bpm s) ;;
  sec <- tick2second (Mido.time msg) ticks_per_beat tempo ;;
  let total_sec := fadd (total_sec s) sec in
  let total_ticks := total_ticks s + Mido.time msg in
  if String.eqb (Mido.type msg) "note_off"
     || (String.eqb (Mido.type msg) "note_on" && (Mido.velocity msg =? 0)) then
    let event := mkMidiEvent F (Mido.note msg) false total_sec None in
    mapper <- midi_event event (mapper s) ;;
    if bool_decide (Mido.note msg ∈ left_hand_is_playing s) then
      Py.Ok (mkLocals F KalmanMapper
               (left_hand s ++ [Mido.copy msg total_ticks]) (right_hand s) (bpm s)
               (left_hand_is_playing s ∖ {[Mido.note msg]})
               total_sec total_ticks mapper)
    else
      Py.Ok (mkLocals F KalmanMapper
               (left_hand s) (right_hand s ++ [Mido.copy msg total_ticks]) (bpm s)
               (left_hand_is_playing s) total_sec total_ticks mapper)
  else if String.eqb (Mido.type msg) "note_on" then
    let event := mkMidiEvent F (Mido.note msg) true total_sec None in
    mapper <- midi_event event (mapper s) ;;
    if last_was_left_hand mapper then
      Py.Ok (mkLocals F KalmanMapper
               (left_hand s ++ [Mido.copy msg total_ticks]) (right_hand s) (bpm s)
               ({[Mido.note msg]} ∪ left_hand_is_playing s)
               total_sec total_ticks mapper)
    else
      Py.Ok (mkLocals F KalmanMapper
               (left_hand s) (right_hand s ++ [Mido.copy msg total_ticks]) (bpm s)
               (left_hand_is_playing s) total_sec total_ticks mapper)
  else
    bpm <- (if String.eqb (Mido.type msg) "set_tempo"
            then tempo2bpm (Mido.tempo msg) else Py.Ok (bpm s)) ;;
    Py.Ok (mkLocals F KalmanMapper
             (left_hand s ++ [Mido.copy msg total_ticks])
             (right_hand s ++ [Mido.copy msg total_ticks]) bpm
             (left_hand_is_playing s) total_sec total_ticks (mapper s)).

(** Lines 16 to 24: the variables before the loop. *)
Definition initially (mapper : KalmanMapper) : locals KalmanMapper :=
  mkLocals F KalmanMapper [] [] (fliteral 120) {[0]} fzero 0 mapper.

(** Lines 14 to 53: from the file read to the file to save, with the
    mapper as the call leaves it. *)
Definition split (mid : Mido.MidiFile) (mapper : KalmanMapper)
  : Py.result (Mido.MidiFile * KalmanMapper) :=
  s <- Py.for_ (Mido.tracks mid) (fun track s =>
         Py.for_ track (step (Mido.ticks_per_beat mid)) s) (initially mapper) ;;
  let new_mid :=
    Mido.mkMidiFile Mido.DEFAULT_TICKS_PER_BEAT
      [Mido._to_reltime (right_hand s); Mido._to_reltime (left_hand s)] in
  Py.Ok (new_mid, SingleFileAnnotate.mapper s).

(** What a file holds, [mido.MidiFile(filename)] on the contents of an
    existing file, and what [save] writes. *)
Context {File : Type}.
Variable read_midi : File -> Os.result Mido.MidiFile.
Variable write_midi : Mido.MidiFile -> File.

Definition process (filename : string) (mapper : KalmanMapper)
           (disk : gmap string File) : Os.result KalmanMapper * gmap string File :=
  match disk !! filename with
  | None => (Os.Raise Os.FileNotFoundError, disk)
  | Some f =>
      match read_midi f with
      | Os.Raise e => (Os.Raise e, disk)
      | Os.Ok mid =>
          match split mid mapper with
          | Py.Raise e => (Os.Raise (Os.Python e), disk)
          | Py.Ok (new_mid, mapper) =>
              (Os.Ok mapper,
               <[Str.replace ".mid" "-split.mid" filename := write_midi new_mid]> disk)
          end
      end
  end.

End WithMapper.

End SingleFileAnnotate.

(** ** The vocabulary of the specification *)

(** The indices in the order the specification gives them. *)
Definition continuation_order (stride batch_size : Z) : list Z :=
  flat_map (fun b => List.map (fun j => b + stride * j) (Py.range batch_size))
           (Py.range stride).

(** An activity grid has shape [[T][2][88]]. *)
Definition activity_grid (g : Np.array3 bool) : Prop :=
  Np.shaped3 g /\ Np.dim1 g = 2 /\ Np.dim2 g = 88.

(** The label of one cell as the specification words it: start from 0,
    write 1 if the left hand is active, then write 2 if the right hand is
    active. *)
Definition label_in_two_passes (left right : bool) : Z :=
  let y := 0 in
  let y := if left then 1 else y in
  let y := if right then 2 else y in
  y.

(** All windows of a view, [[self[i] for i in range(len(self))]]; the
    built-in [len] refuses a negative [__len__]. *)
Fixpoint getitems (self : HanndsDataset.t) (idxs : list Z)
  : Py.result (list (Np.array2 Z * Np.array2 Z)) :=
  match idxs with
  | [] => Py.Ok []
  | i :: idxs' =>
      w <- HanndsDataset.__getitem__ self i ;;
      ws <- getitems self idxs' ;;
      Py.Ok (w :: ws)
  end.

Definition windows (self : HanndsDataset.t)
  : Py.result (list (Np.array2 Z * Np.array2 Z)) :=
  n <- HanndsDataset.__len__ self ;;
  if n <? 0 then Py.Raise Py.ValueError
  else getitems self (Py.range n).

(** The time steps a slice [start:stop] reaches on an axis of length [n]. *)
Definition in_slice (n start stop : Z) (t : nat) : bool :=
  (Py.slice_bound n start <=? Z.of_nat t) && (Z.of_nat t <? Py.slice_bound n stop).

Section NoteEvents.

Context {F : FloatOps}.

(** A note event as the data model has it: a pitch on the 88 keys, a
    start that is not negative and an end that is not before the start. *)
Definition well_formed (note : AllData.Note) : Prop :=
  21 <= AllData.pitch note <= 108
  /\ fle fzero (AllData.start note)
  /\ fle (AllData.start note) (AllData.end_ note).

(** The key index [pitch - 21] is one NumPy accepts on an axis of 88. *)
Definition key_index_accepted (note : AllData.Note) : Prop :=
  -88 <= AllData.pitch note - 21 < 88.

(** The note marks key [k] at time step [t] of a grid of [n] steps. *)
Definition note_marks (samples_per_sec n : Z) (t k : nat) (note : AllData.Note)
  : bool :=
  in_slice n (ffloor (fmul (AllData.start note) samples_per_sec))
             (fceil (fmul (AllData.end_ note) samples_per_sec)) t
  && (k =? Z.to_nat ((AllData.pitch note - 21) mod 88))%nat.

(** The note covers time step [t] at key [k]. *)
Definition covers (rate : Z) (t k : nat) (note : AllData.Note) : Prop :=
  AllData.pitch note = Z.of_nat k + 21
  /\ ffloor (fmul (AllData.start note) rate) <= Z.of_nat t
     < fceil (fmul (AllData.end_ note) rate).

End NoteEvents.

Section StoreFrame.

(** The store before a call. *)
Variable st0 : gmap positive Heap.ndarray.

(** Every object of [st0] is still there, unchanged. *)
Definition extends_from (st : gmap positive Heap.ndarray) : Prop :=
  forall l v, st0 !! l = Some v -> st !! l = Some v.

(** [m] keeps the objects of [st0] as they are, whether it returns or
    raises, and what it returns satisfies [Q]. *)
Definition keeps_from {A} (m : Heap.M A) (Q : A -> Prop) : Prop :=
  forall st, extends_from st ->
             extends_from (snd (m st)) /\ forall a, fst (m st) = Py.Ok a -> Q a.

(** The location holds no object of [st0]. *)
Definition new_since (l : positive) : Prop := st0 !! l = None.

End StoreFrame.

(** Tracks: the ticks that a list of messages lasts, the messages with
    their times counted from the start of the list, and the tests that
    [process] makes on a message. *)
Definition ticks (messages : list Mido.Message) : Z :=
  fold_right (fun msg total => Mido.time msg + total) 0 messages.

Fixpoint absolute_from (now : Z) (messages : list Mido.Message)
  : list Mido.Message :=
  match messages with
  | [] => []
  | msg :: rest =>
      Mido.copy msg (now + Mido.time msg)
      :: absolute_from (now + Mido.time msg) rest
  end.

Definition absolute (messages : list Mido.Message) : list Mido.Message :=
  absolute_from 0 messages.

Definition is_note (msg : Mido.Message) : bool :=
  String.eqb (Mido.type msg) "note_on" || String.eqb (Mido.type msg) "note_off".

Definition ends_note (msg : Mido.Message) : bool :=
  String.eqb (Mido.type msg) "note_off"
  || (String.eqb (Mido.type msg) "note_on" && (Mido.velocity msg =? 0)).

Definition starts_note (msg : Mido.Message) : bool :=
  String.eqb (Mido.type msg) "note_on" && negb (Mido.velocity msg =? 0).

(** How many messages of a track end, and how many start, the note [n]. *)
Definition note_ends (n : Z) (track : list Mido.Message) : nat :=
  length (List.filter (fun msg => ends_note msg && (Mido.note msg =? n)) track).

Definition note_starts (n : Z) (track : list Mido.Message) : nat :=
  length (List.filter (fun msg => starts_note msg && (Mido.note msg =? n)) track).

(** Of messages that each carry a hand, those that a hand's track gets:
    the notes of that hand and every message that is not a note. *)
Definition of_hand (left : bool) (assigned : list (Mido.Message * bool))
  : list Mido.Message :=
  List.map fst
    (List.filter (fun a => negb (is_note (fst a)) || Bool.eqb (snd a) left) assigned).

(** The times of a track never go back: they start at [lo] or later and
    end at [hi] or earlier. *)
Fixpoint rising (lo hi : Z) (track : list Mido.Message) : Prop :=
  match track with
  | [] => lo <= hi
  | msg :: rest => lo <= Mido.time msg /\ rising (Mido.time msg) hi rest
  end.

(** ** Example inputs *)

(** A grid of two time steps; both hands hold the lowest key in the first
    step, the right hand alone holds the next key in the second. *)
Definition example_grid : Np.array3 bool :=
  Np.Array3 2 88
    [ [ true :: repeat false 87; true :: repeat false 87 ];
      [ repeat false 88; false :: true :: repeat false 86 ] ].

(** Seven time steps of a single key, in windows of two steps. *)
Definition example_dataset : HanndsDataset.t :=
  HanndsDataset.mk 2
    (HanndsDataset.mkXY
       (Np.Array2 1 [[0]; [1]; [1]; [1]; [0]; [1]; [0]])
       (Np.Array2 1 [[0]; [1]; [1]; [2]; [0]; [2]; [0]])).

(** Two notes in exact arithmetic: middle C in the left hand for the first
    50 ms, the C above it in the right hand from 20 ms to 100 ms. *)
Definition example_midi : AllData.PrettyMIDI (F := Qfloat) :=
  AllData.mkMIDI (F := Qfloat) (1 # 10)%Q
    [ [AllData.mkNote (F := Qfloat) 60 0%Q (5 # 100)%Q];
      [AllData.mkNote (F := Qfloat) 72 (2 # 100)%Q (1 # 10)%Q] ].

(** Notes the data model excludes: a pitch below the lowest key, a note
    that ends 4 ms before it starts, a pitch above the highest key. *)
Definition low_note : AllData.Note (F := Qfloat) :=
  AllData.mkNote (F := Qfloat) 20 0%Q (5 # 100)%Q.

Definition early_note : AllData.Note (F := Qfloat) :=
  AllData.mkNote (F := Qfloat) 21 (15 # 1000)%Q (11 # 1000)%Q.

Definition high_note : AllData.Note (F := Qfloat) :=
  AllData.mkNote (F := Qfloat) 109 0%Q (5 # 100)%Q.

Definition malformed_midi : AllData.PrettyMIDI (F := Qfloat) :=
  AllData.mkMIDI (F := Qfloat) (1 # 10)%Q [[low_note]; [early_note]].

(** A store holding the example grid and nothing else. *)
Definition example_store : gmap positive Heap.ndarray :=
  {[ 5%positive := Heap.Bool3 example_grid ]}.

(** Files that are a parsed MIDI file, a saved array or neither. *)
Inductive ExampleFile : Type :=
| MidiFile (midi : AllData.PrettyMIDI (F := Qfloat))
| NpyFile (a : Np.array3 bool)
| OtherFile.

Definition example_parse_midi (f : ExampleFile)
  : Os.result (AllData.PrettyMIDI (F := Qfloat)) :=
  match f with
  | MidiFile midi => Os.Ok midi
  | _ => Os.Raise (Os.Python Py.ValueError)
  end.

Definition example_npy_decode (f : ExampleFile) : Os.result (Np.array3 bool) :=
  match f with
  | NpyFile a => Os.Ok a
  | _ => Os.Raise (Os.Python Py.ValueError)
  end.

(** Patterns with one star: the paths of the disk that start with what
    stands before the star and end with what stands after it. *)
Definition ends_with (suffix s : string) : bool :=
  String.eqb
    (String.substring (String.length s - String.length suffix)
                      (String.length suffix) s)
    suffix.

Definition example_glob (disk : gmap string ExampleFile) (pattern : string)
  : list string :=
  match String.index 0 "*" pattern with
  | None => if bool_decide (is_Some (disk !! pattern)) then [pattern] else []
  | Some n =>
      let before := String.substring 0 n pattern in
      let after := String.substring (S n) (String.length pattern - S n) pattern in
      List.filter
        (fun p => String.prefix before p && ends_with after p
                  && (String.length before + String.length after
                      <=? String.length p)%nat)
        (fst <$> map_to_list disk)
  end.

(** A directory with two MIDI files, one of them converted long ago, and a
    file that is neither MIDI nor array. *)
Definition example_disk : gmap string ExampleFile :=
  {[ "data/a.mid"%string := MidiFile example_midi;
     "data/b.midi"%string := MidiFile example_midi;
     "data/b.midi_20ms.npy"%string := OtherFile;
     "data/notes.txt"%string := OtherFile ]}.

(** The same directory after [_convert], without and with [overwrite]. *)
Definition example_disk_converted : gmap string ExampleFile :=
  snd (Disk._convert example_parse_midi NpyFile example_glob String.append
         "data/" 20 false example_disk).

Definition example_disk_overwritten : gmap string ExampleFile :=
  snd (Disk._convert example_parse_midi NpyFile example_glob String.append
         "data/" 20 true example_disk).

(** A directory of three artifacts, and one of two. *)
Definition example_artifacts : gmap string ExampleFile :=
  {[ "data/a.npy"%string := NpyFile example_grid;
     "data/b.npy"%string := NpyFile example_grid;
     "data/c.npy"%string := NpyFile example_grid ]}.

Definition example_two_artifacts : gmap string ExampleFile :=
  {[ "data/a.npy"%string := NpyFile example_grid;
     "data/b.npy"%string := NpyFile example_grid ]}.

(** An [AllData] object as its constructor leaves it. *)
Definition example_self : Disk.AllData :=
  Disk.mkAllData None None None false None None None.

(** A mapper that gives the notes below middle C to the left hand, with
    the conversions of [mido] in exact arithmetic. *)
Definition example_midi_event (event : SingleFileAnnotate.MidiEvent (F := Qfloat))
           (mapper : bool) : Py.result bool :=
  Py.Ok (SingleFileAnnotate.pitch event <? 60).

Definition example_tick2second (tick ticks_per_beat tempo : Z) : Py.result Q :=
  if ticks_per_beat =? 0 then Py.Raise Py.ZeroDivisionError
  else Py.Ok (inject_Z tick * (inject_Z tempo * (1 # 1000000) / inject_Z ticks_per_beat))%Q.

Definition example_bpm2tempo (bpm : Q) : Py.result Z :=
  if Qeq_bool bpm 0 then Py.Raise Py.ZeroDivisionError
  else Py.Ok (Qfloor (60000000 / bpm + (1 # 2)))%Q.

Definition example_tempo2bpm (tempo : Z) : Py.result Q :=
  if tempo =? 0 then Py.Raise Py.ZeroDivisionError
  else Py.Ok (60000000 / inject_Z tempo)%Q.

(** A file of two tracks: the tempo and a note of the right hand, then a
    note of the left hand that ends with a [note_on] of velocity 0. *)
Definition example_song : Mido.MidiFile :=
  Mido.mkMidiFile 96
    [ [ Mido.mkMessage "set_tempo" 0 0 500000 0;
        Mido.mkMessage "note_on" 72 64 0 0;
        Mido.mkMessage "note_off" 72 0 0 96 ];
      [ Mido.mkMessage "note_on" 48 64 0 0;
        Mido.mkMessage "note_on" 48 0 0 48;
        Mido.mkMessage "end_of_track" 0 0 0 0 ] ].

(** A file that ends a note 0 which never started. *)
Definition example_stray_end : Mido.MidiFile :=
  Mido.mkMidiFile 96 [ [ Mido.mkMessage "note_off" 0 0 0 10 ] ].

Definition example_songs : gmap string Mido.MidiFile :=
  {[ "song.mid"%string := example_song; "SONG.MID"%string := example_song ]}.

(* ===================================================================== *)
(** * Part II: properties                                                 *)
(* ===================================================================== *)

(** ** Ranges and slices *)

Lemma range_length n : length (Py.range n) = Z.to_nat n.
Proof. unfold Py.range. now rewrite length_map, length_seq. Qed.

Lemma range_In n x : In x (Py.range n) <-> 0 <= x < n.
Proof.
  unfold Py.range. rewrite in_map_iff. split.
  - intros (k & <- & Hk). apply in_seq in Hk. lia.
  - intros Hx. exists (Z.to_nat x). split; [lia|]. apply in_seq. lia.
Qed.

Lemma range_NoDup n : NoDup (Py.range n).
Proof.
  unfold Py.range. apply Finite.Injective_map_NoDup.
  - intros a b. apply Nat2Z.inj.
  - apply seq_NoDup.
Qed.

Lemma range_nonpos n : n <= 0 -> Py.range n = [].
Proof. intros H. unfold Py.range. now replace (Z.to_nat n) with 0%nat by lia. Qed.

(** ** ContinuationSampler: the emitted stream *)

Section SamplerLoops.

Variable step : Z.

(** The inner loop, started at [index0], yields [index0 + step * j]. *)
Lemma inner_loop_run (xs : list Z) (index0 : Z) :
  Py.gfor xs (fun (j index : Z) =>
                _ <~ Py.yield index ;; Py.gret (index + step)) index0
  = (List.map (fun k => index0 + step * Z.of_nat k) (seq 0 (length xs)),
     Py.Ok (index0 + step * Z.of_nat (length xs))).
Proof.
  revert index0. induction xs as [|x xs IH]; intros index0.
  - cbn. unfold Py.gret. do 2 f_equal. lia.
  - cbn [Py.gfor length seq List.map].
    change (_ <~ Py.yield index0 ;; Py.gret (index0 + step))
      with ([index0], @Py.Ok Z (index0 + step)).
    unfold Py.gbind at 1. rewrite IH. cbn [app]. f_equal.
    + f_equal; [lia|]. rewrite <- seq_shift, List.map_map.
      apply List.map_ext. intros k. lia.
    + f_equal. lia.
Qed.

(** A loop without variables whose body yields [f x] yields the
    concatenation of the [f x]. *)
Lemma outer_loop_run (f : Z -> list Z) (body : Z -> unit -> Py.gen unit)
      (xs : list Z) :
  (forall x, body x tt = (f x, Py.Ok tt)) ->
  Py.gfor xs body tt = (flat_map f xs, Py.Ok tt).
Proof.
  intros Hbody. induction xs as [|x xs IH]; [reflexivity|].
  cbn [Py.gfor flat_map]. rewrite Hbody. unfold Py.gbind. now rewrite IH.
Qed.

End SamplerLoops.

Lemma generate_indices_run (self : ContinuationSampler.t) :
  ContinuationSampler.batch_size self <> 0 ->
  ContinuationSampler._generate_indices self
  = (continuation_order
       (ContinuationSampler.len_dataset self / ContinuationSampler.batch_size self)
       (ContinuationSampler.batch_size self),
     Py.Raise Py.StopIteration).
Proof.
  intros Hb. unfold ContinuationSampler._generate_indices, Py.floordiv.
  apply Z.eqb_neq in Hb. rewrite Hb. cbn [Py.glift Py.gbind app].
  set (step := ContinuationSampler.len_dataset self / ContinuationSampler.batch_size self).
  rewrite (outer_loop_run
             (fun b => List.map (fun j => b + step * j)
                         (Py.range (ContinuationSampler.batch_size self)))).
  - cbn. unfold continuation_order. now rewrite app_nil_r.
  - intros b. rewrite inner_loop_run. cbn. rewrite app_nil_r. f_equal.
    unfold Py.range. now rewrite length_map, length_seq, List.map_map.
Qed.

Lemma continuation_order_length stride batch_size :
  0 <= stride -> 0 <= batch_size ->
  Z.of_nat (length (continuation_order stride batch_size)) = stride * batch_size.
Proof.
  intros Hs Hb. unfold continuation_order.
  assert (forall xs : list Z,
             length (flat_map (fun b => List.map (fun j => b + stride * j)
                                          (Py.range batch_size)) xs)
             = (length xs * Z.to_nat batch_size)%nat) as Hlen.
  { induction xs as [|x xs IH]; [reflexivity|].
    cbn [flat_map length]. rewrite length_app, IH, length_map, range_length. lia. }
  rewrite Hlen, range_length. lia.
Qed.

Lemma continuation_order_In stride batch_size x :
  0 <= stride ->
  In x (continuation_order stride batch_size) <-> 0 <= x < stride * batch_size.
Proof.
  intros Hs. unfold continuation_order. rewrite in_flat_map. split.
  - intros (b & Hb & Hx). apply range_In in Hb. apply in_map_iff in Hx.
    destruct Hx as (j & <- & Hj). apply range_In in Hj.
    assert (stride * j <= stride * (batch_size - 1))
      by (apply Z.mul_le_mono_nonneg_l; lia).
    assert (0 <= stride * j) by (apply Z.mul_nonneg_nonneg; lia). lia.
  - intros Hx. assert (0 < stride) as Hpos.
    { destruct (Z.eq_dec stride 0) as [->|]; lia. }
    exists (x mod stride). split.
    + apply range_In. now apply Z.mod_pos_bound.
    + apply in_map_iff. exists (x / stride). split.
      * pose proof (Z.div_mod x stride). lia.
      * apply range_In. split.
        -- apply Z.div_pos; lia.
        -- apply Z.div_lt_upper_bound; lia.
Qed.

Lemma continuation_order_NoDup stride batch_size :
  NoDup (continuation_order stride batch_size).
Proof.
  unfold continuation_order.
  destruct (Z_le_gt_dec stride 0) as [Hs|Hs].
  { rewrite (range_nonpos stride) by lia. constructor. }
  assert (forall xs : list Z, NoDup xs -> (forall b, In b xs -> 0 <= b < stride) ->
            NoDup (flat_map (fun b => List.map (fun j => b + stride * j)
                                        (Py.range batch_size)) xs)) as Hgen.
  { induction xs as [|b xs IH]; intros Hnd Hin; [constructor|].
    cbn [flat_map]. inversion Hnd as [|? ? Hb Hnd']; subst.
    apply NoDup_app.
    - apply Finite.Injective_map_NoDup; [|apply range_NoDup].
      intros j1 j2 Heq. nia.
    - apply IH; [assumption|]. intros b' Hb'. apply Hin. now right.
    - intros y Hy1 Hy2.
      apply in_map_iff in Hy1. destruct Hy1 as (j & <- & Hj).
      apply in_flat_map in Hy2. destruct Hy2 as (b' & Hb' & Hy2).
      apply in_map_iff in Hy2. destruct Hy2 as (j' & Heq & Hj').
      assert (0 <= b < stride) as Hbr by (apply Hin; now left).
      assert (0 <= b' < stride) as Hbr' by (apply Hin; now right).
      assert (b = b') as ->; [|contradiction].
      rewrite <- (Z.mod_small b stride), <- (Z.mod_small b' stride) by lia.
      rewrite <- (Z.mod_add b j stride), <- (Z.mod_add b' j' stride) by lia.
      f_equal. lia. }
  apply Hgen; [apply range_NoDup|]. intros b. apply range_In.
Qed.

Lemma range_nth_error n i :
  0 <= i < n -> nth_error (Py.range n) (Z.to_nat i) = Some i.
Proof.
  intros Hi. unfold Py.range. rewrite nth_error_map.
  rewrite (nth_error_nth' _ 0%nat) by (rewrite length_seq; lia).
  rewrite seq_nth by lia. cbn. f_equal. lia.
Qed.

(** Position [i * n + j] of a concatenation of blocks of length [n] is
    position [j] of block [i]. *)
Lemma flat_map_nth_block {A B} (f : A -> list B) (n : nat) (xs : list A) :
  (forall x, length (f x) = n) ->
  forall i j a, nth_error xs i = Some a -> (j < n)%nat ->
                nth_error (flat_map f xs) (i * n + j) = nth_error (f a) j.
Proof.
  intros Hlen. induction xs as [|x xs IH]; intros i j a Hi Hj.
  - destruct i; discriminate.
  - destruct i as [|i]; cbn [flat_map].
    + injection Hi as ->. cbn. apply nth_error_app1. now rewrite Hlen.
    + cbn in Hi. rewrite nth_error_app2 by (rewrite Hlen; lia).
      rewrite Hlen. replace (S i * n + j - n)%nat with (i * n + j)%nat by lia.
      now apply IH.
Qed.

Lemma continuation_order_nth stride batch_size b j :
  0 <= b < stride -> 0 <= j < batch_size ->
  nth_error (continuation_order stride batch_size) (Z.to_nat (b * batch_size + j))
  = Some (b + stride * j).
Proof.
  intros Hb Hj. unfold continuation_order.
  replace (Z.to_nat (b * batch_size + j))
    with (Z.to_nat b * Z.to_nat batch_size + Z.to_nat j)%nat by nia.
  rewrite (flat_map_nth_block _ (Z.to_nat batch_size) _) with (a := b).
  - rewrite nth_error_map, range_nth_error by lia. reflexivity.
  - intros x. now rewrite length_map, range_length.
  - now apply range_nth_error.
  - lia.
Qed.

(** C1.  For [num_windows >= 0] and [batch_size >= 1], with
    [stride = num_windows // batch_size], the stream of indices the
    sampler's iterator emits is [b + stride * j] for [b = 0 .. stride-1]
    (outer) and [j = 0 .. batch_size-1] (inner): position
    [b * batch_size + j] holds [b + stride * j].  Its length is
    [stride * batch_size], which is what [__len__] returns, and it holds
    every index of [[0, stride * batch_size)] exactly once.  For 40 windows
    in batches of 5 the stream is [0, 8, 16, 24, 32], then
    [1, 9, 17, 25, 33], and so on to [7, 15, 23, 31, 39]. *)
Theorem C1_continuation_stream (num_windows batch_size : Z) :
  0 <= num_windows -> 1 <= batch_size ->
  let self := ContinuationSampler.__init__ num_windows batch_size in
  let stride := num_windows / batch_size in
  let stream := Py.emitted (ContinuationSampler.__iter__ self) in
  stream = flat_map (fun b => List.map (fun j => b + stride * j)
                                (Py.range batch_size)) (Py.range stride)
  /\ (forall b j, 0 <= b < stride -> 0 <= j < batch_size ->
        nth_error stream (Z.to_nat (b * batch_size + j)) = Some (b + stride * j))
  /\ Z.of_nat (length stream) = stride * batch_size
  /\ ContinuationSampler.__len__ self = Py.Ok (stride * batch_size)
  /\ Py.drain Py.Legacy (ContinuationSampler.__iter__ self) = Py.Ok stream
  /\ NoDup stream
  /\ (forall x, In x stream <-> 0 <= x < stride * batch_size)
  /\ (forall x, 0 <= x < stride * batch_size -> count_occ Z.eq_dec stream x = 1%nat)
  /\ (num_windows = 40 -> batch_size = 5 ->
      stream = [0; 8; 16; 24; 32] ++ [1; 9; 17; 25; 33] ++ [2; 10; 18; 26; 34]
               ++ [3; 11; 19; 27; 35] ++ [4; 12; 20; 28; 36] ++ [5; 13; 21; 29; 37]
               ++ [6; 14; 22; 30; 38] ++ [7; 15; 23; 31; 39]).
Proof.
  intros Hn Hb self stride stream.
  assert (0 <= stride) as Hs by (apply Z.div_pos; lia).
  assert (ContinuationSampler.__iter__ self
          = (continuation_order stride batch_size, Py.Raise Py.StopIteration)) as Hrun.
  { unfold ContinuationSampler.__iter__. rewrite generate_indices_run; [reflexivity|].
    cbn. lia. }
  assert (stream = continuation_order stride batch_size) as Hstream.
  { unfold stream. now rewrite Hrun. }
  assert (forall x, In x stream <-> 0 <= x < stride * batch_size) as Hin.
  { intros x. rewrite Hstream. now apply continuation_order_In. }
  assert (NoDup stream) as Hnd.
  { rewrite Hstream. apply continuation_order_NoDup. }
  split; [exact Hstream|].
  split. { intros b j Hbr Hjr. rewrite Hstream. now apply continuation_order_nth. }
  split. { rewrite Hstream. apply continuation_order_length; lia. }
  split. { unfold ContinuationSampler.__len__, Py.floordiv. cbn.
           destruct (Z.eqb_spec batch_size 0); [lia|]. reflexivity. }
  split. { rewrite Hrun. cbn. now rewrite Hstream. }
  split; [exact Hnd|]. split; [exact Hin|].
  split.
  - intros x Hx. apply Hin in Hx.
    apply (proj1 (NoDup_count_occ Z.eq_dec stream)) with (x := x) in Hnd.
    apply (count_occ_In Z.eq_dec) in Hx. lia.
  - intros -> ->. rewrite Hstream. subst stride. vm_compute. reflexivity.
Qed.

(** The example of the specification: 40 windows in batches of 5. *)
Lemma C1_continuation_stream_witness :
  0 <= 40 /\ 1 <= 5 /\
  Py.emitted (ContinuationSampler.__iter__ (ContinuationSampler.__init__ 40 5))
  = [0; 8; 16; 24; 32] ++ [1; 9; 17; 25; 33] ++ [2; 10; 18; 26; 34]
    ++ [3; 11; 19; 27; 35] ++ [4; 12; 20; 28; 36] ++ [5; 13; 21; 29; 37]
    ++ [6; 14; 22; 30; 38] ++ [7; 15; 23; 31; 39].
Proof.
  split; [lia|]. split; [lia|].
  destruct (C1_continuation_stream 40 5 ltac:(lia) ltac:(lia))
    as (_ & _ & _ & _ & _ & _ & _ & _ & Hexample).
  now apply Hexample.
Defined.

(** Under the generator rules before PEP 479 (Python 3.6 and earlier):
    for [batch_size >= 1], when the stride [num_windows // batch_size] is 0,
    and whenever [batch_size > num_windows], the generator yields nothing
    and finishes with its closing [raise StopIteration], which under those
    rules ends the iteration. *)
Lemma empty_stream_before_pep479 (num_windows batch_size : Z) :
  1 <= batch_size ->
  num_windows / batch_size = 0 \/ num_windows < batch_size ->
  let self := ContinuationSampler.__init__ num_windows batch_size in
  ContinuationSampler._generate_indices self = ([], Py.Raise Py.StopIteration)
  /\ Py.emitted (ContinuationSampler.__iter__ self) = []
  /\ Py.drain Py.Legacy (ContinuationSampler.__iter__ self) = Py.Ok [].
Proof.
  intros Hb Hcase self.
  assert (num_windows / batch_size <= 0) as Hs.
  { destruct Hcase as [->|Hlt]; [lia|].
    destruct (Z_lt_le_dec num_windows 0) as [Hneg|Hpos].
    - assert (num_windows / batch_size < 0); [|lia].
      apply Z.div_lt_upper_bound; lia.
    - rewrite Z.div_small; lia. }
  assert (ContinuationSampler._generate_indices self = ([], Py.Raise Py.StopIteration)) as Hrun.
  { rewrite generate_indices_run by (cbn; lia). cbn.
    unfold continuation_order. now rewrite (range_nonpos _ Hs). }
  unfold ContinuationSampler.__iter__. rewrite Hrun. repeat split.
Qed.

(** Under PEP 479 (the default from Python 3.7 on) the closing
    [raise StopIteration] of the generator body reaches the consumer as
    [RuntimeError], after the same values have been delivered. *)
Remark generate_indices_pep479 (self : ContinuationSampler.t) :
  ContinuationSampler.batch_size self <> 0 ->
  Py.drain Py.PEP479 (ContinuationSampler.__iter__ self) = Py.Raise Py.RuntimeError.
Proof.
  intros Hb. unfold ContinuationSampler.__iter__.
  now rewrite generate_indices_run.
Qed.

(** C2.  With 3 windows and batches of 10 the stride is 0: the generator
    yields nothing and runs into its closing [raise StopIteration].  Under
    PEP 479, in force from Python 3.7, that exception does not end the
    iteration: it reaches the consumer as [RuntimeError], so the stream is
    not an empty stream but an error.  Only under the earlier rules does the
    same run give the empty list. *)
Theorem C2_closing_raise_reaches_the_consumer :
  let self := ContinuationSampler.__init__ 3 10 in
  ContinuationSampler.__len__ self = Py.Ok 0
  /\ ContinuationSampler._generate_indices self = ([], Py.Raise Py.StopIteration)
  /\ Py.drain Py.PEP479 (ContinuationSampler.__iter__ self) = Py.Raise Py.RuntimeError
  /\ Py.drain Py.Legacy (ContinuationSampler.__iter__ self) = Py.Ok [].
Proof.
  intros self.
  destruct (empty_stream_before_pep479 3 10 ltac:(lia) ltac:(right; lia))
    as (Hrun & _ & Hlegacy).
  split; [reflexivity|]. split; [exact Hrun|]. split; [|exact Hlegacy].
  apply generate_indices_pep479. cbn. lia.
Qed.

(** ** NumPy arrays: cells and shapes of the results *)

Lemma lookup_repeat {A} (a : A) (n i : nat) :
  (i < n)%nat -> repeat a n !! i = Some a.
Proof.
  revert i. induction n as [|n IH]; intros i Hi; [lia|].
  destruct i as [|i]; [reflexivity|]. cbn. apply IH. lia.
Qed.

Lemma index_in_range n i : 0 <= i < n -> Py.index n i = Py.Ok (Z.to_nat i).
Proof.
  intros Hi. unfold Py.index.
  destruct (Z.leb_spec 0 i); [|lia]. destruct (Z.ltb_spec i n); [|lia]. reflexivity.
Qed.

Lemma take1_get {A} (a : Np.array3 A) (h : Z) (m : Np.array2 A) (t k : nat) :
  0 <= h < Np.dim1 a -> Np.take1 a h = Py.Ok m ->
  Np.get2 m t k = Np.get3 a t (Z.to_nat h) k
  /\ Np.shape0_2 m = Np.shape0_3 a /\ Np.ncols m = Np.dim2 a.
Proof.
  intros Hh. unfold Np.take1. rewrite index_in_range by assumption. cbn [Py.bind].
  intros [= <-]. unfold Np.get2, Np.get3, Np.shape0_2, Np.shape0_3. cbn [Np.rows Np.ncols].
  split; [|split; [now rewrite length_map | reflexivity]].
  change (List.map ?f ?l) with (f <$> l). rewrite list_lookup_fmap.
  destruct (Np.cells a !! t) as [r|]; [|reflexivity]. cbn.
  rewrite nth_lookup. now destruct (r !! Z.to_nat h).
Qed.

Lemma zeros2_get (n m : Z) (z : Np.array2 Z) (t k : nat) :
  Np.zeros2 n m = Py.Ok z ->
  Np.shape0_2 z = n /\ Np.ncols z = m /\
  (Z.of_nat t < n -> Z.of_nat k < m -> Np.get2 z t k = Some 0).
Proof.
  unfold Np.zeros2. destruct (Z.ltb_spec n 0); [discriminate|].
  destruct (Z.ltb_spec m 0); [discriminate|]. cbn [orb]. intros [= <-].
  unfold Np.shape0_2, Np.get2. cbn [Np.rows Np.ncols]. rewrite repeat_length.
  split; [lia|]. split; [reflexivity|]. intros Ht Hk.
  rewrite lookup_repeat by lia. apply lookup_repeat. lia.
Qed.

Lemma logical_or_get (a b : Np.array2 bool) (t k : nat) (x y : bool) :
  Np.get2 a t k = Some x -> Np.get2 b t k = Some y ->
  Np.get2 (Np.logical_or a b) t k = Some (x || y).
Proof.
  unfold Np.get2, Np.logical_or. cbn [Np.rows]. rewrite lookup_zip_with.
  destruct (Np.rows a !! t) as [ra|]; [|discriminate].
  destruct (Np.rows b !! t) as [rb|]; [|discriminate]. cbn.
  intros Hx Hy. rewrite lookup_zip_with, Hx, Hy. reflexivity.
Qed.

Lemma logical_or_shape (a b : Np.array2 bool) :
  Np.shape0_2 a = Np.shape0_2 b ->
  Np.shape0_2 (Np.logical_or a b) = Np.shape0_2 a
  /\ Np.ncols (Np.logical_or a b) = Np.ncols a.
Proof.
  unfold Np.shape0_2, Np.logical_or. cbn [Np.rows Np.ncols]. intros H.
  rewrite length_zip_with. split; [lia|reflexivity].
Qed.

Lemma setitem_mask_run (y : Np.array2 Z) (mask : Np.array2 bool) (v : Z) :
  Np.shape0_2 y = Np.shape0_2 mask -> Np.ncols y = Np.ncols mask ->
  exists y', Np.setitem_mask y mask v = Py.Ok y'
    /\ Np.shape0_2 y' = Np.shape0_2 y /\ Np.ncols y' = Np.ncols y
    /\ forall t k a m, Np.get2 y t k = Some a -> Np.get2 mask t k = Some m ->
                       Np.get2 y' t k = Some (if m then v else a).
Proof.
  intros Hs Hc. unfold Np.setitem_mask. rewrite Hs, Hc, !Z.eqb_refl. cbn [andb].
  eexists. split; [reflexivity|]. unfold Np.shape0_2, Np.get2 in *. cbn [Np.rows Np.ncols].
  rewrite length_zip_with. split; [lia|]. split; [lia|].
  intros t k a m. rewrite lookup_zip_with.
  destruct (Np.rows y !! t) as [ry|]; [|discriminate].
  destruct (Np.rows mask !! t) as [rm|]; [|discriminate]. cbn.
  intros Ha Hm. rewrite lookup_zip_with, Ha, Hm. reflexivity.
Qed.

Lemma astype2_get {A B} (conv : A -> B) (a : Np.array2 A) (t k : nat) :
  Np.get2 (Np.astype2 conv a) t k = conv <$> Np.get2 a t k.
Proof.
  unfold Np.get2, Np.astype2. cbn [Np.rows].
  change (List.map ?f ?l) with (f <$> l). rewrite list_lookup_fmap.
  destruct (Np.rows a !! t) as [r|]; [|reflexivity]. cbn.
  change (List.map ?f ?l) with (f <$> l). now rewrite list_lookup_fmap.
Qed.

Lemma astype3_id {A} (a : Np.array3 A) : Np.astype3 (fun x => x) a = a.
Proof.
  destruct a as [d1 d2 c]. unfold Np.astype3. cbn. f_equal.
  rewrite <- (List.map_id c) at 2. apply List.map_ext. intros r.
  rewrite <- (List.map_id r) at 2. apply List.map_ext. intros p. apply List.map_id.
Qed.

(** ** HanndsDataset: inputs and labels *)

Lemma activity_grid_cell (g : Np.array3 bool) (t h k : nat) :
  activity_grid g ->
  (Z.of_nat t < Np.shape0_3 g -> (h < 2)%nat -> (k < 88)%nat ->
   exists b, Np.get3 g t h k = Some b)
  /\ (forall b, Np.get3 g t h k = Some b ->
                Z.of_nat t < Np.shape0_3 g /\ (h < 2)%nat /\ (k < 88)%nat).
Proof.
  intros ((_ & _ & Hall) & Hd1 & Hd2). unfold Np.get3, Np.shape0_3. split.
  - intros Ht Hh Hk.
    destruct (lookup_lt_is_Some_2 (Np.cells g) t ltac:(lia)) as [r Hr].
    rewrite Hr. rewrite Forall_forall in Hall.
    destruct (Hall r) as [Hlr Hps]; [apply list_elem_of_In; eapply list_elem_of_lookup_2; eassumption|].
    destruct (lookup_lt_is_Some_2 r h ltac:(lia)) as [p Hp]. rewrite Hp.
    rewrite Forall_forall in Hps.
    specialize (Hps p ltac:(apply list_elem_of_In; eapply list_elem_of_lookup_2; eassumption)).
    apply lookup_lt_is_Some_2. lia.
  - intros b Hb. destruct (Np.cells g !! t) as [r|] eqn:Hr; [|discriminate].
    destruct (r !! h) as [p|] eqn:Hp; [|discriminate].
    rewrite Forall_forall in Hall.
    destruct (Hall r) as [Hlr Hps]; [apply list_elem_of_In; eapply list_elem_of_lookup_2; eassumption|].
    rewrite Forall_forall in Hps.
    specialize (Hps p ltac:(apply list_elem_of_In; eapply list_elem_of_lookup_2; eassumption)).
    apply lookup_lt_Some in Hr, Hp, Hb. lia.
Qed.

(** On an activity grid [_compute_X_Y] returns, [X] and [Y] have shape
    [[T][88]], and each cell is determined by the two hands' cells. *)
Lemma compute_X_Y_cells (g : Np.array3 bool) :
  activity_grid g ->
  exists X Y,
    HanndsDataset._compute_X_Y g = Py.Ok (X, Y)
    /\ Np.shape0_2 X = Np.shape0_3 g /\ Np.ncols X = 88
    /\ Np.shape0_2 Y = Np.shape0_3 g /\ Np.ncols Y = 88
    /\ forall t k l r,
         Np.get3 g t 0 k = Some l -> Np.get3 g t 1 k = Some r ->
         Np.get2 X t k = Some (Np.bool_to_float32 (l || r))
         /\ Np.get2 Y t k
            = Some (if r then RIGHT_HAND_LABEL
                    else if l then LEFT_HAND_LABEL else 0).
Proof.
  intros Hg. pose proof Hg as (Hsh & Hd1 & Hd2).
  unfold HanndsDataset._compute_X_Y. unfold Np.bool_to_bool at 1.
  rewrite !astype3_id.
  destruct (Np.take1 g 0) as [left|] eqn:Hl.
  2:{ unfold Np.take1 in Hl. rewrite index_in_range in Hl by lia. discriminate. }
  destruct (Np.take1 g 1) as [right|] eqn:Hr.
  2:{ unfold Np.take1 in Hr. rewrite index_in_range in Hr by lia. discriminate. }
  cbn [Py.bind].
  assert (forall t k, Np.get2 left t k = Np.get3 g t 0 k) as Hlget
      by (intros t k; now apply (take1_get g 0 left t k ltac:(lia))).
  assert (forall t k, Np.get2 right t k = Np.get3 g t 1 k) as Hrget
      by (intros t k; now apply (take1_get g 1 right t k ltac:(lia))).
  destruct (take1_get g 0 left 0 0 ltac:(lia) Hl) as (_ & Hls & Hlc).
  destruct (take1_get g 1 right 0 0 ltac:(lia) Hr) as (_ & Hrs & Hrc).
  destruct (Np.zeros2 (Np.shape0_3 g) 88) as [Y0|] eqn:Hz.
  2:{ unfold Np.zeros2, Np.shape0_3 in Hz.
      destruct (Z.ltb_spec (Z.of_nat (length (Np.cells g))) 0); [lia|]. discriminate. }
  cbn [Py.bind].
  destruct (zeros2_get _ _ Y0 0 0 Hz) as (Hz0 & Hzc & _).
  destruct (setitem_mask_run Y0 left LEFT_HAND_LABEL) as (Y1 & -> & Hs1 & Hc1 & Hget1);
    [congruence | congruence |]. cbn [Py.bind].
  destruct (setitem_mask_run Y1 right RIGHT_HAND_LABEL) as (Y2 & -> & Hs2 & Hc2 & Hget2);
    [congruence | congruence |]. cbn [Py.bind].
  destruct (logical_or_shape left right ltac:(congruence)) as (Hxs & Hxc).
  do 2 eexists. split; [reflexivity|].
  split. { unfold Np.shape0_2, Np.astype2 in *. cbn [Np.rows] in *.
           rewrite length_map. congruence. }
  split. { cbn. congruence. }
  split. { unfold Np.shape0_2, Np.astype2 in *. cbn [Np.rows] in *.
           rewrite length_map. congruence. }
  split. { cbn. congruence. }
  intros t k l r Hcl Hcr. rewrite !astype2_get.
  destruct (proj2 (activity_grid_cell g t 0 k Hg) l Hcl) as (Ht & _ & Hk).
  split.
  - rewrite (logical_or_get left right t k l r); [reflexivity| |].
    + now rewrite Hlget.
    + now rewrite Hrget.
  - rewrite (Hget2 t k (if l then LEFT_HAND_LABEL else 0) r); [reflexivity| |].
    + apply (Hget1 t k 0 l).
      * apply (zeros2_get _ _ Y0 t k Hz); lia.
      * now rewrite Hlget.
    + now rewrite Hrget.
Qed.

(** C4.  On every activity grid [_compute_X_Y] returns a pair [(X, Y)] of
    shape [[T][88]] in which, at every [t < T] and [k < 88], [X[t][k]] and
    [Y[t][k]] exist and [X[t][k] = 1] exactly when [Y[t][k] <> 0]; this
    includes the cells where both hands are active. *)
Theorem C4_input_iff_label (g : Np.array3 bool) :
  activity_grid g ->
  exists X Y,
    HanndsDataset._compute_X_Y g = Py.Ok (X, Y)
    /\ forall t k, Z.of_nat t < Np.shape0_3 g -> (k < 88)%nat ->
         exists x y, Np.get2 X t k = Some x /\ Np.get2 Y t k = Some y
                     /\ (x = 1 <-> y <> 0).
Proof.
  intros Hg. destruct (compute_X_Y_cells g Hg) as (X & Y & Hrun & _ & _ & _ & _ & Hcell).
  exists X, Y. split; [exact Hrun|]. intros t k Ht Hk.
  destruct (proj1 (activity_grid_cell g t 0 k Hg) Ht ltac:(lia) Hk) as [l Hl].
  destruct (proj1 (activity_grid_cell g t 1 k Hg) Ht ltac:(lia) Hk) as [r Hr].
  destruct (Hcell t k l r Hl Hr) as [HX HY].
  do 2 eexists. split; [exact HX|]. split; [exact HY|].
  unfold Np.bool_to_float32, LEFT_HAND_LABEL, RIGHT_HAND_LABEL.
  destruct l, r; cbn; split; intros; try lia; try discriminate.
Qed.

(** C5.  On every activity grid each label [Y[t][k]] is the result of
    writing 0, then 1 if the left hand's plane is set at [(t, k)], then 2
    if the right hand's plane is set there, so the right hand overwrites the
    left: where both hands are active, [Y[t][k] = 2]. *)
Theorem C5_right_hand_overwrites (g : Np.array3 bool) :
  activity_grid g ->
  exists X Y,
    HanndsDataset._compute_X_Y g = Py.Ok (X, Y)
    /\ (forall t k, Z.of_nat t < Np.shape0_3 g -> (k < 88)%nat ->
          exists l r, Np.get3 g t 0 k = Some l /\ Np.get3 g t 1 k = Some r
                      /\ Np.get2 Y t k = Some (label_in_two_passes l r))
    /\ (forall t k,
          Np.get3 g t 0 k = Some true -> Np.get3 g t 1 k = Some true ->
          Np.get2 Y t k = Some 2).
Proof.
  intros Hg. destruct (compute_X_Y_cells g Hg) as (X & Y & Hrun & _ & _ & _ & _ & Hcell).
  exists X, Y. split; [exact Hrun|]. split.
  - intros t k Ht Hk.
    destruct (proj1 (activity_grid_cell g t 0 k Hg) Ht ltac:(lia) Hk) as [l Hl].
    destruct (proj1 (activity_grid_cell g t 1 k Hg) Ht ltac:(lia) Hk) as [r Hr].
    exists l, r. split; [exact Hl|]. split; [exact Hr|].
    rewrite (proj2 (Hcell t k l r Hl Hr)). now destruct l, r.
  - intros t k Hl Hr. exact (proj2 (Hcell t k true true Hl Hr)).
Qed.

Ltac solve_activity_grid :=
  unfold activity_grid, Np.shaped3; cbn;
  repeat split; try lia; repeat constructor.

Lemma C4_input_iff_label_witness :
  activity_grid example_grid /\
  exists X Y,
    HanndsDataset._compute_X_Y example_grid = Py.Ok (X, Y)
    /\ forall t k, Z.of_nat t < Np.shape0_3 example_grid -> (k < 88)%nat ->
         exists x y, Np.get2 X t k = Some x /\ Np.get2 Y t k = Some y
                     /\ (x = 1 <-> y <> 0).
Proof.
  split; [solve_activity_grid|].
  apply (C4_input_iff_label example_grid). solve_activity_grid.
Defined.

Lemma C5_right_hand_overwrites_witness :
  activity_grid example_grid /\
  exists X Y,
    HanndsDataset._compute_X_Y example_grid = Py.Ok (X, Y)
    /\ Np.get2 Y 0 0 = Some 2.
Proof.
  split; [solve_activity_grid|].
  destruct (C5_right_hand_overwrites example_grid ltac:(solve_activity_grid))
    as (X & Y & Hrun & _ & Hboth).
  exists X, Y. split; [exact Hrun|]. now apply Hboth.
Defined.

(** ** HanndsDataset: windows *)

Lemma slice_in_range {A} (a : list A) (start stop : Z) :
  0 <= start <= stop -> stop <= Z.of_nat (length a) ->
  Py.slice a start stop
  = take (Z.to_nat (stop - start)) (drop (Z.to_nat start) a)
  /\ Z.of_nat (length (Py.slice a start stop)) = stop - start.
Proof.
  intros Hs He. unfold Py.slice, Py.slice_bound.
  destruct (Z.ltb_spec start 0); [lia|]. destruct (Z.ltb_spec stop 0); [lia|].
  rewrite !Z.max_r, !Z.min_r by lia. split; [reflexivity|].
  rewrite length_take, length_drop. lia.
Qed.

(** C3.  For [len_sequence > 0] and an [(X, Y)] pair of [T] time steps,
    [__len__] returns [T // len_sequence - 1], and for every index [i] in
    [[0, length)] [__getitem__] returns, without failing its assertion, the
    rows [[i * len_sequence, i * len_sequence + len_sequence)] of [X] and of
    [Y]; both windows have exactly [len_sequence] rows. *)
Theorem C3_fixed_length_windows (self : HanndsDataset.t) (T : Z) :
  0 < HanndsDataset.len_sequence self ->
  Np.shape0_2 (HanndsDataset.X (HanndsDataset.data self)) = T ->
  Np.shape0_2 (HanndsDataset.Y (HanndsDataset.data self)) = T ->
  let L := HanndsDataset.len_sequence self in
  let X := HanndsDataset.X (HanndsDataset.data self) in
  let Y := HanndsDataset.Y (HanndsDataset.data self) in
  HanndsDataset.__len__ self = Py.Ok (T / L - 1)
  /\ forall i, 0 <= i < T / L - 1 ->
       exists res1 res2,
         HanndsDataset.__getitem__ self i = Py.Ok (res1, res2)
         /\ Np.rows res1 = take (Z.to_nat L) (drop (Z.to_nat (i * L)) (Np.rows X))
         /\ Np.rows res2 = take (Z.to_nat L) (drop (Z.to_nat (i * L)) (Np.rows Y))
         /\ Np.ncols res1 = Np.ncols X /\ Np.ncols res2 = Np.ncols Y
         /\ Np.shape0_2 res1 = L /\ Np.shape0_2 res2 = L
         /\ (forall j, (j < Z.to_nat L)%nat ->
               Np.rows res1 !! j = Np.rows X !! (Z.to_nat (i * L) + j)%nat
               /\ Np.rows res2 !! j = Np.rows Y !! (Z.to_nat (i * L) + j)%nat).
Proof.
  intros HL HX HY L X Y. subst X Y. destruct self as [L' [X Y]].
  cbn [HanndsDataset.len_sequence HanndsDataset.data HanndsDataset.X HanndsDataset.Y] in *.
  subst L. rename L' into L. split.
  - unfold HanndsDataset.__len__, Py.floordiv. cbn [HanndsDataset.len_sequence].
    destruct (Z.eqb_spec L (-1)); [lia|]. destruct (Z.eqb_spec L 0); [lia|].
    cbn. now rewrite HX.
  - intros i Hi.
    assert (L * (T / L) <= T) as Hfloor by (apply Z.mul_div_le; lia).
    assert (0 <= i * L <= i * L + L) as Hlo by nia.
    assert (i * L + L <= T) as Hhi by nia.
    destruct (slice_in_range (Np.rows X) (i * L) (i * L + L) Hlo) as [HsX HlX].
    { fold (Np.shape0_2 X). lia. }
    destruct (slice_in_range (Np.rows Y) (i * L) (i * L + L) Hlo) as [HsY HlY].
    { fold (Np.shape0_2 Y). lia. }
    replace (i * L + L - i * L) with L in * by lia.
    unfold HanndsDataset.__getitem__.
    cbn [HanndsDataset.len_sequence HanndsDataset.data HanndsDataset.X HanndsDataset.Y].
    destruct (Z.eqb_spec L (-1)); [lia|].
    unfold Np.shape0_2, Np.slice2. cbn [Np.rows Np.ncols].
    rewrite HlX, HlY, !Z.eqb_refl. cbn [andb Py.assert Py.bind].
    do 2 eexists. split; [reflexivity|]. cbn [Np.rows Np.ncols].
    rewrite HsX, HsY. repeat split; try reflexivity; try lia.
    + rewrite <- HsX. exact HlX.
    + rewrite <- HsY. exact HlY.
    + rewrite lookup_take_lt by assumption. now rewrite lookup_drop.
    + rewrite lookup_take_lt by assumption. now rewrite lookup_drop.
Qed.

Lemma C3_fixed_length_windows_witness :
  0 < HanndsDataset.len_sequence example_dataset
  /\ HanndsDataset.__len__ example_dataset = Py.Ok 2
  /\ HanndsDataset.__getitem__ example_dataset 1
     = Py.Ok (Np.Array2 1 [[1]; [1]], Np.Array2 1 [[1]; [2]]).
Proof.
  assert (0 < HanndsDataset.len_sequence example_dataset) as HL by (cbn; lia).
  destruct (C3_fixed_length_windows example_dataset 7 HL eq_refl eq_refl)
    as [Hlen Hget].
  split; [exact HL|]. split; [exact Hlen|].
  destruct (Hget 1 ltac:(vm_compute; split; [discriminate | reflexivity]))
    as (res1 & res2 & -> & H1 & H2 & Hc1 & Hc2 & _).
  destruct res1, res2. cbn in H1, H2, Hc1, Hc2. now subst.
Defined.

(** C7.  With [len_sequence = -1] the view has one element whatever the
    number of time steps: [__len__] is 1, [__getitem__] returns the whole
    [(X, Y)] pair unchanged, and concatenating the windows of the view gives
    [X] and [Y] back. *)
Theorem C7_single_window_roundtrip (X Y : Np.array2 Z) :
  let self := HanndsDataset.mk (-1) (HanndsDataset.mkXY X Y) in
  HanndsDataset.__len__ self = Py.Ok 1
  /\ (forall idx, HanndsDataset.__getitem__ self idx = Py.Ok (X, Y))
  /\ exists ws,
       windows self = Py.Ok ws
       /\ ws = [(X, Y)]
       /\ Np.concatenate2 (List.map fst ws) = Py.Ok X
       /\ Np.concatenate2 (List.map snd ws) = Py.Ok Y.
Proof.
  intros self. split; [reflexivity|]. split; [reflexivity|].
  exists [(X, Y)]. split; [reflexivity|]. split; [reflexivity|].
  unfold Np.concatenate2. cbn. rewrite !Z.eqb_refl, !app_nil_r.
  now destruct X, Y.
Qed.

(** ** AllData._convert: the quantizer *)

Lemma index_wrap n i :
  - n <= i < n -> Py.index n i = Py.Ok (Z.to_nat (i mod n)).
Proof.
  intros Hi. unfold Py.index.
  destruct (Z.leb_spec 0 i); destruct (Z.ltb_spec i n); cbn [andb]; try lia.
  - now rewrite Z.mod_small by lia.
  - destruct (Z.leb_spec (- n) i); destruct (Z.ltb_spec i 0); cbn [andb]; try lia.
    do 2 f_equal. apply Z.mod_unique with (q := -1); lia.
Qed.


Lemma in_slice_nonneg n start stop t :
  0 <= start -> 0 <= stop -> Z.of_nat t < n ->
  in_slice n start stop t = (start <=? Z.of_nat t) && (Z.of_nat t <? stop).
Proof.
  intros Hs He Ht. unfold in_slice, Py.slice_bound.
  destruct (Z.ltb_spec start 0); [lia|]. destruct (Z.ltb_spec stop 0); [lia|].
  destruct (Z.leb_spec start (Z.of_nat t)); destruct (Z.ltb_spec (Z.of_nat t) stop);
    destruct (Z.leb_spec (Z.max 0 (Z.min n start)) (Z.of_nat t));
    destruct (Z.ltb_spec (Z.of_nat t) (Z.max 0 (Z.min n stop)));
    cbn [andb]; try reflexivity; lia.
Qed.

Lemma setitem_slice_run (a : Np.array3 bool) (start stop h k : Z) :
  activity_grid a -> 0 <= h < 2 -> -88 <= k < 88 ->
  exists a',
    Np.setitem_slice a start stop h k true = Py.Ok a'
    /\ activity_grid a' /\ Np.shape0_3 a' = Np.shape0_3 a
    /\ forall t h' k' b,
         Np.get3 a t h' k' = Some b ->
         Np.get3 a' t h' k'
         = Some (b || in_slice (Np.shape0_3 a) start stop t
                      && (h' =? Z.to_nat h)%nat && (k' =? Z.to_nat (k mod 88))%nat).
Proof.
  intros ((Hd1nn & Hd2nn & Hall) & Hd1 & Hd2) Hh Hk.
  unfold Np.setitem_slice. rewrite Hd1, Hd2.
  rewrite (index_in_range 2 h Hh), (index_wrap 88 k Hk). cbn [Py.bind].
  eexists. split; [reflexivity|].
  set (ih := Z.to_nat h). set (ik := Z.to_nat (k mod 88)).
  set (n := Np.shape0_3 a).
  split; [|split].
  - unfold activity_grid, Np.shaped3. cbn [Np.dim1 Np.dim2 Np.cells].
    repeat split; try lia. apply Forall_lookup. intros t row'.
    rewrite list_lookup_imap. destruct (Np.cells a !! t) as [row|] eqn:Hrow; [|discriminate].
    cbn. intros [= <-]. rewrite Forall_lookup in Hall.
    destruct (Hall t row Hrow) as [Hlen Hps].
    destruct (_ && _); [|rewrite Hd1, Hd2 in *; now split].
    rewrite length_alter. split; [lia|]. apply Forall_lookup. intros j p'.
    rewrite list_lookup_alter. rewrite Forall_lookup in Hps.
    destruct (decide (ih = j)) as [<-|Hne].
    + destruct (row !! ih) as [p|] eqn:Hp; [|discriminate]. cbn. intros [= <-].
      rewrite length_insert. rewrite (Hps ih p Hp). lia.
    + intros Hp. rewrite (Hps j p' Hp). lia.
  - unfold Np.shape0_3. cbn [Np.cells]. now rewrite length_imap.
  - intros t h' k' b. unfold Np.get3. cbn [Np.cells]. rewrite list_lookup_imap.
    destruct (Np.cells a !! t) as [row|]; [|discriminate]. cbn.
    fold (in_slice n start stop t). destruct (in_slice n start stop t); cbn [andb].
    2:{ intros ->. now rewrite orb_false_r. }
    rewrite list_lookup_alter. destruct (decide (ih = h')) as [<-|Hne].
    + rewrite Nat.eqb_refl. cbn [andb].
      destruct (row !! ih) as [p|]; [|discriminate]. cbn.
      intros Hb. destruct (Nat.eqb_spec k' ik) as [->|Hnk].
      * rewrite list_lookup_insert_eq by (eapply lookup_lt_Some; eassumption).
        now rewrite orb_true_r.
      * rewrite list_lookup_insert_ne by congruence. now rewrite orb_false_r.
    + destruct (Nat.eqb_spec h' ih); [congruence|]. cbn [andb].
      intros ->. now rewrite orb_false_r.
Qed.


Lemma zeros3_run (n : Z) :
  0 <= n ->
  exists z, Np.zeros3 n 2 88 = Py.Ok z
    /\ activity_grid z /\ Np.shape0_3 z = n
    /\ forall t h k, Z.of_nat t < n -> (h < 2)%nat -> (k < 88)%nat ->
                     Np.get3 z t h k = Some false.
Proof.
  intros Hn. unfold Np.zeros3. destruct (Z.ltb_spec n 0); [lia|]. cbn [orb Z.ltb Z.compare].
  eexists. split; [reflexivity|]. split; [|split].
  - unfold activity_grid, Np.shaped3. cbn [Np.dim1 Np.dim2 Np.cells].
    repeat split; try lia. apply Forall_forall. intros r Hr.
    apply repeat_spec in Hr. subst r. split; [reflexivity|].
    apply Forall_forall. intros p Hp. apply repeat_spec in Hp. now subst p.
  - unfold Np.shape0_3. cbn [Np.cells]. rewrite repeat_length. lia.
  - intros t h k Ht Hh Hk. unfold Np.get3. cbn [Np.cells].
    rewrite lookup_repeat by lia. rewrite lookup_repeat by exact Hh.
    apply lookup_repeat. exact Hk.
Qed.

Section Quantizer.

Context {F : FloatOps}.

Lemma fill_notes_run (sps hand : Z) (notes : list AllData.Note) :
  0 <= hand < 2 -> Forall key_index_accepted notes ->
  forall a, activity_grid a ->
  exists a',
    AllData.fill_notes sps hand notes a = Py.Ok a'
    /\ activity_grid a' /\ Np.shape0_3 a' = Np.shape0_3 a
    /\ forall t h k b,
         Np.get3 a t h k = Some b ->
         Np.get3 a' t h k
         = Some (b || (h =? Z.to_nat hand)%nat
                      && existsb (note_marks sps (Np.shape0_3 a) t k) notes).
Proof.
  intros Hh. induction 1 as [|note notes Hnote Hnotes IH]; intros a Ha.
  - exists a. split; [reflexivity|]. split; [exact Ha|]. split; [reflexivity|].
    intros t h k b ->. cbn. now rewrite andb_false_r, orb_false_r.
  - unfold AllData.fill_notes. cbn [Py.for_].
    destruct (setitem_slice_run a
                (ffloor (fmul (AllData.start note) sps))
                (fceil (fmul (AllData.end_ note) sps))
                hand (AllData.pitch note - 21) Ha Hh Hnote)
      as (a1 & -> & Ha1 & Hs1 & Hget1).
    cbn [Py.bind]. destruct (IH a1 Ha1) as (a' & Hrun & Ha' & Hs' & Hget').
    exists a'. split; [exact Hrun|]. split; [exact Ha'|]. split; [congruence|].
    intros t h k b Hb. rewrite (Hget' t h k _ (Hget1 t h k b Hb)). f_equal.
    rewrite Hs1. cbn [existsb]. unfold note_marks at 2.
    destruct b, (h =? Z.to_nat hand)%nat, (in_slice _ _ _ t), (k =? _)%nat;
      reflexivity.
Qed.


(** [_convert] on a file with a left and a right instrument whose notes
    all have an accepted key index. *)
Lemma convert_run (ms_window : Z) (midi : AllData.PrettyMIDI)
      (left right : list AllData.Note) (others : list (list AllData.Note)) :
  let sps := 1000 / ms_window in
  let T := fceil (fmul (AllData.get_end_time midi) sps) in
  ms_window <> 0 -> 0 <= T ->
  AllData.instruments midi = left :: right :: others ->
  Forall key_index_accepted left -> Forall key_index_accepted right ->
  exists hands,
    AllData._convert ms_window midi = Py.Ok hands
    /\ activity_grid hands /\ Np.shape0_3 hands = T
    /\ forall t h k, Z.of_nat t < T -> (h < 2)%nat -> (k < 88)%nat ->
         Np.get3 hands t h k
         = Some (existsb (note_marks sps T t k) (nth h [left; right] [])).
Proof.
  intros sps T Hms HT Hinst Hleft Hright.
  unfold AllData._convert, Py.floordiv. destruct (Z.eqb_spec ms_window 0); [lia|].
  cbn [Py.bind]. rewrite Hinst.
  change (Py.getitem (left :: right :: others) 0) with (Py.Ok left).
  replace (Py.getitem (left :: right :: others) 1) with (Py.Ok right).
  2:{ unfold Py.getitem. rewrite index_in_range by (cbn [length]; lia). reflexivity. }
  cbn [Py.bind]. fold sps. fold T.
  destruct (zeros3_run T HT) as (z & -> & Hz & Hzs & Hzget). cbn [Py.bind].
  change (Py.enumerate [left; right]) with [(0, left); (1, right)].
  cbn [Py.for_].
  destruct (fill_notes_run sps 0 left ltac:(lia) Hleft z Hz)
    as (a0 & -> & Ha0 & Hs0 & Hget0). cbn [Py.bind].
  destruct (fill_notes_run sps 1 right ltac:(lia) Hright a0 Ha0)
    as (a1 & -> & Ha1 & Hs1 & Hget1). cbn [Py.bind].
  exists a1. split; [reflexivity|]. split; [exact Ha1|]. split; [congruence|].
  intros t h k Ht Hh Hk.
  rewrite (Hget1 t h k _ (Hget0 t h k false (Hzget t h k Ht Hh Hk))).
  rewrite Hs0, Hzs. f_equal.
  destruct h as [|[|h]]; [| |lia]; cbn; now rewrite ?orb_false_r.
Qed.

End Quantizer.

Section QuantizerClaims.

Context {F : FloatOps}.

Lemma well_formed_accepted (notes : list AllData.Note) :
  Forall well_formed notes -> Forall key_index_accepted notes.
Proof.
  apply Forall_impl. intros note (Hp & _). unfold key_index_accepted. lia.
Qed.

Lemma well_formed_marks (sps T : Z) (t k : nat) (note : AllData.Note) :
  well_formed note -> 0 <= sps -> Z.of_nat t < T ->
  note_marks sps T t k note = true
  <-> AllData.pitch note = Z.of_nat k + 21
      /\ ffloor (fmul (AllData.start note) sps) <= Z.of_nat t
         < fceil (fmul (AllData.end_ note) sps).
Proof.
  intros (Hp & Hs & He) Hsps Ht. unfold note_marks.
  rewrite in_slice_nonneg; [| |  |exact Ht].
  - rewrite Z.mod_small by lia. rewrite !andb_true_iff.
    rewrite Z.leb_le, Z.ltb_lt, Nat.eqb_eq. lia.
  - now apply ffloor_mul_nonneg.
  - apply fceil_mul_nonneg; [|exact Hsps]. now apply fle_trans with (AllData.start note).
Qed.

(** C6 (amended).  For [ms_window > 0], [rate = 1000 // ms_window] (an
    integer), a duration that is not negative and well-formed notes for the
    two hands, [_convert] returns a boolean grid of shape [[T][2][88]]
    with [T = ceil(duration * rate)] in which cell [[t][h][k]] is true
    exactly when some note of hand [h] with pitch [k + 21] has
    [floor(start * rate) <= t < ceil(end * rate)]. *)
Theorem C6_quantizer_coverage (ms_window : Z) (duration : float)
        (left right : list AllData.Note) :
  0 < ms_window -> fle fzero duration ->
  Forall well_formed left -> Forall well_formed right ->
  let rate := 1000 / ms_window in
  let T := fceil (fmul duration rate) in
  exists hands,
    AllData._convert ms_window (AllData.mkMIDI duration [left; right]) = Py.Ok hands
    /\ Np.shaped3 hands
    /\ Np.shape0_3 hands = T /\ Np.dim1 hands = 2 /\ Np.dim2 hands = 88
    /\ forall t h k, Z.of_nat t < T -> (h < 2)%nat -> (k < 88)%nat ->
         exists b,
           Np.get3 hands t h k = Some b
           /\ (b = true <->
               exists note,
                 In note (nth h [left; right] [])
                 /\ AllData.pitch note = Z.of_nat k + 21
                 /\ ffloor (fmul (AllData.start note) rate) <= Z.of_nat t
                    < fceil (fmul (AllData.end_ note) rate)).
Proof.
  intros Hms Hdur Hleft Hright rate T.
  assert (0 <= rate) as Hrate by (apply Z.div_pos; lia).
  assert (0 <= T) as HT by now apply fceil_mul_nonneg.
  destruct (convert_run ms_window (AllData.mkMIDI duration [left; right])
              left right [] ltac:(lia) HT eq_refl
              (well_formed_accepted _ Hleft) (well_formed_accepted _ Hright))
    as (hands & Hrun & (Hsh & Hd1 & Hd2) & Hshape & Hget).
  exists hands. split; [exact Hrun|]. split; [exact Hsh|].
  split; [exact Hshape|]. split; [exact Hd1|]. split; [exact Hd2|].
  intros t h k Ht Hh Hk. eexists. split; [apply Hget; assumption|].
  cbn [AllData.get_end_time]. fold rate. fold T.
  assert (Forall well_formed (nth h [left; right] [])) as Hwf.
  { destruct h as [|[|h]]; [assumption|assumption|lia]. }
  rewrite existsb_exists. rewrite Forall_forall in Hwf.
  split; intros (note & Hin & Hm); exists note; (split; [exact Hin|]).
  - apply (well_formed_marks rate T t k note); auto.
  - apply (well_formed_marks rate T t k note); auto.
Qed.

End QuantizerClaims.

Ltac solve_well_formed :=
  repeat constructor; cbn; try lia; try (unfold Qle; cbn; lia).

Lemma C6_quantizer_coverage_witness :
  0 < 20 /\
  exists hands,
    AllData._convert 20 example_midi = Py.Ok hands
    /\ Np.shape0_3 hands = 5
    /\ exists b, Np.get3 hands 2 0 39 = Some b
                 /\ (b = true <->
                     exists note,
                       In note (nth 0%nat (AllData.instruments example_midi) [])
                       /\ AllData.pitch note = Z.of_nat 39 + 21
                       /\ Qfloor (AllData.start note * inject_Z (1000 / 20)) <= Z.of_nat 2
                          < Qceiling (AllData.end_ note * inject_Z (1000 / 20))).
Proof.
  split; [lia|].
  destruct (C6_quantizer_coverage (F := Qfloat) 20 (1 # 10)%Q
              [AllData.mkNote (F := Qfloat) 60 0%Q (5 # 100)%Q]
              [AllData.mkNote (F := Qfloat) 72 (2 # 100)%Q (1 # 10)%Q]
              ltac:(lia) ltac:(unfold fle, Qfloat, Qle; cbn; lia)
              ltac:(solve_well_formed) ltac:(solve_well_formed))
    as (hands & Hrun & _ & Hshape & _ & _ & Hcell).
  exists hands. split; [exact Hrun|]. split; [exact Hshape|].
  apply (Hcell 2%nat 0%nat 39%nat); [vm_compute; reflexivity | lia | lia].
Defined.

(** C6 as stated, with [rate = 1000 / ms_window] a fraction, fails when
    [ms_window] does not divide 1000: for a window of 30 ms and one second
    of music the grid has 33 time steps, not [ceil(1000 / 30) = 34]. *)
Lemma C6_rate_is_floored :
  exists hands,
    AllData._convert (F := Qfloat) 30 (AllData.mkMIDI (F := Qfloat) 1%Q [[]; []])
    = Py.Ok hands
    /\ Np.shape0_3 hands = 33
    /\ Np.shape0_3 hands <> Qceiling (1 * (1000 # 30)).
Proof.
  eexists. split; [vm_compute; reflexivity|]. split; [reflexivity|].
  vm_compute. discriminate.
Qed.

Section QuantizerValidation.

Context {F : FloatOps}.




End QuantizerValidation.



(** ** AllData.initialize_from_dir: the split of the files *)

(** [ceil(N * 0.15)] lies between [0.15 N] and [0.15 N + 1]. *)
Lemma n_valid_test_bounds (N : Z) :
  let n_valid_test := @fceil Qfloat (@fmul Qfloat (@fliteral Qfloat (15 # 100)) N) in
  15 * N <= 100 * n_valid_test < 15 * N + 100.
Proof.
  cbn. unfold Qceiling, Qfloor. cbn.
  change (Z.pos (100 * 1)) with 100.
  pose proof (Z.div_mod (- (15 * N)) 100 ltac:(lia)) as Hdm.
  pose proof (Z.mod_pos_bound (- (15 * N)) 100 ltac:(lia)) as Hmod.
  lia.
Qed.

Section Split.

Context {File : Type}.

(** [random.Random(42).shuffle]: some rearrangement of the list, the same
    one every time. *)
Variable shuffle : list File -> list File.
Hypothesis shuffle_permutes : forall l, Permutation (shuffle l) l.

(** C9 (amended).  For [N >= 2] files the split shuffles the list with
    the fixed-seed shuffle and cuts it, in order, into the training, the
    validation and the test list: together they are the shuffled list, so
    they cover all [N] files and are disjoint when the files are distinct;
    the validation and the test list each have [ceil(0.15 * N)] files and
    the training list has the other [N - 2 * ceil(0.15 * N)]. *)
Theorem C9_directory_split (all_files : list File) :
  let N := Z.of_nat (length all_files) in
  let n_valid_test := Qceiling ((15 # 100) * inject_Z N) in
  2 <= N ->
  exists train_files valid_files test_files,
    AllData.initialize_from_dir (F := Qfloat) shuffle all_files
    = Py.Ok (train_files, valid_files, test_files)
    /\ train_files ++ valid_files ++ test_files = shuffle all_files
    /\ Permutation (train_files ++ valid_files ++ test_files) all_files
    /\ (NoDup all_files -> NoDup (train_files ++ valid_files ++ test_files))
    /\ Z.of_nat (length valid_files) = n_valid_test
    /\ Z.of_nat (length test_files) = n_valid_test
    /\ Z.of_nat (length train_files) = N - 2 * n_valid_test.
Proof.
  intros N nvt HN.
  pose proof (n_valid_test_bounds N) as Hb. cbv zeta in Hb.
  change (@fceil Qfloat (@fmul Qfloat (@fliteral Qfloat (15 # 100)) N)) with nvt in Hb.
  assert (length (shuffle all_files) = length all_files) as Hlen
      by (apply Permutation_length, shuffle_permutes).
  unfold AllData.initialize_from_dir. rewrite Hlen. fold N.
  change (@fceil Qfloat (@fmul Qfloat (@fliteral Qfloat (15 # 100)) N)) with nvt.
  cbn [fst snd]. set (l := shuffle all_files) in *.
  replace (N - nvt * 2 + nvt + nvt =? N) with true by (symmetry; apply Z.eqb_eq; lia).
  cbn [Py.assert Py.bind].
  destruct (slice_in_range l 0 (N - nvt * 2)) as [Htr Hltr]; [lia | rewrite Hlen; fold N; lia |].
  destruct (slice_in_range l (N - nvt * 2) (N - nvt * 2 + nvt)) as [Hva Hlva];
    [lia | rewrite Hlen; fold N; lia |].
  destruct (slice_in_range l (N - nvt * 2 + nvt) (N - nvt * 2 + nvt + nvt)) as [Hte Hlte];
    [lia | rewrite Hlen; fold N; lia |].
  do 3 eexists. split; [reflexivity|].
  assert (Py.slice l 0 (N - nvt * 2) ++ Py.slice l (N - nvt * 2) (N - nvt * 2 + nvt)
          ++ Py.slice l (N - nvt * 2 + nvt) (N - nvt * 2 + nvt + nvt) = l) as Hcat.
  { rewrite Htr, Hva, Hte. cbn [Z.to_nat drop].
    replace (N - nvt * 2 - 0) with (N - nvt * 2) by lia.
    replace (N - nvt * 2 + nvt - (N - nvt * 2)) with nvt by lia.
    replace (N - nvt * 2 + nvt + nvt - (N - nvt * 2 + nvt)) with nvt by lia.
    replace (Z.to_nat (N - nvt * 2 + nvt))
      with (Z.to_nat (N - nvt * 2) + Z.to_nat nvt)%nat by lia.
    rewrite <- drop_drop.
    rewrite (take_ge (drop (Z.to_nat nvt) _)) by (rewrite !length_drop; lia).
    now rewrite !take_drop. }
  split; [exact Hcat|]. rewrite Hcat.
  split; [apply shuffle_permutes|].
  split. { intros Hnd. eapply Permutation_NoDup; [|exact Hnd].
           symmetry. apply shuffle_permutes. }
  lia.
Qed.

End Split.

Lemma C9_directory_split_witness :
  2 <= Z.of_nat (length [1; 2; 3; 4; 5; 6; 7])
  /\ exists train_files valid_files test_files,
       AllData.initialize_from_dir (F := Qfloat) (@rev Z) [1; 2; 3; 4; 5; 6; 7]
       = Py.Ok (train_files, valid_files, test_files)
       /\ train_files ++ valid_files ++ test_files = [7; 6; 5; 4; 3; 2; 1]
       /\ Z.of_nat (length valid_files) = 2
       /\ Z.of_nat (length test_files) = 2
       /\ Z.of_nat (length train_files) = 3.
Proof.
  split; [cbn; lia|].
  destruct (C9_directory_split (@rev Z)
              (fun l => Permutation_sym (Permutation_rev l))
              [1; 2; 3; 4; 5; 6; 7] ltac:(cbn; lia))
    as (tr & va & te & Hrun & Hcat & _ & _ & Hva & Hte & Htr).
  exists tr, va, te. split; [exact Hrun|]. split; [exact Hcat|].
  split; [exact Hva|]. split; [exact Hte | exact Htr].
Defined.

(** C9 as stated fails for a single file: [ceil(0.15) = 1], the training
    range is [(0, -1)], and slicing leaves nothing for training and for
    validation; the one file goes to the test list.  (Every rearrangement
    of a one-element list is that list.) *)
Lemma C9_single_file :
  Qceiling ((15 # 100) * inject_Z 1) = 1
  /\ exists train_files valid_files test_files,
       AllData.initialize_from_dir (F := Qfloat) (fun l => l) ["a.mid_20ms.npy"%string]
       = Py.Ok (train_files, valid_files, test_files)
       /\ Z.of_nat (length valid_files) <> Qceiling ((15 # 100) * inject_Z 1)
       /\ train_files = [] /\ valid_files = []
       /\ test_files = ["a.mid_20ms.npy"%string].
Proof.
  split; [reflexivity|].
  do 3 eexists. split; [vm_compute; reflexivity|].
  split; [vm_compute; discriminate|]. repeat split.
Qed.

(** ** Construction of a dataset in the store *)

Section Frame.

(** The store before the call. *)
Variable st0 : gmap positive Heap.ndarray.

Local Abbreviation extends := (extends_from st0).
Local Abbreviation keeps := (keeps_from st0).
Local Abbreviation is_new := (new_since st0).

Lemma keeps_ret {A} (a : A) (Q : A -> Prop) : Q a -> keeps (Heap.ret a) Q.
Proof. intros HQ st Hst. split; [exact Hst|]. now intros ? [= <-]. Qed.

Lemma keeps_lift {A} (r : Py.result A) : keeps (Heap.lift r) (fun _ => True).
Proof. intros st Hst. split; [exact Hst|]. auto. Qed.

Lemma keeps_bind {A B} (m : Heap.M A) (k : A -> Heap.M B)
      (Q : A -> Prop) (R : B -> Prop) :
  keeps m Q -> (forall a, Q a -> keeps (k a) R) -> keeps (Heap.bind m k) R.
Proof.
  intros Hm Hk st Hst. unfold Heap.bind.
  destruct (Hm st Hst) as [Hext HQ]. destruct (m st) as [[a|e] st'].
  - apply Hk; [now apply HQ | exact Hext].
  - split; [exact Hext|]. intros ? [=].
Qed.

Lemma keeps_weaken {A} (m : Heap.M A) (Q R : A -> Prop) :
  keeps m Q -> (forall a, Q a -> R a) -> keeps m R.
Proof. intros Hm HQR st Hst. destruct (Hm st Hst). split; auto. Qed.

Lemma keeps_alloc (v : Heap.ndarray) : keeps (Heap.alloc v) is_new.
Proof.
  intros st Hst. unfold Heap.alloc. cbn [fst snd].
  assert (st0 !! fresh (dom st) = None) as Hnew.
  { destruct (st0 !! fresh (dom st)) as [w|] eqn:Hw; [|reflexivity].
    exfalso. apply (is_fresh (dom st)). apply elem_of_dom. eexists. eauto. }
  split.
  - intros l w Hl. rewrite lookup_insert_ne; [now apply Hst | congruence].
  - now intros ? [= <-].
Qed.

Lemma keeps_load (l : positive) : keeps (Heap.load l) (fun _ => True).
Proof.
  intros st Hst. unfold Heap.load. destruct (st !! l); cbn; split; auto.
Qed.

Lemma keeps_write (l : positive) (v : Heap.ndarray) :
  is_new l -> keeps (Heap.write l v) (fun _ => True).
Proof.
  intros Hnew st Hst. unfold Heap.write. cbn [fst snd]. split; [|auto].
  intros l' w Hl'. rewrite lookup_insert_ne; [now apply Hst|].
  unfold is_new in Hnew. congruence.
Qed.

Ltac keeps_loads :=
  eapply keeps_bind; [apply keeps_load|]; intros [?|?|? ?] _;
  first [apply keeps_ret; exact I | apply keeps_lift].

Lemma keeps_load_bool3 l : keeps (Heap.load_bool3 l) (fun _ => True).
Proof. unfold Heap.load_bool3. keeps_loads. Qed.

Lemma keeps_load_bool2 l : keeps (Heap.load_bool2 l) (fun _ => True).
Proof. unfold Heap.load_bool2. keeps_loads. Qed.

Lemma keeps_load_num2 l : keeps (Heap.load_num2 l) (fun _ => True).
Proof. unfold Heap.load_num2. keeps_loads. Qed.

Lemma keeps_read_view w : keeps (Heap.read_view w) (fun _ => True).
Proof.
  unfold Heap.read_view. eapply keeps_bind; [apply keeps_load_bool3|].
  intros a _. apply keeps_lift.
Qed.

Lemma keeps_astype_bool a : keeps (Heap.astype_bool a) is_new.
Proof.
  unfold Heap.astype_bool. eapply keeps_bind; [apply keeps_load_bool3|].
  intros v _. apply keeps_alloc.
Qed.

Lemma keeps_shape0 a : keeps (Heap.shape0 a) (fun _ => True).
Proof.
  unfold Heap.shape0. eapply keeps_bind; [apply keeps_load_bool3|].
  intros v _. now apply keeps_ret.
Qed.

Lemma keeps_getitem_plane a h : keeps (Heap.getitem_plane a h) (fun _ => True).
Proof.
  unfold Heap.getitem_plane. eapply keeps_bind; [apply keeps_load_bool3|].
  intros v _. eapply keeps_bind; [apply keeps_lift|]. intros _ _. now apply keeps_ret.
Qed.

Lemma keeps_logical_or w1 w2 : keeps (Heap.logical_or w1 w2) is_new.
Proof.
  unfold Heap.logical_or. eapply keeps_bind; [apply keeps_read_view|].
  intros a _. eapply keeps_bind; [apply keeps_read_view|].
  intros b _. apply keeps_alloc.
Qed.

Lemma keeps_zeros n m : keeps (Heap.zeros n m) is_new.
Proof.
  unfold Heap.zeros. eapply keeps_bind; [apply keeps_lift|].
  intros z _. apply keeps_alloc.
Qed.

(** Writing under a mask is the one update in place; it is harmless when
    its target was allocated during the call. *)
Lemma keeps_setitem_mask y mask v :
  is_new y -> keeps (Heap.setitem_mask y mask v) (fun _ => True).
Proof.
  intros Hy. unfold Heap.setitem_mask.
  eapply keeps_bind; [apply keeps_read_view|]. intros m _.
  eapply keeps_bind; [apply keeps_load_num2|]. intros old _.
  eapply keeps_bind; [apply keeps_lift|]. intros new _.
  now apply keeps_write.
Qed.

Lemma keeps_astype_float32 x : keeps (Heap.astype_float32 x) is_new.
Proof.
  unfold Heap.astype_float32. eapply keeps_bind; [apply keeps_load_bool2|].
  intros v _. apply keeps_alloc.
Qed.

Lemma keeps_astype_longlong y : keeps (Heap.astype_longlong y) is_new.
Proof.
  unfold Heap.astype_longlong. eapply keeps_bind; [apply keeps_load_num2|].
  intros v _. apply keeps_alloc.
Qed.

Lemma keeps_compute_X_Y (data : positive) :
  keeps (Heap.HanndsDataset._compute_X_Y data)
        (fun xy => is_new (fst xy) /\ is_new (snd xy)).
Proof.
  unfold Heap.HanndsDataset._compute_X_Y.
  eapply keeps_bind; [apply keeps_astype_bool|]. intros d _.
  eapply keeps_bind; [apply keeps_shape0|]. intros batch_size _.
  eapply keeps_bind; [apply keeps_getitem_plane|]. intros left _.
  eapply keeps_bind; [apply keeps_getitem_plane|]. intros right _.
  eapply keeps_bind; [apply keeps_logical_or|]. intros X _.
  eapply keeps_bind; [apply keeps_zeros|]. intros Y HY.
  eapply keeps_bind; [apply keeps_getitem_plane|]. intros mask0 _.
  eapply keeps_bind; [now apply keeps_setitem_mask|]. intros _ _.
  eapply keeps_bind; [apply keeps_getitem_plane|]. intros mask1 _.
  eapply keeps_bind; [now apply keeps_setitem_mask|]. intros _ _.
  eapply keeps_bind; [apply keeps_astype_float32|]. intros X' HX'.
  eapply keeps_bind; [apply keeps_astype_longlong|]. intros Y' HY'.
  now apply keeps_ret.
Qed.

Lemma keeps_init (npy_data : positive) (len_sequence : Z) :
  keeps (Heap.HanndsDataset.__init__ npy_data len_sequence)
        (fun self =>
           is_new (Heap.HanndsDataset.X (Heap.HanndsDataset.data self))
           /\ is_new (Heap.HanndsDataset.Y (Heap.HanndsDataset.data self))).
Proof.
  unfold Heap.HanndsDataset.__init__.
  eapply keeps_bind; [apply keeps_compute_X_Y|]. intros xy Hxy.
  now apply keeps_ret.
Qed.

End Frame.

(** *** The store-passing construction computes the values of [_compute_X_Y] *)

Lemma fresh_lookup_None (st : gmap positive Heap.ndarray) :
  st !! fresh (dom st) = None.
Proof. apply not_elem_of_dom. apply is_fresh. Qed.

Lemma fresh_ne (st : gmap positive Heap.ndarray) (p : positive) (w : Heap.ndarray) :
  st !! p = Some w -> fresh (dom st) <> p.
Proof. intros Hp Heq. rewrite <- Heq, fresh_lookup_None in Hp. discriminate. Qed.

Lemma bind_run {A B} (m : Heap.M A) (k : A -> Heap.M B) st a st' :
  m st = (Py.Ok a, st') -> Heap.bind m k st = k a st'.
Proof. intros H. unfold Heap.bind. now rewrite H. Qed.

Lemma load_bool3_run st l g :
  st !! l = Some (Heap.Bool3 g) -> Heap.load_bool3 l st = (Py.Ok g, st).
Proof. intros H. unfold Heap.load_bool3, Heap.bind, Heap.load. now rewrite H. Qed.

Lemma load_bool2_run st l a :
  st !! l = Some (Heap.Bool2 a) -> Heap.load_bool2 l st = (Py.Ok a, st).
Proof. intros H. unfold Heap.load_bool2, Heap.bind, Heap.load. now rewrite H. Qed.

Lemma load_num2_run st l dt a :
  st !! l = Some (Heap.Num2 dt a) -> Heap.load_num2 l st = (Py.Ok (dt, a), st).
Proof. intros H. unfold Heap.load_num2, Heap.bind, Heap.load. now rewrite H. Qed.

Lemma astype_bool_run st a g :
  st !! a = Some (Heap.Bool3 g) ->
  Heap.astype_bool a st
  = (Py.Ok (fresh (dom st)), <[fresh (dom st) := Heap.Bool3 g]> st).
Proof.
  intros H. unfold Heap.astype_bool. rewrite (bind_run _ _ _ _ _ (load_bool3_run _ _ _ H)).
  unfold Heap.alloc, Np.bool_to_bool. now rewrite astype3_id.
Qed.

Lemma shape0_run st a g :
  st !! a = Some (Heap.Bool3 g) -> Heap.shape0 a st = (Py.Ok (Np.shape0_3 g), st).
Proof.
  intros H. unfold Heap.shape0. now rewrite (bind_run _ _ _ _ _ (load_bool3_run _ _ _ H)).
Qed.

Lemma getitem_plane_run st a g h m :
  st !! a = Some (Heap.Bool3 g) -> Np.take1 g h = Py.Ok m ->
  Heap.getitem_plane a h st = (Py.Ok (a, h), st).
Proof.
  intros H Hm. unfold Heap.getitem_plane.
  rewrite (bind_run _ _ _ _ _ (load_bool3_run _ _ _ H)).
  unfold Np.take1 in Hm. unfold Heap.bind, Heap.lift.
  destruct (Py.index (Np.dim1 g) h); [reflexivity | discriminate].
Qed.

Lemma read_view_run st a g h m :
  st !! a = Some (Heap.Bool3 g) -> Np.take1 g h = Py.Ok m ->
  Heap.read_view (a, h) st = (Py.Ok m, st).
Proof.
  intros H Hm. unfold Heap.read_view. cbn [fst snd].
  rewrite (bind_run _ _ _ _ _ (load_bool3_run _ _ _ H)). unfold Heap.lift. now rewrite Hm.
Qed.

Lemma logical_or_run st a g h1 h2 m1 m2 :
  st !! a = Some (Heap.Bool3 g) ->
  Np.take1 g h1 = Py.Ok m1 -> Np.take1 g h2 = Py.Ok m2 ->
  Heap.logical_or (a, h1) (a, h2) st
  = (Py.Ok (fresh (dom st)),
     <[fresh (dom st) := Heap.Bool2 (Np.logical_or m1 m2)]> st).
Proof.
  intros H H1 H2. unfold Heap.logical_or.
  rewrite (bind_run _ _ _ _ _ (read_view_run _ _ _ _ _ H H1)).
  now rewrite (bind_run _ _ _ _ _ (read_view_run _ _ _ _ _ H H2)).
Qed.

Lemma zeros_run st n m z :
  Np.zeros2 n m = Py.Ok z ->
  Heap.zeros n m st
  = (Py.Ok (fresh (dom st)), <[fresh (dom st) := Heap.Num2 Heap.float64 z]> st).
Proof. intros H. unfold Heap.zeros, Heap.bind, Heap.lift. now rewrite H. Qed.

Lemma heap_setitem_mask_run st y dt old a g h m v new :
  st !! a = Some (Heap.Bool3 g) -> Np.take1 g h = Py.Ok m ->
  st !! y = Some (Heap.Num2 dt old) -> Np.setitem_mask old m v = Py.Ok new ->
  Heap.setitem_mask y (a, h) v st = (Py.Ok tt, <[y := Heap.Num2 dt new]> st).
Proof.
  intros Ha Hm Hy Hnew. unfold Heap.setitem_mask.
  rewrite (bind_run _ _ _ _ _ (read_view_run _ _ _ _ _ Ha Hm)).
  rewrite (bind_run _ _ _ _ _ (load_num2_run _ _ _ _ Hy)). cbn [fst snd].
  unfold Heap.bind, Heap.lift. now rewrite Hnew.
Qed.

Lemma astype_float32_run st x a :
  st !! x = Some (Heap.Bool2 a) ->
  Heap.astype_float32 x st
  = (Py.Ok (fresh (dom st)),
     <[fresh (dom st) := Heap.Num2 Heap.float32 (Np.astype2 Np.bool_to_float32 a)]> st).
Proof.
  intros H. unfold Heap.astype_float32.
  now rewrite (bind_run _ _ _ _ _ (load_bool2_run _ _ _ H)).
Qed.

Lemma astype_longlong_run st y dt a :
  st !! y = Some (Heap.Num2 dt a) ->
  Heap.astype_longlong y st
  = (Py.Ok (fresh (dom st)),
     <[fresh (dom st) := Heap.Num2 Heap.longlong (Np.astype2 Np.float64_to_longlong a)]> st).
Proof.
  intros H. unfold Heap.astype_longlong.
  now rewrite (bind_run _ _ _ _ _ (load_num2_run _ _ _ _ H)).
Qed.

(** Whenever [_compute_X_Y] on the value of the input returns [(X, Y)],
    the construction in the store returns two objects holding [X] as
    [float32] and [Y] as [longlong]. *)
Lemma compute_X_Y_refines st data g X Y :
  st !! data = Some (Heap.Bool3 g) ->
  HanndsDataset._compute_X_Y g = Py.Ok (X, Y) ->
  exists x y st',
    Heap.HanndsDataset._compute_X_Y data st = (Py.Ok (x, y), st')
    /\ st' !! x = Some (Heap.Num2 Heap.float32 X)
    /\ st' !! y = Some (Heap.Num2 Heap.longlong Y).
Proof.
  intros Hdata Hpure. unfold HanndsDataset._compute_X_Y in Hpure.
  unfold Np.bool_to_bool at 1 in Hpure. rewrite !astype3_id in Hpure.
  destruct (Np.take1 g 0) as [left|] eqn:Hl; [|discriminate].
  destruct (Np.take1 g 1) as [right|] eqn:Hr; [|discriminate]. cbn [Py.bind] in Hpure.
  destruct (Np.zeros2 (Np.shape0_3 g) 88) as [Y0|] eqn:Hz; [|discriminate].
  cbn [Py.bind] in Hpure.
  destruct (Np.setitem_mask Y0 left LEFT_HAND_LABEL) as [Y1|] eqn:H1; [|discriminate].
  cbn [Py.bind] in Hpure.
  destruct (Np.setitem_mask Y1 right RIGHT_HAND_LABEL) as [Y2|] eqn:H2; [|discriminate].
  cbn [Py.bind] in Hpure. injection Hpure as <- <-.
  unfold Heap.HanndsDataset._compute_X_Y.
  rewrite (bind_run _ _ _ _ _ (astype_bool_run _ _ _ Hdata)).
  set (d := fresh (dom st)). set (st1 := <[d := Heap.Bool3 g]> st).
  assert (st1 !! d = Some (Heap.Bool3 g)) as Hd1 by apply lookup_insert_eq.
  rewrite (bind_run _ _ _ _ _ (shape0_run _ _ _ Hd1)).
  rewrite (bind_run _ _ _ _ _ (getitem_plane_run _ _ _ _ _ Hd1 Hl)).
  rewrite (bind_run _ _ _ _ _ (getitem_plane_run _ _ _ _ _ Hd1 Hr)).
  rewrite (bind_run _ _ _ _ _ (logical_or_run _ _ _ _ _ _ _ Hd1 Hl Hr)).
  set (x := fresh (dom st1)). set (st2 := <[x := _]> st1).
  assert (x <> d) as Hxd by (apply (fresh_ne st1 d _ Hd1)).
  assert (st2 !! d = Some (Heap.Bool3 g)) as Hd2
      by (unfold st2; now rewrite lookup_insert_ne).
  assert (st2 !! x = Some (Heap.Bool2 (Np.logical_or left right))) as Hx2
      by apply lookup_insert_eq.
  rewrite (bind_run _ _ _ _ _ (zeros_run st2 _ _ _ Hz)).
  set (y := fresh (dom st2)). set (st3 := <[y := _]> st2).
  assert (y <> d) as Hyd by (apply (fresh_ne st2 d _ Hd2)).
  assert (y <> x) as Hyx by (apply (fresh_ne st2 x _ Hx2)).
  assert (st3 !! d = Some (Heap.Bool3 g)) as Hd3
      by (unfold st3; now rewrite lookup_insert_ne).
  assert (st3 !! y = Some (Heap.Num2 Heap.float64 Y0)) as Hy3 by apply lookup_insert_eq.
  rewrite (bind_run _ _ _ _ _ (getitem_plane_run _ _ _ _ _ Hd3 Hl)).
  rewrite (bind_run _ _ _ _ _ (heap_setitem_mask_run _ _ _ _ _ _ _ _ _ _ Hd3 Hl Hy3 H1)).
  set (st4 := <[y := _]> st3).
  assert (st4 !! d = Some (Heap.Bool3 g)) as Hd4
      by (unfold st4; now rewrite lookup_insert_ne).
  assert (st4 !! y = Some (Heap.Num2 Heap.float64 Y1)) as Hy4 by apply lookup_insert_eq.
  rewrite (bind_run _ _ _ _ _ (getitem_plane_run _ _ _ _ _ Hd4 Hr)).
  rewrite (bind_run _ _ _ _ _ (heap_setitem_mask_run _ _ _ _ _ _ _ _ _ _ Hd4 Hr Hy4 H2)).
  set (st5 := <[y := _]> st4).
  assert (st5 !! y = Some (Heap.Num2 Heap.float64 Y2)) as Hy5 by apply lookup_insert_eq.
  assert (st5 !! x = Some (Heap.Bool2 (Np.logical_or left right))) as Hx5.
  { unfold st5, st4, st3. now rewrite !lookup_insert_ne. }
  rewrite (bind_run _ _ _ _ _ (astype_float32_run _ _ _ Hx5)).
  set (x' := fresh (dom st5)). set (st6 := <[x' := _]> st5).
  assert (x' <> y) as Hx'y by (apply (fresh_ne st5 y _ Hy5)).
  assert (st6 !! y = Some (Heap.Num2 Heap.float64 Y2)) as Hy6
      by (unfold st6; now rewrite lookup_insert_ne).
  assert (st6 !! x' = Some (Heap.Num2 Heap.float32
                              (Np.astype2 Np.bool_to_float32 (Np.logical_or left right))))
    as Hx'6 by apply lookup_insert_eq.
  rewrite (bind_run _ _ _ _ _ (astype_longlong_run _ _ _ _ Hy6)).
  set (y' := fresh (dom st6)). set (st7 := <[y' := _]> st6).
  assert (y' <> x') as Hy'x' by (apply (fresh_ne st6 x' _ Hx'6)).
  exists x', y', st7. split; [reflexivity|]. split.
  - unfold st7. now rewrite lookup_insert_ne.
  - apply lookup_insert_eq.
Qed.

(** C10.  Constructing a dataset from an array [npy_data] of the store
    leaves that array as it was, and every other object the store held
    before the call, whether the construction returns or raises: the only
    write in place, [Y[mask] = label], goes to the array [np.zeros]
    allocated during the call.  The [X] and [Y] of the dataset are objects
    that did not exist before the call; on an activity grid the
    construction returns, and they hold the values of [_compute_X_Y]. *)
Theorem C10_construction_leaves_input (st : gmap positive Heap.ndarray)
        (npy_data : positive) (g : Np.array3 bool) (len_sequence : Z) :
  st !! npy_data = Some (Heap.Bool3 g) ->
  let r := fst (Heap.HanndsDataset.__init__ npy_data len_sequence st) in
  let st' := snd (Heap.HanndsDataset.__init__ npy_data len_sequence st) in
  st' !! npy_data = Some (Heap.Bool3 g)
  /\ (forall l v, st !! l = Some v -> st' !! l = Some v)
  /\ (forall self, r = Py.Ok self ->
        st !! Heap.HanndsDataset.X (Heap.HanndsDataset.data self) = None
        /\ st !! Heap.HanndsDataset.Y (Heap.HanndsDataset.data self) = None)
  /\ (activity_grid g ->
      exists self X Y,
        r = Py.Ok self
        /\ Heap.HanndsDataset.len_sequence self = len_sequence
        /\ HanndsDataset._compute_X_Y g = Py.Ok (X, Y)
        /\ st' !! Heap.HanndsDataset.X (Heap.HanndsDataset.data self)
           = Some (Heap.Num2 Heap.float32 X)
        /\ st' !! Heap.HanndsDataset.Y (Heap.HanndsDataset.data self)
           = Some (Heap.Num2 Heap.longlong Y)).
Proof.
  intros Hdata r st'.
  destruct (keeps_init st npy_data len_sequence st (fun l v H => H)) as [Hext Hnew].
  fold st' in Hext. fold r in Hnew.
  split; [now apply Hext|]. split; [exact Hext|]. split; [exact Hnew|].
  intros Hg. destruct (compute_X_Y_cells g Hg) as (X & Y & Hpure & _).
  destruct (compute_X_Y_refines st npy_data g X Y Hdata Hpure)
    as (x & y & st1 & Hrun & Hx & Hy).
  subst r st'. unfold Heap.HanndsDataset.__init__.
  rewrite (bind_run _ _ _ _ _ Hrun). cbn.
  eexists _, X, Y. split; [reflexivity|]. cbn. auto.
Qed.

Lemma C10_construction_leaves_input_witness :
  example_store !! 5%positive = Some (Heap.Bool3 example_grid)
  /\ snd (Heap.HanndsDataset.__init__ 5%positive 100 example_store) !! 5%positive
     = Some (Heap.Bool3 example_grid)
  /\ exists self,
       fst (Heap.HanndsDataset.__init__ 5%positive 100 example_store) = Py.Ok self
       /\ example_store !! Heap.HanndsDataset.X (Heap.HanndsDataset.data self) = None
       /\ example_store !! Heap.HanndsDataset.Y (Heap.HanndsDataset.data self) = None.
Proof.
  split; [reflexivity|].
  destruct (C10_construction_leaves_input example_store 5%positive
              example_grid 100 eq_refl) as (Hkept & _ & Hnew & Hrun).
  split; [exact Hkept|].
  destruct (Hrun ltac:(solve_activity_grid)) as (self & X & Y & Hself & _).
  exists self. split; [exact Hself|]. now apply Hnew.
Defined.

(* ===================================================================== *)
(** * Part III: further properties of the code                            *)
(* ===================================================================== *)

(** ** ContinuationSampler *)

(** X1.  Every index emitted belongs to the run of its row: the index at
    row [j] of batch [b] lies in [[stride * j, stride * (j + 1))], the run
    of windows that row [j] walks through.  The first batch starts every
    run, each later batch continues it by one (the index at row [j] of batch
    [b + 1] is the index at row [j] of batch [b] plus one), and the last
    batch ends it. *)
Theorem X1_rows_continue (num_windows batch_size b j : Z) :
  0 <= num_windows -> 1 <= batch_size ->
  let stride := num_windows / batch_size in
  let stream :=
    Py.emitted (ContinuationSampler.__iter__
                  (ContinuationSampler.__init__ num_windows batch_size)) in
  0 <= b < stride -> 0 <= j < batch_size ->
  exists i,
    nth_error stream (Z.to_nat (b * batch_size + j)) = Some i
    /\ stride * j <= i < stride * (j + 1)
    /\ (b = 0 -> i = stride * j)
    /\ (b + 1 < stride ->
        nth_error stream (Z.to_nat ((b + 1) * batch_size + j)) = Some (i + 1))
    /\ (b + 1 = stride -> i + 1 = stride * (j + 1)).
Proof.
  intros Hn Hbs stride stream Hb Hj. exists (b + stride * j).
  unfold stream, ContinuationSampler.__iter__.
  rewrite generate_indices_run by (cbn; lia). cbn [Py.emitted fst].
  cbn [ContinuationSampler.len_dataset ContinuationSampler.batch_size]. fold stride.
  rewrite continuation_order_nth by lia.
  split; [reflexivity|]. split; [lia|]. split; [lia|]. split; [|lia].
  intros Hnext. rewrite continuation_order_nth by lia. f_equal. lia.
Qed.

Lemma X1_rows_continue_witness :
  0 <= 40 /\ 1 <= 5
  /\ (exists i,
        nth_error (Py.emitted (ContinuationSampler.__iter__
                                 (ContinuationSampler.__init__ 40 5)))
                  (Z.to_nat (3 * 5 + 2)) = Some i
        /\ 8 * 2 <= i < 8 * (2 + 1)
        /\ nth_error (Py.emitted (ContinuationSampler.__iter__
                                    (ContinuationSampler.__init__ 40 5)))
                     (Z.to_nat ((3 + 1) * 5 + 2)) = Some (i + 1))
  /\ (exists i,
        nth_error (Py.emitted (ContinuationSampler.__iter__
                                 (ContinuationSampler.__init__ 5 5)))
                  (Z.to_nat (0 * 5 + 3)) = Some i
        /\ 1 * 3 <= i < 1 * (3 + 1)).
Proof.
  split; [lia|]. split; [lia|]. split.
  - destruct (X1_rows_continue 40 5 3 2 ltac:(lia) ltac:(lia)
                ltac:(vm_compute; split; [discriminate | reflexivity]) ltac:(lia))
      as (i & H1 & H2 & _ & H3 & _).
    exists i. split; [exact H1|]. split; [exact H2|].
    apply H3. vm_compute. reflexivity.
  - destruct (X1_rows_continue 5 5 0 3 ltac:(lia) ltac:(lia)
                ltac:(vm_compute; split; [discriminate | reflexivity]) ltac:(lia))
      as (i & H1 & H2 & _).
    exists i. split; [exact H1 | exact H2].
Defined.

(** ** HanndsDataset: every index *)

Lemma slice_rows {A} (a : list A) (start stop : Z) :
  Py.slice a start stop
  = take (Z.to_nat (Py.slice_bound (Z.of_nat (length a)) stop
                    - Py.slice_bound (Z.of_nat (length a)) start))
         (drop (Z.to_nat (Py.slice_bound (Z.of_nat (length a)) start)) a)
  /\ Z.of_nat (length (Py.slice a start stop))
     = Z.max 0 (Py.slice_bound (Z.of_nat (length a)) stop
                - Py.slice_bound (Z.of_nat (length a)) start).
Proof.
  split; [reflexivity|]. unfold Py.slice.
  set (n := Z.of_nat (length a)).
  assert (0 <= Py.slice_bound n start <= n) by (unfold Py.slice_bound; lia).
  assert (0 <= Py.slice_bound n stop <= n) by (unfold Py.slice_bound; lia).
  rewrite length_take, length_drop. lia.
Qed.

(** What [__getitem__] does with the lengths of its two slices. *)
Lemma getitem_by_lengths (self : HanndsDataset.t) (idx : Z) :
  HanndsDataset.len_sequence self <> -1 ->
  let L := HanndsDataset.len_sequence self in
  let res1 := Np.slice2 (HanndsDataset.X (HanndsDataset.data self))
                        (idx * L) (idx * L + L) in
  let res2 := Np.slice2 (HanndsDataset.Y (HanndsDataset.data self))
                        (idx * L) (idx * L + L) in
  (Np.shape0_2 res1 = L -> Np.shape0_2 res2 = L ->
   HanndsDataset.__getitem__ self idx = Py.Ok (res1, res2))
  /\ (Np.shape0_2 res2 <> L ->
      HanndsDataset.__getitem__ self idx = Py.Raise Py.AssertionError).
Proof.
  intros HL L res1 res2. unfold HanndsDataset.__getitem__. fold L.
  destruct (Z.eqb_spec L (-1)); [contradiction|]. fold res1 res2. split.
  - intros -> ->. now rewrite !Z.eqb_refl.
  - intros Hne. destruct (Z.eqb_spec (Np.shape0_2 res2) L); [contradiction|].
    now rewrite andb_false_r.
Qed.

Lemma getitem_nonneg_index (self : HanndsDataset.t) (T idx : Z) :
  0 < HanndsDataset.len_sequence self ->
  Np.shape0_2 (HanndsDataset.X (HanndsDataset.data self)) = T ->
  Np.shape0_2 (HanndsDataset.Y (HanndsDataset.data self)) = T ->
  0 <= idx ->
  let L := HanndsDataset.len_sequence self in
  (idx < T / L ->
   exists res1 res2,
     HanndsDataset.__getitem__ self idx = Py.Ok (res1, res2)
     /\ Np.rows res1
        = take (Z.to_nat L)
               (drop (Z.to_nat (idx * L))
                     (Np.rows (HanndsDataset.X (HanndsDataset.data self))))
     /\ Np.rows res2
        = take (Z.to_nat L)
               (drop (Z.to_nat (idx * L))
                     (Np.rows (HanndsDataset.Y (HanndsDataset.data self))))
     /\ Np.shape0_2 res1 = L /\ Np.shape0_2 res2 = L)
  /\ (T / L <= idx ->
      HanndsDataset.__getitem__ self idx = Py.Raise Py.AssertionError).
Proof.
  intros HL HX HY Hidx L.
  assert (L * (T / L) <= T < L * (T / L) + L) as Hdiv.
  { pose proof (Z.div_mod T L ltac:(lia)). pose proof (Z.mod_pos_bound T L HL). lia. }
  destruct (getitem_by_lengths self idx ltac:(lia)) as [Hok Hfail]. fold L in Hok, Hfail.
  destruct (slice_rows (Np.rows (HanndsDataset.X (HanndsDataset.data self)))
                       (idx * L) (idx * L + L)) as [HrX HlX].
  destruct (slice_rows (Np.rows (HanndsDataset.Y (HanndsDataset.data self)))
                       (idx * L) (idx * L + L)) as [HrY HlY].
  fold (Np.shape0_2 (HanndsDataset.X (HanndsDataset.data self))) in HrX, HlX.
  fold (Np.shape0_2 (HanndsDataset.Y (HanndsDataset.data self))) in HrY, HlY.
  rewrite HX in HrX, HlX. rewrite HY in HrY, HlY.
  assert (0 <= T) as HT by (rewrite <- HX; unfold Np.shape0_2; lia).
  assert (0 <= idx * L) as Hstart by nia.
  split.
  - intros Hin. assert (idx * L + L <= T) as Hend by nia.
    assert (Py.slice_bound T (idx * L) = idx * L) as Hlo
        by (unfold Py.slice_bound; destruct (Z.ltb_spec (idx * L) 0); lia).
    assert (Py.slice_bound T (idx * L + L) = idx * L + L) as Hhi
        by (unfold Py.slice_bound; destruct (Z.ltb_spec (idx * L + L) 0); lia).
    rewrite Hlo, Hhi in HrX, HlX, HrY, HlY.
    replace (idx * L + L - idx * L) with L in * by lia.
    do 2 eexists. split; [apply Hok|].
    + unfold Np.shape0_2, Np.slice2. cbn [Np.rows]. lia.
    + unfold Np.shape0_2, Np.slice2. cbn [Np.rows]. lia.
    + unfold Np.slice2. cbn [Np.rows]. rewrite HrX, HrY.
      unfold Np.shape0_2. cbn [Np.rows]. rewrite <- HrX, <- HrY. repeat split; lia.
  - intros Hout. apply Hfail. unfold Np.shape0_2, Np.slice2. cbn [Np.rows].
    rewrite HlY. assert (T < idx * L + L) by nia.
    unfold Py.slice_bound.
    destruct (Z.ltb_spec (idx * L) 0); destruct (Z.ltb_spec (idx * L + L) 0); lia.
Qed.

(** X2.  For [len_sequence > 0] and an index that is not negative,
    [__getitem__] returns a window exactly when [idx < T // len_sequence]:
    the index equal to [__len__] is still served (it is the last complete
    window of the data), and every index from [T // len_sequence] on fails
    the assertion, because fewer than [len_sequence] rows are left. *)
Theorem X2_getitem_index_range (self : HanndsDataset.t) (T idx : Z) :
  0 < HanndsDataset.len_sequence self ->
  Np.shape0_2 (HanndsDataset.X (HanndsDataset.data self)) = T ->
  Np.shape0_2 (HanndsDataset.Y (HanndsDataset.data self)) = T ->
  0 <= idx ->
  let L := HanndsDataset.len_sequence self in
  (idx < T / L ->
   exists res1 res2,
     HanndsDataset.__getitem__ self idx = Py.Ok (res1, res2)
     /\ Np.rows res1
        = take (Z.to_nat L)
               (drop (Z.to_nat (idx * L))
                     (Np.rows (HanndsDataset.X (HanndsDataset.data self))))
     /\ Np.rows res2
        = take (Z.to_nat L)
               (drop (Z.to_nat (idx * L))
                     (Np.rows (HanndsDataset.Y (HanndsDataset.data self))))
     /\ Np.shape0_2 res1 = L /\ Np.shape0_2 res2 = L)
  /\ (T / L <= idx ->
      HanndsDataset.__getitem__ self idx = Py.Raise Py.AssertionError).
Proof. exact (getitem_nonneg_index self T idx). Qed.

Lemma X2_getitem_index_range_witness :
  0 < HanndsDataset.len_sequence example_dataset
  /\ HanndsDataset.__getitem__ example_dataset 2
     = Py.Ok (Np.Array2 1 [[0]; [1]], Np.Array2 1 [[0]; [2]])
  /\ HanndsDataset.__getitem__ example_dataset 3 = Py.Raise Py.AssertionError.
Proof.
  assert (0 < HanndsDataset.len_sequence example_dataset) as HL by (cbn; lia).
  destruct (X2_getitem_index_range example_dataset 7 2 HL eq_refl eq_refl ltac:(lia))
    as [Hin _].
  destruct (X2_getitem_index_range example_dataset 7 3 HL eq_refl eq_refl ltac:(lia))
    as [_ Hout].
  split; [exact HL|]. split.
  - destruct (Hin ltac:(vm_compute; reflexivity)) as (res1 & res2 & Hrun & _).
    rewrite Hrun. vm_compute in Hrun. now injection Hrun as <- <-.
  - apply Hout. vm_compute. discriminate.
Defined.

(** X3.  Negative indices do not count windows from the end.  For
    [len_sequence > 0], index [-1] always fails the assertion (its slice
    [[-L : 0]] is empty); an index [idx <= -2] is served when
    [-idx <= T // len_sequence], with the rows
    [[T + idx * L, T + idx * L + L)], which are not aligned with the windows
    of the non-negative indices unless [L] divides [T]; any other negative
    index fails the assertion. *)
Theorem X3_getitem_negative_index (self : HanndsDataset.t) (T idx : Z) :
  0 < HanndsDataset.len_sequence self ->
  Np.shape0_2 (HanndsDataset.X (HanndsDataset.data self)) = T ->
  Np.shape0_2 (HanndsDataset.Y (HanndsDataset.data self)) = T ->
  idx < 0 ->
  let L := HanndsDataset.len_sequence self in
  (idx = -1 \/ T / L < - idx ->
   HanndsDataset.__getitem__ self idx = Py.Raise Py.AssertionError)
  /\ (idx <= -2 -> - idx <= T / L ->
      exists res1 res2,
        HanndsDataset.__getitem__ self idx = Py.Ok (res1, res2)
        /\ Np.rows res1
           = take (Z.to_nat L)
                  (drop (Z.to_nat (T + idx * L))
                        (Np.rows (HanndsDataset.X (HanndsDataset.data self))))
        /\ Np.rows res2
           = take (Z.to_nat L)
                  (drop (Z.to_nat (T + idx * L))
                        (Np.rows (HanndsDataset.Y (HanndsDataset.data self))))).
Proof.
  intros HL HX HY Hidx L.
  assert (L * (T / L) <= T < L * (T / L) + L) as Hdiv.
  { pose proof (Z.div_mod T L ltac:(lia)). pose proof (Z.mod_pos_bound T L HL). lia. }
  destruct (getitem_by_lengths self idx ltac:(lia)) as [Hok Hfail]. fold L in Hok, Hfail.
  destruct (slice_rows (Np.rows (HanndsDataset.X (HanndsDataset.data self)))
                       (idx * L) (idx * L + L)) as [HrX HlX].
  destruct (slice_rows (Np.rows (HanndsDataset.Y (HanndsDataset.data self)))
                       (idx * L) (idx * L + L)) as [HrY HlY].
  fold (Np.shape0_2 (HanndsDataset.X (HanndsDataset.data self))) in HrX, HlX.
  fold (Np.shape0_2 (HanndsDataset.Y (HanndsDataset.data self))) in HrY, HlY.
  rewrite HX in HrX, HlX. rewrite HY in HrY, HlY.
  assert (0 <= T) as HT by (rewrite <- HX; unfold Np.shape0_2; lia).
  assert (idx * L < 0) as Hstart by nia.
  assert (Py.slice_bound T (idx * L) = Z.max 0 (T + idx * L)) as Hlo
      by (unfold Py.slice_bound; destruct (Z.ltb_spec (idx * L) 0); lia).
  split.
  - intros Hcase. apply Hfail. unfold Np.shape0_2, Np.slice2. cbn [Np.rows].
    rewrite HlY, Hlo. destruct Hcase as [-> | Hfar].
    + replace (-1 * L + L) with 0 by lia. unfold Py.slice_bound. cbn. lia.
    + assert (T + idx * L < 0) by nia. unfold Py.slice_bound.
      destruct (Z.ltb_spec (idx * L + L) 0); lia.
  - intros Hle Hin. assert (0 <= T + idx * L) as Hge by nia.
    assert (Py.slice_bound T (idx * L + L) = T + idx * L + L) as Hhi
        by (unfold Py.slice_bound; destruct (Z.ltb_spec (idx * L + L) 0); nia).
    rewrite Hlo, Hhi, Z.max_r in HrX, HlX, HrY, HlY by lia.
    replace (T + idx * L + L - (T + idx * L)) with L in * by lia.
    do 2 eexists. split; [apply Hok|].
    + unfold Np.shape0_2, Np.slice2. cbn [Np.rows]. lia.
    + unfold Np.shape0_2, Np.slice2. cbn [Np.rows]. lia.
    + unfold Np.slice2. cbn [Np.rows]. now rewrite HrX, HrY.
Qed.

Lemma X3_getitem_negative_index_witness :
  0 < HanndsDataset.len_sequence example_dataset
  /\ HanndsDataset.__getitem__ example_dataset (-1) = Py.Raise Py.AssertionError
  /\ HanndsDataset.__getitem__ example_dataset (-2)
     = Py.Ok (Np.Array2 1 [[1]; [0]], Np.Array2 1 [[2]; [0]]).
Proof.
  assert (0 < HanndsDataset.len_sequence example_dataset) as HL by (cbn; lia).
  split; [exact HL|]. split.
  - apply (X3_getitem_negative_index example_dataset 7 (-1) HL eq_refl eq_refl); [lia|].
    now left.
  - destruct (X3_getitem_negative_index example_dataset 7 (-2) HL eq_refl eq_refl
                ltac:(lia)) as [_ Hin].
    destruct (Hin ltac:(lia) ltac:(vm_compute; discriminate))
      as (res1 & res2 & Hrun & _).
    rewrite Hrun. vm_compute in Hrun. now injection Hrun as <- <-.
Defined.

(** ** HanndsDataset: the windows as a whole *)

Lemma getitems_tile (self : HanndsDataset.t) (T : Z) :
  0 < HanndsDataset.len_sequence self ->
  Np.shape0_2 (HanndsDataset.X (HanndsDataset.data self)) = T ->
  Np.shape0_2 (HanndsDataset.Y (HanndsDataset.data self)) = T ->
  let L := Z.to_nat (HanndsDataset.len_sequence self) in
  forall k a : nat,
    Z.of_nat (a + k) <= T / HanndsDataset.len_sequence self ->
    exists ws,
      getitems self (List.map Z.of_nat (seq a k)) = Py.Ok ws
      /\ length ws = k
      /\ concat (List.map (fun w => Np.rows (fst w)) ws)
         = take (k * L) (drop (a * L) (Np.rows (HanndsDataset.X (HanndsDataset.data self))))
      /\ concat (List.map (fun w => Np.rows (snd w)) ws)
         = take (k * L) (drop (a * L) (Np.rows (HanndsDataset.Y (HanndsDataset.data self)))).
Proof.
  intros HL HX HY L. induction k as [|k IH]; intros a Ha.
  - exists []. cbn. now rewrite !take_0.
  - cbn [seq List.map getitems].
    destruct (getitem_nonneg_index self T (Z.of_nat a) HL HX HY ltac:(lia)) as [Hin _].
    destruct (Hin ltac:(lia)) as (res1 & res2 & -> & H1 & H2 & _). cbn [Py.bind].
    destruct (IH (S a) ltac:(lia)) as (ws & -> & Hlen & HcX & HcY). cbn [Py.bind].
    eexists. split; [reflexivity|]. cbn [length List.map concat fst snd].
    split; [now rewrite Hlen|].
    replace (Z.to_nat (Z.of_nat a * HanndsDataset.len_sequence self))
      with (a * L)%nat in H1, H2 by (unfold L; lia).
    fold L in H1, H2. rewrite H1, H2, HcX, HcY.
    replace (S a * L)%nat with (a * L + L)%nat by lia.
    rewrite <- !drop_drop.
    split; now rewrite take_take_drop.
Qed.

(** X4.  For [len_sequence > 0] and [T >= len_sequence] the windows of the
    view, taken in index order, are consecutive and do not overlap: put end
    to end they are the first [n * len_sequence] rows of [X] and of [Y],
    where [n = __len__].  The remaining rows, at least [len_sequence] and
    fewer than [2 * len_sequence] of them, belong to no window of the
    view. *)
Theorem X4_windows_tile_prefix (self : HanndsDataset.t) (T : Z) :
  0 < HanndsDataset.len_sequence self ->
  Np.shape0_2 (HanndsDataset.X (HanndsDataset.data self)) = T ->
  Np.shape0_2 (HanndsDataset.Y (HanndsDataset.data self)) = T ->
  HanndsDataset.len_sequence self <= T ->
  let L := HanndsDataset.len_sequence self in
  exists n ws,
    HanndsDataset.__len__ self = Py.Ok n
    /\ windows self = Py.Ok ws
    /\ Z.of_nat (length ws) = n
    /\ concat (List.map (fun w => Np.rows (fst w)) ws)
       = take (Z.to_nat (n * L)) (Np.rows (HanndsDataset.X (HanndsDataset.data self)))
    /\ concat (List.map (fun w => Np.rows (snd w)) ws)
       = take (Z.to_nat (n * L)) (Np.rows (HanndsDataset.Y (HanndsDataset.data self)))
    /\ L <= T - n * L < 2 * L.
Proof.
  intros HL HX HY HT L.
  assert (L * (T / L) <= T < L * (T / L) + L) as Hdiv.
  { pose proof (Z.div_mod T L ltac:(lia)). pose proof (Z.mod_pos_bound T L HL). lia. }
  assert (1 <= T / L) as Hq by (apply Z.div_le_lower_bound; lia).
  assert (HanndsDataset.__len__ self = Py.Ok (T / L - 1)) as Hlen.
  { unfold HanndsDataset.__len__, Py.floordiv. fold L.
    destruct (Z.eqb_spec L (-1)); [lia|]. destruct (Z.eqb_spec L 0); [lia|].
    cbn. now rewrite HX. }
  destruct (getitems_tile self T HL HX HY (Z.to_nat (T / L - 1)) 0 ltac:(fold L; lia))
    as (ws & Hrun & Hn & HcX & HcY).
  exists (T / L - 1), ws. split; [exact Hlen|]. split.
  - unfold windows. rewrite Hlen. cbn [Py.bind].
    destruct (Z.ltb_spec (T / L - 1) 0); [lia|]. exact Hrun.
  - split; [lia|]. cbn [drop Nat.mul] in HcX, HcY. fold L in HcX, HcY.
    replace (Z.to_nat ((T / L - 1) * L))
      with (Z.to_nat (T / L - 1) * Z.to_nat L)%nat by nia.
    split; [exact HcX|]. split; [exact HcY|]. lia.
Qed.

Lemma X4_windows_tile_prefix_witness :
  0 < HanndsDataset.len_sequence example_dataset
  /\ HanndsDataset.len_sequence example_dataset <= 7
  /\ exists ws,
       windows example_dataset = Py.Ok ws
       /\ concat (List.map (fun w => Np.rows (fst w)) ws) = [[0]; [1]; [1]; [1]].
Proof.
  assert (0 < HanndsDataset.len_sequence example_dataset) as HL by (cbn; lia).
  assert (HanndsDataset.len_sequence example_dataset <= 7) as HT by (cbn; lia).
  split; [exact HL|]. split; [exact HT|].
  destruct (X4_windows_tile_prefix example_dataset 7 HL eq_refl eq_refl HT)
    as (n & ws & Hlen & Hws & _ & HcX & _).
  exists ws. split; [exact Hws|]. rewrite HcX.
  vm_compute in Hlen. injection Hlen as <-. reflexivity.
Defined.

(** X5.  A sampler built on the length of a view only asks for windows the
    view has: for [len_sequence > 0], [T >= len_sequence] and
    [batch_size >= 1], every index that
    [ContinuationSampler(len(dataset), batch_size)] emits is served by
    [__getitem__] with a window of exactly [len_sequence] rows. *)
Theorem X5_sampler_indices_are_served (self : HanndsDataset.t) (T batch_size : Z) :
  0 < HanndsDataset.len_sequence self ->
  Np.shape0_2 (HanndsDataset.X (HanndsDataset.data self)) = T ->
  Np.shape0_2 (HanndsDataset.Y (HanndsDataset.data self)) = T ->
  HanndsDataset.len_sequence self <= T ->
  1 <= batch_size ->
  exists n,
    HanndsDataset.__len__ self = Py.Ok n /\ 0 <= n
    /\ forall idx,
         In idx (Py.emitted (ContinuationSampler.__iter__
                               (ContinuationSampler.__init__ n batch_size))) ->
         exists res1 res2,
           HanndsDataset.__getitem__ self idx = Py.Ok (res1, res2)
           /\ Np.shape0_2 res1 = HanndsDataset.len_sequence self
           /\ Np.shape0_2 res2 = HanndsDataset.len_sequence self.
Proof.
  intros HL HX HY HT Hbs. set (L := HanndsDataset.len_sequence self) in *.
  assert (1 <= T / L) as Hq by (apply Z.div_le_lower_bound; lia).
  exists (T / L - 1). split; [|split; [lia|]].
  - unfold HanndsDataset.__len__, Py.floordiv. fold L.
    destruct (Z.eqb_spec L (-1)); [lia|]. destruct (Z.eqb_spec L 0); [lia|].
    cbn. now rewrite HX.
  - intros idx Hidx. unfold ContinuationSampler.__iter__ in Hidx.
    rewrite generate_indices_run in Hidx by (cbn; lia). cbn in Hidx.
    apply continuation_order_In in Hidx; [|apply Z.div_pos; lia].
    assert ((T / L - 1) / batch_size * batch_size <= T / L - 1) as Hdrop.
    { rewrite Z.mul_comm. apply Z.mul_div_le. lia. }
    destruct (getitem_nonneg_index self T idx HL HX HY ltac:(lia)) as [Hin _].
    destruct (Hin ltac:(fold L; lia)) as (res1 & res2 & Hrun & _ & _ & H1 & H2).
    eauto.
Qed.

Lemma X5_sampler_indices_are_served_witness :
  0 < HanndsDataset.len_sequence example_dataset
  /\ HanndsDataset.len_sequence example_dataset <= 7 /\ 1 <= 2
  /\ exists n, HanndsDataset.__len__ example_dataset = Py.Ok n /\ 0 <= n.
Proof.
  assert (0 < HanndsDataset.len_sequence example_dataset) as HL by (cbn; lia).
  assert (HanndsDataset.len_sequence example_dataset <= 7) as HT by (cbn; lia).
  split; [exact HL|]. split; [exact HT|]. split; [lia|].
  destruct (X5_sampler_indices_are_served example_dataset 7 2 HL eq_refl eq_refl HT
              ltac:(lia)) as (n & Hlen & Hn & _).
  exists n. split; assumption.
Defined.

(** X6.  [__len__] at its edges: with [len_sequence = 0] it raises
    [ZeroDivisionError]; with [len_sequence > 0] it returns a count that is
    not negative exactly when the data has at least [len_sequence] rows, and
    [-1] when it has fewer. *)
Theorem X6_len_edges (self : HanndsDataset.t) :
  let L := HanndsDataset.len_sequence self in
  let T := Np.shape0_2 (HanndsDataset.X (HanndsDataset.data self)) in
  (L = 0 -> HanndsDataset.__len__ self = Py.Raise Py.ZeroDivisionError)
  /\ (0 < L -> T < L -> HanndsDataset.__len__ self = Py.Ok (-1))
  /\ (0 < L -> L <= T ->
      exists n, HanndsDataset.__len__ self = Py.Ok n /\ 0 <= n /\ n * L <= T - L).
Proof.
  intros L T. unfold HanndsDataset.__len__, Py.floordiv. fold L T.
  assert (0 <= T) by (unfold T, Np.shape0_2; lia).
  split; [|split].
  - intros ->. reflexivity.
  - intros HL HT. destruct (Z.eqb_spec L (-1)); [lia|]. destruct (Z.eqb_spec L 0); [lia|].
    cbn. now rewrite Z.div_small by lia.
  - intros HL HT. destruct (Z.eqb_spec L (-1)); [lia|]. destruct (Z.eqb_spec L 0); [lia|].
    cbn. eexists. split; [reflexivity|].
    assert (1 <= T / L) by (apply Z.div_le_lower_bound; lia).
    pose proof (Z.mul_div_le T L HL). split; [lia | nia].
Qed.

Lemma X6_len_edges_witness :
  0 < 5 /\ Np.shape0_2 (Np.Array2 1 [[0]; [1]]) < 5
  /\ HanndsDataset.__len__
       (HanndsDataset.mk 5 (HanndsDataset.mkXY (Np.Array2 1 [[0]; [1]])
                                              (Np.Array2 1 [[0]; [1]])))
     = Py.Ok (-1)
  /\ HanndsDataset.__len__
       (HanndsDataset.mk 0 (HanndsDataset.mkXY (Np.Array2 1 [[0]; [1]])
                                              (Np.Array2 1 [[0]; [1]])))
     = Py.Raise Py.ZeroDivisionError
  /\ exists n, HanndsDataset.__len__ example_dataset = Py.Ok n /\ 0 <= n.
Proof.
  split; [lia|]. split; [vm_compute; reflexivity|]. split; [|split].
  - apply (X6_len_edges (HanndsDataset.mk 5 (HanndsDataset.mkXY (Np.Array2 1 [[0]; [1]])
                                               (Np.Array2 1 [[0]; [1]]))));
      vm_compute; reflexivity.
  - now apply (X6_len_edges (HanndsDataset.mk 0 (HanndsDataset.mkXY (Np.Array2 1 [[0]; [1]])
                                                   (Np.Array2 1 [[0]; [1]])))).
  - destruct (proj2 (proj2 (X6_len_edges example_dataset))
                ltac:(vm_compute; reflexivity) ltac:(vm_compute; discriminate))
      as (n & Hn & H0 & _).
    exists n. split; assumption.
Defined.

(** ** HanndsDataset._compute_X_Y: shapes, classes and concatenation *)

Lemma zip_with_repeat_l {A B C} (f : A -> B -> C) (x : A) (k : list B) :
  zip_with f (repeat x (length k)) k = List.map (f x) k.
Proof. induction k as [|y k IH]; [reflexivity|]. cbn. now rewrite IH. Qed.

Lemma zip_with_map_map {A B C D} (f : B -> C -> D) (g : A -> B) (h : A -> C)
      (l : list A) :
  zip_with f (List.map g l) (List.map h l) = List.map (fun x => f (g x) (h x)) l.
Proof. induction l as [|x l IH]; [reflexivity|]. cbn. now rewrite IH. Qed.

Lemma setitem_mask_rows (y : Np.array2 Z) (mask : Np.array2 bool) (v : Z) :
  length (Np.rows y) = length (Np.rows mask) -> Np.ncols y = Np.ncols mask ->
  Np.setitem_mask y mask v
  = Py.Ok (Np.Array2 (Np.ncols y)
             (zip_with (zip_with (fun yv (m : bool) => if m then v else yv))
                       (Np.rows y) (Np.rows mask))).
Proof.
  intros Hr Hc. unfold Np.setitem_mask, Np.shape0_2. now rewrite Hr, Hc, !Z.eqb_refl.
Qed.

Lemma setitem_mask_bad_cols (y : Np.array2 Z) (mask : Np.array2 bool) (v : Z) :
  Np.ncols mask <> 0 -> Np.ncols y <> Np.ncols mask ->
  Np.setitem_mask y mask v = Py.Raise Py.IndexError.
Proof.
  intros H0 Hc. unfold Np.setitem_mask.
  destruct (Z.eqb_spec (Np.ncols y) (Np.ncols mask)); [contradiction|].
  rewrite andb_false_r.
  destruct (Z.eqb_spec (Np.ncols mask) 0); [contradiction|].
  destruct (Z.eqb_spec (Np.ncols mask) (Np.ncols y)); [congruence|].
  cbn [negb andb]. now rewrite orb_true_r.
Qed.

(** A mask with no column against an array that has columns: nothing is
    compared on that axis and nothing is written. *)
Lemma setitem_mask_no_cols (y : Np.array2 Z) (mask : Np.array2 bool) (v : Z) :
  length (Np.rows y) = length (Np.rows mask) ->
  Np.ncols mask = 0 -> Np.ncols y <> 0 ->
  Np.setitem_mask y mask v = Py.Ok y.
Proof.
  intros Hr H0 Hy. unfold Np.setitem_mask, Np.shape0_2. rewrite Hr, H0.
  destruct (Z.eqb_spec (Np.ncols y) 0); [contradiction|].
  rewrite andb_false_r, !Z.eqb_refl. cbn [negb andb orb]. now rewrite andb_false_r.
Qed.

(** [_compute_X_Y] works time step by time step. *)
Lemma compute_X_Y_rows (g : Np.array3 bool) :
  2 <= Np.dim1 g -> Np.dim2 g = 88 ->
  HanndsDataset._compute_X_Y g
  = Py.Ok (Np.Array2 88 (List.map X_row (Np.cells g)),
           Np.Array2 88 (List.map Y_row (Np.cells g))).
Proof.
  intros Hd1 Hd2. unfold HanndsDataset._compute_X_Y. unfold Np.bool_to_bool at 1.
  rewrite !astype3_id. unfold Np.take1.
  rewrite !index_in_range by lia. cbn [Py.bind].
  unfold Np.zeros2, Np.shape0_3.
  destruct (Z.ltb_spec (Z.of_nat (length (Np.cells g))) 0); [lia|].
  cbn [orb Z.ltb Z.compare Py.bind].
  rewrite setitem_mask_rows;
    [| cbn [Np.rows]; now rewrite repeat_length, length_map, Nat2Z.id
     | cbn [Np.ncols]; now rewrite Hd2 ].
  cbn [Py.bind].
  rewrite setitem_mask_rows;
    [| cbn [Np.rows];
       now rewrite length_zip_with, repeat_length, !length_map, Nat2Z.id, Nat.min_id
     | cbn [Np.ncols]; now rewrite Hd2 ].
  cbn [Py.bind]. unfold Np.logical_or, Np.astype2. cbn [Np.rows Np.ncols].
  rewrite Hd2, Nat2Z.id. do 3 f_equal.
  - rewrite zip_with_map_map, List.map_map. reflexivity.
  - rewrite <- (length_map (fun r : list (list bool) => nth (Z.to_nat 0) r [])) at 1.
    rewrite zip_with_repeat_l, List.map_map, zip_with_map_map, List.map_map.
    reflexivity.
Qed.

(** X7.  On an activity grid the results have shape [[T][88]], [X] holds
    only 0 and 1 and [Y] only the three classes: [Y[t][k]] is 0 exactly when
    neither hand is active, 1 exactly when the left hand alone is active and
    2 exactly when the right hand is active; [X[t][k]] is 0 exactly when
    neither hand is active. *)
Theorem X7_three_classes (g : Np.array3 bool) :
  activity_grid g ->
  exists X Y,
    HanndsDataset._compute_X_Y g = Py.Ok (X, Y)
    /\ Np.shape0_2 X = Np.shape0_3 g /\ Np.ncols X = 88
    /\ Np.shape0_2 Y = Np.shape0_3 g /\ Np.ncols Y = 88
    /\ forall t k, Z.of_nat t < Np.shape0_3 g -> (k < 88)%nat ->
         exists l r x y,
           Np.get3 g t 0 k = Some l /\ Np.get3 g t 1 k = Some r
           /\ Np.get2 X t k = Some x /\ Np.get2 Y t k = Some y
           /\ (x = 0 \/ x = 1) /\ (y = 0 \/ y = 1 \/ y = 2)
           /\ (x = 0 <-> l = false /\ r = false)
           /\ (y = 0 <-> l = false /\ r = false)
           /\ (y = 1 <-> l = true /\ r = false)
           /\ (y = 2 <-> r = true).
Proof.
  intros Hg.
  destruct (compute_X_Y_cells g Hg) as (X & Y & Hrun & HsX & HcX & HsY & HcY & Hcell).
  exists X, Y. split; [exact Hrun|]. do 4 (split; [assumption|]).
  intros t k Ht Hk.
  destruct (proj1 (activity_grid_cell g t 0 k Hg) Ht ltac:(lia) Hk) as [l Hl].
  destruct (proj1 (activity_grid_cell g t 1 k Hg) Ht ltac:(lia) Hk) as [r Hr].
  destruct (Hcell t k l r Hl Hr) as [HX HY].
  exists l, r. do 2 eexists. split; [exact Hl|]. split; [exact Hr|].
  split; [exact HX|]. split; [exact HY|].
  unfold Np.bool_to_float32, LEFT_HAND_LABEL, RIGHT_HAND_LABEL.
  destruct l, r; cbn; repeat split; intros; try lia; try discriminate;
    try (destruct H; discriminate); auto.
Qed.

Lemma X7_three_classes_witness :
  activity_grid example_grid /\
  exists X Y,
    HanndsDataset._compute_X_Y example_grid = Py.Ok (X, Y)
    /\ Np.shape0_2 X = 2 /\ Np.ncols X = 88.
Proof.
  split; [solve_activity_grid|].
  destruct (X7_three_classes example_grid ltac:(solve_activity_grid))
    as (X & Y & Hrun & HsX & HcX & _).
  exists X, Y. split; [exact Hrun|]. split; [exact HsX | exact HcX].
Defined.

Lemma compute_X_Y_bad_shape (g : Np.array3 bool) :
  Np.dim1 g < 2 \/ (Np.dim2 g <> 88 /\ Np.dim2 g <> 0) ->
  HanndsDataset._compute_X_Y g = Py.Raise Py.IndexError.
Proof.
  intros Hbad. unfold HanndsDataset._compute_X_Y. unfold Np.bool_to_bool at 1.
  rewrite !astype3_id. unfold Np.take1.
  destruct (Z_lt_ge_dec (Np.dim1 g) 2) as [Hd1|Hd1].
  - destruct (Z_lt_ge_dec (Np.dim1 g) 1) as [Hd0|Hd0].
    + unfold Py.index at 1.
      destruct (Z.ltb_spec 0 (Np.dim1 g)); [lia|].
      destruct (Z.leb_spec (- Np.dim1 g) 0); cbn; reflexivity.
    + rewrite (index_in_range _ 0) by lia. cbn [Py.bind]. unfold Py.index.
      destruct (Z.ltb_spec 1 (Np.dim1 g)); [lia|].
      destruct (Z.leb_spec (- Np.dim1 g) 1); cbn; reflexivity.
  - destruct Hbad as [Hbad|[Hbad Hnot0]]; [lia|].
    rewrite !index_in_range by lia. cbn [Py.bind].
    unfold Np.zeros2, Np.shape0_3.
    destruct (Z.ltb_spec (Z.of_nat (length (Np.cells g))) 0); [lia|].
    cbn [orb Z.ltb Z.compare Py.bind].
    rewrite setitem_mask_bad_cols; [reflexivity| |]; cbn [Np.ncols]; congruence.
Qed.

Lemma map_id_repeat (n m : nat) :
  List.map (List.map Np.float64_to_longlong) (repeat (repeat 0 m) n)
  = repeat (repeat 0 m) n.
Proof.
  assert (List.map Np.float64_to_longlong (repeat 0 m) = repeat 0 m) as Hrow
      by (induction m as [|m IH]; cbn; [reflexivity | now rewrite IH]).
  induction n as [|n IH]; cbn [repeat List.map]; [reflexivity|].
  now rewrite Hrow, IH.
Qed.

(** With no key on the third axis the masks are empty: [X] has no column
    and [Y] stays the zeros it was made of. *)
Lemma compute_X_Y_no_keys (g : Np.array3 bool) :
  2 <= Np.dim1 g -> Np.dim2 g = 0 ->
  HanndsDataset._compute_X_Y g
  = Py.Ok (Np.Array2 0 (List.map X_row (Np.cells g)),
           Np.Array2 88 (repeat (repeat 0 88) (length (Np.cells g)))).
Proof.
  intros Hd1 Hd2. unfold HanndsDataset._compute_X_Y. unfold Np.bool_to_bool at 1.
  rewrite !astype3_id. unfold Np.take1.
  rewrite !index_in_range by lia. cbn [Py.bind].
  unfold Np.zeros2, Np.shape0_3.
  destruct (Z.ltb_spec (Z.of_nat (length (Np.cells g))) 0); [lia|].
  cbn [orb Z.ltb Z.compare Py.bind].
  rewrite setitem_mask_no_cols;
    [ | cbn [Np.rows]; now rewrite repeat_length, length_map, Nat2Z.id
      | exact Hd2 | cbn [Np.ncols]; lia ].
  cbn [Py.bind].
  rewrite setitem_mask_no_cols;
    [ | cbn [Np.rows]; now rewrite repeat_length, length_map, Nat2Z.id
      | exact Hd2 | cbn [Np.ncols]; lia ].
  cbn [Py.bind]. unfold Np.logical_or, Np.astype2. cbn [Np.ncols Np.rows].
  rewrite Hd2, Nat2Z.id. f_equal. f_equal.
  - f_equal. rewrite zip_with_map_map, List.map_map. reflexivity.
  - f_equal. apply map_id_repeat.
Qed.

(** X8.  [_compute_X_Y] needs two hand planes and 88 keys: an array with
    fewer than two planes on its second axis, or one with a time step whose
    third axis is neither 88 nor 0 long, raises [IndexError].  With 88 keys
    the planes after the second are ignored and each time step of the result
    depends on that time step of the input only.  With no key at all the
    call returns too, because NumPy does not compare an empty axis of a
    mask: [X] has no column and [Y] is all zeros, 88 wide. *)
Theorem X8_shape_requirements (g : Np.array3 bool) :
  (Np.dim1 g < 2 \/ (Np.dim2 g <> 88 /\ Np.dim2 g <> 0 /\ Np.cells g <> []) ->
   HanndsDataset._compute_X_Y g = Py.Raise Py.IndexError)
  /\ (2 <= Np.dim1 g -> Np.dim2 g = 88 ->
      HanndsDataset._compute_X_Y g
      = Py.Ok (Np.Array2 88 (List.map X_row (Np.cells g)),
               Np.Array2 88 (List.map Y_row (Np.cells g))))
  /\ (2 <= Np.dim1 g -> Np.dim2 g = 0 ->
      HanndsDataset._compute_X_Y g
      = Py.Ok (Np.Array2 0 (List.map X_row (Np.cells g)),
               Np.Array2 88 (repeat (repeat 0 88) (length (Np.cells g))))).
Proof.
  split; [|split; [apply compute_X_Y_rows | apply compute_X_Y_no_keys]].
  intros [Hplanes|(H88 & H0 & _)]; apply compute_X_Y_bad_shape; [now left | now right].
Qed.

Lemma X8_shape_requirements_witness :
  HanndsDataset._compute_X_Y (Np.Array3 1 88 [[repeat true 88]])
  = Py.Raise Py.IndexError
  /\ HanndsDataset._compute_X_Y (Np.Array3 2 3 [[[true; false; true]; [false; false; true]]])
     = Py.Raise Py.IndexError
  /\ HanndsDataset._compute_X_Y (Np.Array3 2 0 [[[]; []]])
     = Py.Ok (Np.Array2 0 [[]], Np.Array2 88 [repeat 0 88])
  /\ exists X Y, HanndsDataset._compute_X_Y example_grid = Py.Ok (X, Y).
Proof.
  split; [|split; [|split]].
  - apply (proj1 (X8_shape_requirements (Np.Array3 1 88 [[repeat true 88]]))).
    left. cbn. lia.
  - apply (proj1 (X8_shape_requirements
                    (Np.Array3 2 3 [[[true; false; true]; [false; false; true]]]))).
    right. cbn. repeat split; [lia | lia | discriminate].
  - apply (proj2 (proj2 (X8_shape_requirements (Np.Array3 2 0 [[[]; []]]))));
      [cbn; lia | reflexivity].
  - do 2 eexists.
    apply (proj1 (proj2 (X8_shape_requirements example_grid))); [cbn; lia | reflexivity].
Defined.

Lemma concatenate2_same_cols {A} (c : Z) (parts : list (Np.array2 A)) :
  parts <> [] -> Forall (fun q => Np.ncols q = c) parts ->
  Np.concatenate2 parts = Py.Ok (Np.Array2 c (concat (List.map Np.rows parts))).
Proof.
  intros Hne Hall. destruct parts as [|p parts]; [contradiction|].
  unfold Np.concatenate2. rewrite (Forall_inv Hall).
  replace (forallb (fun q : Np.array2 A => Np.ncols q =? c) (p :: parts)) with true;
    [reflexivity|].
  symmetry. apply forallb_forall. intros q Hq. rewrite Forall_forall in Hall.
  rewrite (Hall q Hq). apply Z.eqb_refl.
Qed.

(** X9.  [_compute_X_Y] commutes with concatenation in time, which is how
    [_dataset_for_files] joins the files of a split: for a non-empty list
    of activity grids, [np.concatenate] succeeds and the [X] and [Y] of the
    concatenated grid are the concatenations of the [X]s and of the [Y]s of
    the separate grids, in the same order. *)
Theorem X9_compute_commutes_with_concatenate (gs : list (Np.array3 bool)) :
  gs <> [] -> Forall activity_grid gs ->
  exists g X Y parts,
    Npx.concatenate3 gs = Py.Ok g
    /\ activity_grid g
    /\ Np.cells g = concat (List.map Np.cells gs)
    /\ HanndsDataset._compute_X_Y g = Py.Ok (X, Y)
    /\ Forall2 (fun gi p => HanndsDataset._compute_X_Y gi = Py.Ok p) gs parts
    /\ Np.concatenate2 (List.map fst parts) = Py.Ok X
    /\ Np.concatenate2 (List.map snd parts) = Py.Ok Y.
Proof.
  intros Hne Hall.
  set (part := fun gi : Np.array3 bool =>
                 (Np.Array2 88 (List.map X_row (Np.cells gi)),
                  Np.Array2 88 (List.map Y_row (Np.cells gi)))).
  exists (Np.Array3 2 88 (concat (List.map Np.cells gs))).
  exists (Np.Array2 88 (List.map X_row (concat (List.map Np.cells gs)))).
  exists (Np.Array2 88 (List.map Y_row (concat (List.map Np.cells gs)))).
  exists (List.map part gs).
  destruct gs as [|g0 gs']; [contradiction|].
  assert (forall l, Forall activity_grid l ->
            forallb (fun q : Np.array3 bool =>
                       (Np.dim1 q =? Np.dim1 g0) && (Np.dim2 q =? Np.dim2 g0)) l = true)
    as Hdims.
  { pose proof (Forall_inv Hall) as (_ & Hd1 & Hd2).
    induction 1 as [|q l (_ & Hq1 & Hq2) _ IH]; [reflexivity|].
    cbn [forallb]. now rewrite IH, Hq1, Hq2, Hd1, Hd2. }
  split.
  { unfold Npx.concatenate3. rewrite (Hdims _ Hall).
    pose proof (Forall_inv Hall) as (_ & -> & ->). reflexivity. }
  split.
  { unfold activity_grid, Np.shaped3. cbn [Np.dim1 Np.dim2 Np.cells].
    repeat split; try lia. apply Forall_forall. intros r Hr.
    apply in_concat in Hr. destruct Hr as (c & Hc & Hr).
    apply in_map_iff in Hc. destruct Hc as (q & <- & Hq).
    rewrite Forall_forall in Hall. destruct (Hall q Hq) as ((_ & _ & Hsh) & Hq1 & Hq2).
    rewrite Forall_forall in Hsh. rewrite <- Hq1, <- Hq2. now apply Hsh. }
  split; [reflexivity|].
  split; [apply compute_X_Y_rows; cbn; lia|].
  split.
  { clear Hdims Hne. induction Hall as [|q l (_ & Hq1 & Hq2) _ IH]; constructor.
    - apply compute_X_Y_rows; lia.
    - exact IH. }
  split.
  - rewrite (concatenate2_same_cols 88).
    + f_equal. f_equal. rewrite concat_map, !List.map_map. reflexivity.
    + discriminate.
    + rewrite List.map_map. apply Forall_forall. intros q Hq.
      apply in_map_iff in Hq. now destruct Hq as (gi & <- & _).
  - rewrite (concatenate2_same_cols 88).
    + f_equal. f_equal. rewrite concat_map, !List.map_map. reflexivity.
    + discriminate.
    + rewrite List.map_map. apply Forall_forall. intros q Hq.
      apply in_map_iff in Hq. now destruct Hq as (gi & <- & _).
Qed.

Lemma X9_compute_commutes_with_concatenate_witness :
  [example_grid; example_grid] <> [] /\ Forall activity_grid [example_grid; example_grid]
  /\ exists g X Y,
       Npx.concatenate3 [example_grid; example_grid] = Py.Ok g
       /\ HanndsDataset._compute_X_Y g = Py.Ok (X, Y)
       /\ Np.shape0_3 g = 4.
Proof.
  assert (Forall activity_grid [example_grid; example_grid]) as Hall
      by (repeat constructor; solve_activity_grid).
  split; [discriminate|]. split; [exact Hall|].
  destruct (X9_compute_commutes_with_concatenate [example_grid; example_grid]
              ltac:(discriminate) Hall)
    as (g & X & Y & parts & Hcat & _ & Hcells & Hrun & _).
  exists g, X, Y. split; [exact Hcat|]. split; [exact Hrun|].
  unfold Np.shape0_3. rewrite Hcells. reflexivity.
Defined.

(** ** AllData.initialize_from_dir: every number of files *)

Section SplitEveryCount.

Context {File : Type}.

Variable shuffle : list File -> list File.
Hypothesis shuffle_permutes : forall l, Permutation (shuffle l) l.

Lemma split_every_count (all_files : list File) :
  let N := Z.of_nat (length all_files) in
  exists train_files valid_files test_files,
    AllData.initialize_from_dir (F := Qfloat) shuffle all_files
    = Py.Ok (train_files, valid_files, test_files)
    /\ train_files ++ valid_files ++ test_files = shuffle all_files
    /\ (N <= 2 -> train_files = [])
    /\ (3 <= N -> train_files <> [])
    /\ (N = 1 -> valid_files = [] /\ test_files = shuffle all_files).
Proof.
  intros N.
  assert (length (shuffle all_files) = length all_files) as Hlen
      by (apply Permutation_length, shuffle_permutes).
  destruct (Z_lt_ge_dec N 2) as [Hsmall|Hbig].
  - (* no file or one file *)
    unfold AllData.initialize_from_dir.
    destruct (shuffle all_files) as [|x [|y l]] eqn:Hl.
    + do 3 eexists. split; [vm_compute; reflexivity|].
      split; [reflexivity|]. split; [reflexivity|]. split; [lia|]. intros HN.
      exfalso. unfold N in HN. rewrite <- Hlen in HN. cbn in HN. lia.
    + do 3 eexists. split; [vm_compute; reflexivity|].
      split; [reflexivity|]. split; [reflexivity|]. split; [lia|]. now split.
    + exfalso. unfold N in Hsmall. rewrite <- Hlen in Hsmall. cbn [length] in Hsmall. lia.
  - (* at least two files *)
    pose proof (n_valid_test_bounds N) as Hb. cbv zeta in Hb.
    set (nvt := @fceil Qfloat (@fmul Qfloat (@fliteral Qfloat (15 # 100)) N)) in Hb.
    unfold AllData.initialize_from_dir. rewrite Hlen. fold N. fold nvt.
    cbn [fst snd]. set (l := shuffle all_files) in *.
    replace (N - nvt * 2 + nvt + nvt =? N) with true by (symmetry; apply Z.eqb_eq; lia).
    cbn [Py.assert Py.bind].
    destruct (slice_in_range l 0 (N - nvt * 2)) as [Htr Hltr];
      [lia | rewrite Hlen; fold N; lia |].
    destruct (slice_in_range l (N - nvt * 2) (N - nvt * 2 + nvt)) as [Hva Hlva];
      [lia | rewrite Hlen; fold N; lia |].
    destruct (slice_in_range l (N - nvt * 2 + nvt) (N - nvt * 2 + nvt + nvt)) as [Hte Hlte];
      [lia | rewrite Hlen; fold N; lia |].
    do 3 eexists. split; [reflexivity|]. split; [|split; [|split]].
    + rewrite Htr, Hva, Hte. cbn [Z.to_nat drop].
      replace (N - nvt * 2 - 0) with (N - nvt * 2) by lia.
      replace (N - nvt * 2 + nvt - (N - nvt * 2)) with nvt by lia.
      replace (N - nvt * 2 + nvt + nvt - (N - nvt * 2 + nvt)) with nvt by lia.
      replace (Z.to_nat (N - nvt * 2 + nvt))
        with (Z.to_nat (N - nvt * 2) + Z.to_nat nvt)%nat by lia.
      rewrite <- drop_drop.
      rewrite (take_ge (drop (Z.to_nat nvt) _)) by (rewrite !length_drop; lia).
      now rewrite !take_drop.
    + intros HN. apply length_zero_iff_nil. lia.
    + intros HN Hnil. apply (f_equal (@length File)) in Hnil.
      cbn [length] in Hnil. lia.
    + lia.
Qed.

(** X10.  The split loses and repeats no file whatever their number: its
    assertion never fails and training, validation and test list put end to
    end are the shuffled list.  The training list is empty when there are
    fewer than three files and not empty from three files on; a single
    file goes to the test list alone. *)
Theorem X10_split_every_count (all_files : list File) :
  let N := Z.of_nat (length all_files) in
  exists train_files valid_files test_files,
    AllData.initialize_from_dir (F := Qfloat) shuffle all_files
    = Py.Ok (train_files, valid_files, test_files)
    /\ train_files ++ valid_files ++ test_files = shuffle all_files
    /\ (N <= 2 -> train_files = [])
    /\ (3 <= N -> train_files <> [])
    /\ (N = 1 -> valid_files = [] /\ test_files = shuffle all_files).
Proof. exact (split_every_count all_files). Qed.

End SplitEveryCount.

Lemma X10_split_every_count_witness :
  (forall l : list Z, Permutation (rev l) l)
  /\ exists train_files valid_files test_files,
       AllData.initialize_from_dir (F := Qfloat) (@rev Z) [1; 2]
       = Py.Ok (train_files, valid_files, test_files)
       /\ train_files ++ valid_files ++ test_files = [2; 1]
       /\ train_files = [].
Proof.
  split; [intros l; apply Permutation_sym, Permutation_rev|].
  destruct (X10_split_every_count (@rev Z)
              (fun l => Permutation_sym (Permutation_rev l)) [1; 2])
    as (tr & va & te & Hrun & Hcat & Hsmall & _).
  exists tr, va, te. split; [exact Hrun|]. split; [exact Hcat|].
  apply Hsmall. vm_compute. discriminate.
Defined.

(** ** AllData._convert: instruments, window lengths and what reaches the
    dataset *)

Section QuantizerMore.

Context {F : FloatOps}.

(** X11.  [_convert] reads of a file its end time and its first two
    instruments, and nothing else.  With [ms_window = 0] it raises
    [ZeroDivisionError] before it looks at them; otherwise a file with fewer
    than two instruments raises [IndexError]; and two files with the same
    end time and the same first two instruments give the same result, grid
    or exception, whatever further instruments they have. *)
Theorem X11_two_instruments (ms_window : Z) (midi : AllData.PrettyMIDI) :
  (ms_window = 0 ->
   AllData._convert ms_window midi = Py.Raise Py.ZeroDivisionError)
  /\ (ms_window <> 0 -> (length (AllData.instruments midi) < 2)%nat ->
      AllData._convert ms_window midi = Py.Raise Py.IndexError)
  /\ (forall midi',
        AllData.get_end_time midi' = AllData.get_end_time midi ->
        take 2 (AllData.instruments midi') = take 2 (AllData.instruments midi) ->
        AllData._convert ms_window midi' = AllData._convert ms_window midi).
Proof.
  split; [|split].
  - intros ->. reflexivity.
  - intros Hms Hlen. unfold AllData._convert, Py.floordiv.
    destruct (Z.eqb_spec ms_window 0); [contradiction|]. cbn [Py.bind].
    destruct (AllData.instruments midi) as [|x [|y l]]; [reflexivity|reflexivity|].
    cbn [length] in Hlen. lia.
  - intros midi' Hend Hfirst. unfold AllData._convert. rewrite Hend.
    assert (forall l : list (list AllData.Note),
               Py.getitem l 0 = Py.getitem (take 2 l) 0
               /\ Py.getitem l 1 = Py.getitem (take 2 l) 1) as Htake.
    { intros [|x [|y l]]; [now split | now split |].
      cbn [take firstn]. split; [reflexivity|].
      unfold Py.getitem. rewrite !index_in_range by (cbn [length]; lia). reflexivity. }
    destruct (Htake (AllData.instruments midi')) as [-> ->].
    destruct (Htake (AllData.instruments midi)) as [-> ->].
    now rewrite Hfirst.
Qed.

(** X13.  From notes to labels.  For [ms_window > 0], a duration that is
    not negative and well-formed notes, the grid of [_convert] is accepted by
    [_compute_X_Y], and at every time step and key [X] is 1 exactly when a
    note of either hand covers it, [Y] is 2 exactly when a right-hand note
    covers it and 1 exactly when a left-hand note covers it and no
    right-hand note does. *)
Theorem X13_notes_to_labels (ms_window : Z) (duration : float)
        (left right : list AllData.Note) :
  0 < ms_window -> fle fzero duration ->
  Forall well_formed left -> Forall well_formed right ->
  let rate := 1000 / ms_window in
  let T := fceil (fmul duration rate) in
  exists hands X Y,
    AllData._convert ms_window (AllData.mkMIDI duration [left; right]) = Py.Ok hands
    /\ HanndsDataset._compute_X_Y hands = Py.Ok (X, Y)
    /\ Np.shape0_2 X = T /\ Np.shape0_2 Y = T
    /\ forall t k, Z.of_nat t < T -> (k < 88)%nat ->
         exists x y,
           Np.get2 X t k = Some x /\ Np.get2 Y t k = Some y
           /\ (x = 1 <-> exists note, In note (left ++ right) /\ covers rate t k note)
           /\ (y = 2 <-> exists note, In note right /\ covers rate t k note)
           /\ (y = 1 <-> (exists note, In note left /\ covers rate t k note)
                         /\ ~ exists note, In note right /\ covers rate t k note).
Proof.
  intros Hms Hdur Hleft Hright rate T.
  assert (0 <= rate) as Hrate by (apply Z.div_pos; lia).
  assert (0 <= T) as HT by now apply fceil_mul_nonneg.
  assert (forall notes, Forall well_formed notes -> Forall key_index_accepted notes)
    as Hacc.
  { intros notes. apply Forall_impl. intros note (Hp & _). unfold key_index_accepted. lia. }
  destruct (convert_run ms_window (AllData.mkMIDI duration [left; right])
              left right [] ltac:(lia) HT eq_refl (Hacc _ Hleft) (Hacc _ Hright))
    as (hands & Hrun & Hgrid & Hshape & Hget).
  cbn [AllData.get_end_time] in Hget. fold rate in Hget. fold T in Hget.
  destruct (compute_X_Y_cells hands Hgrid)
    as (X & Y & Hxy & HsX & _ & HsY & _ & Hcell).
  exists hands, X, Y. split; [exact Hrun|]. split; [exact Hxy|].
  split; [rewrite HsX; exact Hshape|]. split; [rewrite HsY; exact Hshape|].
  intros t k Ht Hk.
  destruct (Hcell t k _ _ (Hget t 0%nat k Ht ltac:(lia) Hk)
                          (Hget t 1%nat k Ht ltac:(lia) Hk)) as [HX HY].
  cbn [nth] in HX, HY.
  assert (forall notes, Forall well_formed notes ->
            existsb (note_marks rate T t k) notes = true
            <-> exists note, In note notes /\ covers rate t k note) as Hmarks.
  { intros notes Hwf. rewrite existsb_exists. rewrite Forall_forall in Hwf.
    split; intros (note & Hin & Hm); exists note; (split; [exact Hin|]).
    - apply (well_formed_marks rate T t k note); auto.
    - apply (well_formed_marks rate T t k note); auto. }
  pose proof (Hmarks left Hleft) as HL. pose proof (Hmarks right Hright) as HR.
  do 2 eexists. split; [exact HX|]. split; [exact HY|].
  unfold Np.bool_to_float32, LEFT_HAND_LABEL, RIGHT_HAND_LABEL.
  destruct (existsb (note_marks rate T t k) left) eqn:El;
    destruct (existsb (note_marks rate T t k) right) eqn:Er; cbn [orb].
  - destruct (proj1 HL eq_refl) as (nl & Hinl & Hcl).
    destruct (proj1 HR eq_refl) as (nr & Hinr & Hcr).
    split; [split; [intros _; exists nl; split; [apply in_or_app; now left | exact Hcl] | reflexivity]|].
    split; [split; [intros _; eauto | reflexivity]|].
    split; [lia|]. intros [_ Hno]. exfalso. apply Hno. eauto.
  - destruct (proj1 HL eq_refl) as (nl & Hinl & Hcl).
    assert (~ exists note, In note right /\ covers rate t k note) as Hno
        by (intros H; apply HR in H; discriminate).
    split; [split; [intros _; exists nl; split; [apply in_or_app; now left | exact Hcl] | reflexivity]|].
    split; [split; [lia | intros H; contradiction]|].
    split; [intros _; split; [eauto | exact Hno] | reflexivity].
  - destruct (proj1 HR eq_refl) as (nr & Hinr & Hcr).
    split; [split; [intros _; exists nr; split; [apply in_or_app; now right | exact Hcr] | reflexivity]|].
    split; [split; [intros _; eauto | reflexivity]|].
    split; [lia|]. intros [_ Hno]. exfalso. apply Hno. eauto.
  - assert (~ exists note, In note left /\ covers rate t k note) as HnoL
        by (intros H; apply HL in H; discriminate).
    assert (~ exists note, In note right /\ covers rate t k note) as HnoR
        by (intros H; apply HR in H; discriminate).
    split.
    { split; [lia|]. intros (note & Hin & Hc). exfalso.
      apply in_app_or in Hin. destruct Hin; [apply HnoL | apply HnoR]; eauto. }
    split; [split; [lia | intros H; contradiction]|].
    split; [lia|]. intros [H _]. contradiction.
Qed.

End QuantizerMore.

Lemma X11_two_instruments_witness :
  20 <> 0
  /\ AllData._convert 20 (AllData.mkMIDI (F := Qfloat) 1%Q [[low_note]])
     = Py.Raise Py.IndexError
  /\ AllData._convert 20
       (AllData.mkMIDI (F := Qfloat) (1 # 10)%Q [[low_note]; [early_note]; [high_note]])
     = AllData._convert 20 malformed_midi.
Proof.
  split; [lia|]. split.
  - apply (proj1 (proj2 (X11_two_instruments (F := Qfloat) 20
                           (AllData.mkMIDI (F := Qfloat) 1%Q [[low_note]]))));
      [lia | cbn; lia].
  - apply (proj2 (proj2 (X11_two_instruments (F := Qfloat) 20 malformed_midi)));
      reflexivity.
Defined.

Lemma X13_notes_to_labels_witness :
  0 < 20 /\
  exists hands X Y,
    AllData._convert 20 example_midi = Py.Ok hands
    /\ HanndsDataset._compute_X_Y hands = Py.Ok (X, Y)
    /\ Np.shape0_2 X = 5.
Proof.
  split; [lia|].
  destruct (X13_notes_to_labels (F := Qfloat) 20 (1 # 10)%Q
              [AllData.mkNote (F := Qfloat) 60 0%Q (5 # 100)%Q]
              [AllData.mkNote (F := Qfloat) 72 (2 # 100)%Q (1 # 10)%Q]
              ltac:(lia) ltac:(unfold fle, Qfloat, Qle; cbn; lia)
              ltac:(solve_well_formed) ltac:(solve_well_formed))
    as (hands & X & Y & Hrun & Hxy & HsX & _).
  exists hands, X, Y. split; [exact Hrun|]. split; [exact Hxy | exact HsX].
Defined.

(** ** AllData._convert in exact arithmetic *)

Lemma Qceiling_mul_zero (d : Q) : Qceiling (d * inject_Z 0) = 0.
Proof.
  destruct d as [n den]. unfold Qceiling, Qfloor. cbn. now rewrite Z.mul_0_r.
Qed.

(** X12.  A window longer than a second gives no time step at all:
    for [ms_window > 1000] the rate [1000 // ms_window] is 0 and, in exact
    arithmetic, the grid is empty whatever the duration and the notes, as
    long as their key indices are accepted. *)
Theorem X12_window_longer_than_a_second (ms_window : Z)
        (duration : Q) (left right : list (AllData.Note (F := Qfloat))) :
  1000 < ms_window ->
  Forall key_index_accepted left -> Forall key_index_accepted right ->
  exists hands,
    AllData._convert ms_window (AllData.mkMIDI (F := Qfloat) duration [left; right])
    = Py.Ok hands
    /\ Np.cells hands = [].
Proof.
  intros Hms Hleft Hright.
  assert (1000 / ms_window = 0) as Hrate by (apply Z.div_small; lia).
  destruct (convert_run (F := Qfloat) ms_window
              (AllData.mkMIDI (F := Qfloat) duration [left; right])
              left right [] ltac:(lia)) as (hands & Hrun & _ & Hshape & _);
    [| reflexivity | exact Hleft | exact Hright |].
  - cbn. rewrite Hrate, Qceiling_mul_zero. lia.
  - exists hands. split; [exact Hrun|].
    cbn in Hshape. rewrite Hrate, Qceiling_mul_zero in Hshape.
    unfold Np.shape0_3 in Hshape. apply length_zero_iff_nil. lia.
Qed.

Lemma X12_window_longer_than_a_second_witness :
  1000 < 2000
  /\ exists hands,
       AllData._convert 2000 example_midi = Py.Ok hands /\ Np.cells hands = [].
Proof.
  split; [lia|].
  apply (X12_window_longer_than_a_second 2000 (1 # 10)%Q
           [AllData.mkNote (F := Qfloat) 60 0%Q (5 # 100)%Q]
           [AllData.mkNote (F := Qfloat) 72 (2 # 100)%Q (1 # 10)%Q]);
    [lia | |]; repeat constructor; cbn; lia.
Defined.

(** ** AllData._convert: the step at which a note starts *)

Lemma Qfloor_lt_ceiling (x y : Q) :
  (x <= y)%Q -> ~ (y <= x)%Q -> Qfloor x < Qceiling y.
Proof.
  intros _ Hlt. apply Qnot_le_lt in Hlt. rewrite Zlt_Qlt.
  apply Qle_lt_trans with x; [apply Qfloor_le|].
  apply Qlt_le_trans with y; [exact Hlt | apply Qle_ceiling].
Qed.

Lemma Qmul_monotone (x y : Q) (n : Z) :
  0 <= n -> (x <= y)%Q -> (x * inject_Z n <= y * inject_Z n)%Q.
Proof.
  intros Hn Hxy. apply Qmult_le_compat_r; [exact Hxy|]. unfold Qle. cbn. lia.
Qed.

Section NoteStart.

Context {F : FloatOps}.

(** What the property needs of the arithmetic: [floor] and [ceil] enclose
    their argument, and rounding a product keeps the order.  Python floats
    have this on finite values, and so have exact rationals. *)
Hypothesis ffloor_lt_fceil : forall x y, fle x y -> ~ fle y x -> ffloor x < fceil y.
Hypothesis fceil_monotone : forall x y, fle x y -> fceil x <= fceil y.
Hypothesis fmul_monotone :
  forall x y n, 0 <= n -> fle x y -> fle (fmul x n) (fmul y n).

(** X14.  Where a note starts.  For [ms_window > 0], well-formed notes and
    a note that ends by the end of the music: the key of the note is marked
    at the time step [floor(start * rate)] whenever that step is before
    [ceil(end * rate)], and it is before it whenever the two products, as
    computed, differ.  When [ceil(end * rate) <= floor(start * rate)], as
    for a note of no length, or for a short note whose two products round to
    one whole number, the note marks no cell: alone in its hand it leaves
    the plane of that hand all false. *)
Theorem X14_note_is_marked_at_its_start (ms_window : Z) (duration : float)
        (left right : list AllData.Note) (h : nat) (note : AllData.Note) :
  0 < ms_window ->
  Forall well_formed left -> Forall well_formed right ->
  (h < 2)%nat -> In note (nth h [left; right] []) ->
  fle (AllData.end_ note) duration ->
  let rate := 1000 / ms_window in
  let first := ffloor (fmul (AllData.start note) rate) in
  let stop := fceil (fmul (AllData.end_ note) rate) in
  let T := fceil (fmul duration rate) in
  exists hands,
    AllData._convert ms_window (AllData.mkMIDI duration [left; right]) = Py.Ok hands
    /\ (~ fle (fmul (AllData.end_ note) rate) (fmul (AllData.start note) rate) ->
        first < stop)
    /\ (first < stop ->
        Np.get3 hands (Z.to_nat first) h (Z.to_nat (AllData.pitch note - 21))
        = Some true)
    /\ (stop <= first -> nth h [left; right] [] = [note] ->
        forall t k, Z.of_nat t < T -> (k < 88)%nat ->
                    Np.get3 hands t h k = Some false).
Proof.
  intros Hms Hleft Hright Hh Hin Hend rate first stop T.
  assert (0 <= rate) as Hrate by (apply Z.div_pos; lia).
  assert (Forall well_formed (nth h [left; right] [])) as Hwfh.
  { destruct h as [|[|h]]; [assumption|assumption|lia]. }
  pose proof (proj1 (Forall_forall _ _) Hwfh note Hin) as Hwf.
  pose proof Hwf as (Hp & Hs & He).
  assert (fle fzero duration) as Hdur.
  { apply fle_trans with (AllData.end_ note); [|exact Hend].
    now apply fle_trans with (AllData.start note). }
  assert (0 <= T) as HT by now apply fceil_mul_nonneg.
  assert (0 <= first) as Hfirst by now apply ffloor_mul_nonneg.
  assert (stop <= T) as Hstop by (apply fceil_monotone; now apply fmul_monotone).
  assert (forall notes, Forall well_formed notes -> Forall key_index_accepted notes)
    as Hacc.
  { intros notes. apply Forall_impl. intros n (Hn & _). unfold key_index_accepted. lia. }
  destruct (convert_run ms_window (AllData.mkMIDI duration [left; right])
              left right [] ltac:(lia) HT eq_refl (Hacc _ Hleft) (Hacc _ Hright))
    as (hands & Hrun & _ & _ & Hget).
  cbn [AllData.get_end_time] in Hget. fold rate in Hget. fold T in Hget.
  exists hands. split; [exact Hrun|]. split; [|split].
  - intros Hdiff. apply ffloor_lt_fceil; [|exact Hdiff]. now apply fmul_monotone.
  - intros Hmark. rewrite Hget by lia. f_equal. apply existsb_exists.
    exists note. split; [exact Hin|].
    apply (well_formed_marks rate T); [exact Hwf | exact Hrate | lia |].
    split; [lia|]. fold first. fold stop. lia.
  - intros Hnone Honly t k Ht Hk. rewrite Hget by assumption. f_equal.
    rewrite Honly. cbn [existsb]. rewrite orb_false_r.
    destruct (note_marks rate T t k note) eqn:Hm; [|reflexivity].
    apply (well_formed_marks rate T) in Hm; [|exact Hwf | exact Hrate | exact Ht].
    destruct Hm as [_ Hm]. fold first in Hm. fold stop in Hm. lia.
Qed.

End NoteStart.

Lemma X14_note_is_marked_at_its_start_witness :
  0 < 20
  /\ (exists hands,
        AllData._convert 20 example_midi = Py.Ok hands
        /\ Np.get3 hands 1 1 51 = Some true)
  /\ (exists hands,
        AllData._convert 20
          (AllData.mkMIDI (F := Qfloat) (1 # 10)%Q
             [[AllData.mkNote (F := Qfloat) 60 (2 # 100)%Q (2 # 100)%Q]; []])
        = Py.Ok hands
        /\ Np.get3 hands 1 0 39 = Some false).
Proof.
  split; [lia|]. split.
  - destruct (X14_note_is_marked_at_its_start (F := Qfloat)
                Qfloor_lt_ceiling Qceiling_resp_le Qmul_monotone 20 (1 # 10)%Q
                [AllData.mkNote (F := Qfloat) 60 0%Q (5 # 100)%Q]
                [AllData.mkNote (F := Qfloat) 72 (2 # 100)%Q (1 # 10)%Q]
                1 (AllData.mkNote (F := Qfloat) 72 (2 # 100)%Q (1 # 10)%Q)
                ltac:(lia) ltac:(solve_well_formed) ltac:(solve_well_formed)
                ltac:(lia) ltac:(now left) ltac:(unfold fle, Qfloat, Qle; cbn; lia))
      as (hands & Hrun & Hdiffer & Hmarked & _).
    exists hands. split; [exact Hrun|]. apply Hmarked. apply Hdiffer.
    intros Hle. vm_compute in Hle. now apply Hle.
  - destruct (X14_note_is_marked_at_its_start (F := Qfloat)
                Qfloor_lt_ceiling Qceiling_resp_le Qmul_monotone 20 (1 # 10)%Q
                [AllData.mkNote (F := Qfloat) 60 (2 # 100)%Q (2 # 100)%Q] []
                0 (AllData.mkNote (F := Qfloat) 60 (2 # 100)%Q (2 # 100)%Q)
                ltac:(lia) ltac:(solve_well_formed) ltac:(solve_well_formed)
                ltac:(lia) ltac:(now left) ltac:(unfold fle, Qfloat, Qle; cbn; lia))
      as (hands & Hrun & _ & _ & Hlost).
    exists hands. split; [exact Hrun|].
    apply Hlost; [vm_compute; discriminate | reflexivity
                 | vm_compute; reflexivity | lia].
Defined.

(** ** The files of AllData *)

#[local] Instance str_le_total : Total Os.str_le.
Proof. intros a b. apply String.leb_total. Qed.

Section DiskProperties.

Context {F : FloatOps} {File : Type}.

Variable parse_midi : File -> Os.result AllData.PrettyMIDI.
Variable npy_encode : Np.array3 bool -> File.
Variable npy_decode : File -> Os.result (Np.array3 bool).
Variable glob : gmap string File -> string -> list string.
Variable join : string -> string -> string.

(** X15.  [_get_files_from_path] never returns an empty list.  When it
    returns, the list is sorted and holds the path itself, if it is a file,
    or else exactly the matches of the patterns; it raises only
    [FileNotFoundError], and only when the path is not a file and no
    pattern matches. *)
Theorem X15_files_found_or_error (disk : gmap string File) (path : string)
        (extensions : list string) :
  let matches := flat_map (fun file_type => glob disk (join path file_type))
                          extensions in
  (forall files,
     Disk._get_files_from_path glob join disk path extensions = Os.Ok files ->
     files <> [] /\ Sorted Os.str_le files
     /\ Permutation files (if Disk.isfile disk path then [path] else matches))
  /\ (forall e,
        Disk._get_files_from_path glob join disk path extensions = Os.Raise e ->
        e = Os.FileNotFoundError /\ Disk.isfile disk path = false /\ matches = []).
Proof.
  intros matches. unfold Disk._get_files_from_path. fold matches.
  assert (forall l : list string, l <> [] -> Os.sorted l <> []) as Hne.
  { intros l Hl Hs. apply Hl. apply Permutation_nil.
    rewrite <- Hs. apply merge_sort_Permutation. }
  destruct (Disk.isfile disk path).
  - split; [|discriminate]. intros files [= <-]. split; [now apply Hne|].
    split; [apply Sorted_merge_sort; apply _ | apply merge_sort_Permutation].
  - destruct (Z.eqb_spec (Z.of_nat (length matches)) 0) as [H0|H0].
    + split; [discriminate|]. intros e [= <-]. repeat split.
      apply length_zero_iff_nil. lia.
    + split; [|discriminate]. intros files [= <-]. split.
      * apply Hne. intros Hnil. rewrite Hnil in H0. now apply H0.
      * split; [apply Sorted_merge_sort; apply _ | apply merge_sort_Permutation].
Qed.

(** *** [_convert] and the artifacts *)

Lemma convert_file_keeps (sps ms_window : Z) (overwrite : bool) (f : string)
      (disk : gmap string File) (p : string) :
  (overwrite = false /\ is_Some (disk !! p)) \/ p <> Disk.npy_name f ms_window ->
  snd (Disk.convert_file parse_midi npy_encode sps ms_window overwrite f disk) !! p
  = disk !! p.
Proof.
  intros Hp. unfold Disk.convert_file.
  destruct (overwrite || negb (Disk.exists_ disk (Disk.npy_name f ms_window))) eqn:Hw;
    [|reflexivity].
  destruct (Disk.PrettyMIDI parse_midi disk f) as [midi|e]; [|reflexivity].
  destruct (Disk.quantize sps midi) as [hands|e]; [|reflexivity].
  cbn [snd]. unfold Disk.np_save. apply lookup_insert_ne.
  destruct Hp as [[-> Hsome]|Hne]; [|congruence].
  cbn [orb] in Hw. apply negb_true_iff in Hw. unfold Disk.exists_ in Hw.
  apply bool_decide_eq_false in Hw. intros <-. contradiction.
Qed.

Lemma for_files_keeps (sps ms_window : Z) (overwrite : bool) (files : list string)
      (p : string) :
  forall disk,
    (overwrite = false /\ is_Some (disk !! p))
    \/ (forall f, In f files -> p <> Disk.npy_name f ms_window) ->
    snd (Disk.for_files files
           (Disk.convert_file parse_midi npy_encode sps ms_window overwrite) disk) !! p
    = disk !! p.
Proof.
  induction files as [|f files IH]; intros disk Hp; [reflexivity|].
  cbn [Disk.for_files].
  assert (snd (Disk.convert_file parse_midi npy_encode sps ms_window overwrite f disk) !! p
          = disk !! p) as Hstep.
  { apply convert_file_keeps. destruct Hp as [Hp|Hp]; [now left|].
    right. apply Hp. now left. }
  destruct (Disk.convert_file parse_midi npy_encode sps ms_window overwrite f disk)
    as [[[]|e] disk'] eqn:Hrun; cbn [snd] in Hstep |- *; [|exact Hstep].
  rewrite IH; [exact Hstep|].
  destruct Hp as [[Hov Hsome]|Hp].
  - left. split; [exact Hov|]. now rewrite Hstep.
  - right. intros f' Hf'. apply Hp. now right.
Qed.

(** X16.  Without [overwrite], [_convert] never changes a file that
    exists, whether it returns or raises; the same holds for constructing an
    [AllData], which calls it that way. *)
Theorem X16_existing_files_are_kept (path : string) (ms_window : Z)
        (debug : bool) (disk : gmap string File) (p : string) (f : File) :
  disk !! p = Some f ->
  snd (Disk._convert parse_midi npy_encode glob join path ms_window false disk) !! p
  = Some f
  /\ snd (Disk.__init__ parse_midi npy_encode glob join debug disk) !! p = Some f.
Proof.
  intros Hp.
  assert (forall path ms,
             snd (Disk._convert parse_midi npy_encode glob join path ms false disk) !! p
             = Some f) as Hconv.
  { intros path' ms. unfold Disk._convert.
    destruct (Disk._get_files_from_path glob join disk path' _) as [files|e];
      [|exact Hp].
    destruct (Py.floordiv 1000 ms) as [sps|e]; [|exact Hp].
    rewrite for_files_keeps; [exact Hp|]. left. split; [reflexivity|]. now exists f. }
  split; [apply Hconv|]. unfold Disk.__init__.
  specialize (Hconv "data/"%string 20).
  destruct (Disk._convert parse_midi npy_encode glob join "data/" 20 false disk)
    as [[[]|e] disk']; exact Hconv.
Qed.

(** X17.  [_convert] writes nothing but artifacts: a path that is not
    [midi_file + '_' + str(ms_window) + 'ms.npy'] for one of the MIDI files
    found holds after the call what it held before, with and without
    [overwrite], whether the call returns or raises. *)
Theorem X17_only_artifacts_are_written (path : string) (ms_window : Z)
        (overwrite : bool) (disk : gmap string File) (p : string) :
  (forall files f,
     Disk._get_files_from_path glob join disk path ["*.mid"%string; "*.midi"%string]
     = Os.Ok files ->
     In f files -> p <> Disk.npy_name f ms_window) ->
  snd (Disk._convert parse_midi npy_encode glob join path ms_window overwrite disk) !! p
  = disk !! p.
Proof.
  intros Hp. unfold Disk._convert.
  destruct (Disk._get_files_from_path glob join disk path _) as [files|e];
    [|reflexivity].
  destruct (Py.floordiv 1000 ms_window) as [sps|e]; [|reflexivity].
  apply for_files_keeps. right. intros f Hf. now apply (Hp files).
Qed.

Lemma convert_file_mono (sps ms_window : Z) (overwrite : bool) (f : string)
      (disk : gmap string File) (p : string) :
  is_Some (disk !! p) ->
  is_Some (snd (Disk.convert_file parse_midi npy_encode sps ms_window overwrite f disk)
           !! p).
Proof.
  intros Hp. unfold Disk.convert_file.
  destruct (overwrite || negb _); [|exact Hp].
  destruct (Disk.PrettyMIDI parse_midi disk f) as [midi|e]; [|exact Hp].
  destruct (Disk.quantize sps midi) as [hands|e]; [|exact Hp].
  cbn [snd]. unfold Disk.np_save.
  destruct (decide (Disk.npy_name f ms_window = p)) as [<-|Hne].
  - rewrite lookup_insert_eq. now eexists.
  - now rewrite lookup_insert_ne.
Qed.

Lemma convert_file_ok_artifact (sps ms_window : Z) (overwrite : bool) (f : string)
      (disk disk' : gmap string File) :
  Disk.convert_file parse_midi npy_encode sps ms_window overwrite f disk
  = (Os.Ok tt, disk') ->
  is_Some (disk' !! Disk.npy_name f ms_window).
Proof.
  unfold Disk.convert_file.
  destruct (overwrite || negb _) eqn:Hw.
  - destruct (Disk.PrettyMIDI parse_midi disk f) as [midi|e]; [|discriminate].
    destruct (Disk.quantize sps midi) as [hands|e]; [|discriminate].
    intros [= <-]. unfold Disk.np_save. rewrite lookup_insert_eq. now eexists.
  - intros [= <-]. apply orb_false_iff in Hw as [_ Hw].
    apply negb_false_iff in Hw. unfold Disk.exists_ in Hw.
    now apply bool_decide_eq_true in Hw.
Qed.

Lemma for_files_mono (sps ms_window : Z) (overwrite : bool) (files : list string)
      (p : string) :
  forall disk,
    is_Some (disk !! p) ->
    is_Some (snd (Disk.for_files files
                    (Disk.convert_file parse_midi npy_encode sps ms_window overwrite)
                    disk) !! p).
Proof.
  induction files as [|f files IH]; intros disk Hp; [exact Hp|].
  cbn [Disk.for_files].
  pose proof (convert_file_mono sps ms_window overwrite f disk p Hp) as Hstep.
  destruct (Disk.convert_file parse_midi npy_encode sps ms_window overwrite f disk)
    as [[[]|e] disk1]; cbn [snd] in Hstep |- *; [|exact Hstep].
  now apply IH.
Qed.

Lemma for_files_ok_artifacts (sps ms_window : Z) (overwrite : bool)
      (files : list string) :
  forall disk disk',
    Disk.for_files files
      (Disk.convert_file parse_midi npy_encode sps ms_window overwrite) disk
    = (Os.Ok tt, disk') ->
    forall f, In f files -> is_Some (disk' !! Disk.npy_name f ms_window).
Proof.
  induction files as [|f0 files IH]; intros disk disk' Hrun f Hf; [destruct Hf|].
  cbn [Disk.for_files] in Hrun.
  destruct (Disk.convert_file parse_midi npy_encode sps ms_window overwrite f0 disk)
    as [[[]|e] disk1] eqn:Hstep; [|discriminate].
  destruct Hf as [<-|Hf]; [|now apply (IH disk1)].
  apply convert_file_ok_artifact in Hstep.
  pose proof (for_files_mono sps ms_window overwrite files _ disk1 Hstep) as Hm.
  now rewrite Hrun in Hm.
Qed.

Lemma for_files_skip (sps ms_window : Z) (files : list string)
      (disk : gmap string File) :
  (forall f, In f files -> is_Some (disk !! Disk.npy_name f ms_window)) ->
  Disk.for_files files (Disk.convert_file parse_midi npy_encode sps ms_window false) disk
  = (Os.Ok tt, disk).
Proof.
  induction files as [|f files IH]; intros Hall; [reflexivity|].
  cbn [Disk.for_files]. unfold Disk.convert_file at 1.
  unfold Disk.exists_. rewrite bool_decide_eq_true_2 by (apply Hall; now left).
  cbn [orb negb]. apply IH. intros g Hg. apply Hall. now right.
Qed.

(** X18.  After [_convert] has returned, with or without [overwrite], the
    artifact of every MIDI file it found exists.  If the same MIDI files are
    found again, a second call without [overwrite] returns and leaves every
    file as it is. *)
Theorem X18_second_run_changes_nothing (path : string) (ms_window : Z)
        (overwrite : bool) (disk disk' : gmap string File) (files : list string) :
  Disk._get_files_from_path glob join disk path ["*.mid"%string; "*.midi"%string]
  = Os.Ok files ->
  Disk._convert parse_midi npy_encode glob join path ms_window overwrite disk
  = (Os.Ok tt, disk') ->
  (forall f, In f files -> is_Some (disk' !! Disk.npy_name f ms_window))
  /\ (Disk._get_files_from_path glob join disk' path ["*.mid"%string; "*.midi"%string]
      = Os.Ok files ->
      Disk._convert parse_midi npy_encode glob join path ms_window false disk'
      = (Os.Ok tt, disk')).
Proof.
  intros Hfiles Hrun. unfold Disk._convert in Hrun. rewrite Hfiles in Hrun.
  destruct (Py.floordiv 1000 ms_window) as [sps|e] eqn:Hsps; [|discriminate].
  pose proof (for_files_ok_artifacts sps ms_window overwrite files disk disk' Hrun)
    as Hall.
  split; [exact Hall|]. intros Hfiles'. unfold Disk._convert.
  rewrite Hfiles', Hsps. now apply for_files_skip.
Qed.

(** *** What the artifacts hold *)

Lemma string_length_app (s t : string) :
  String.length (s ++ t) = (String.length s + String.length t)%nat.
Proof.
  induction s as [|c s IH]; [reflexivity|].
  change (S (String.length (s ++ t)) = S (String.length s + String.length t)).
  now rewrite IH.
Qed.

Lemma string_app_inj_r (t : string) :
  forall s1 s2 : string, (s1 ++ t = s2 ++ t)%string -> s1 = s2.
Proof.
  induction s1 as [|c s1 IH]; intros [|d s2] Heq; [reflexivity| | |].
  - apply (f_equal String.length) in Heq.
    rewrite !string_length_app in Heq. cbn [String.length] in Heq. lia.
  - apply (f_equal String.length) in Heq.
    rewrite !string_length_app in Heq. cbn [String.length] in Heq. lia.
  - change (String c (s1 ++ t) = String d (s2 ++ t))%string in Heq.
    injection Heq as -> Heq. f_equal. now apply IH.
Qed.

Lemma npy_name_inj (ms_window : Z) (f g : string) :
  Disk.npy_name f ms_window = Disk.npy_name g ms_window -> f = g.
Proof.
  unfold Disk.npy_name. intros Heq.
  now repeat apply string_app_inj_r in Heq.
Qed.

Lemma quantize_convert (ms_window sps : Z) (midi : AllData.PrettyMIDI) :
  Py.floordiv 1000 ms_window = Py.Ok sps ->
  AllData._convert ms_window midi = Disk.quantize sps midi.
Proof. intros Hsps. unfold AllData._convert. now rewrite Hsps. Qed.

Lemma for_files_overwrite (sps ms_window : Z) (files : list string) :
  (forall f g, In f files -> In g files -> f <> Disk.npy_name g ms_window) ->
  forall disk disk',
    Disk.for_files files
      (Disk.convert_file parse_midi npy_encode sps ms_window true) disk
    = (Os.Ok tt, disk') ->
    forall f, In f files ->
      disk' !! f = disk !! f
      /\ exists midi hands,
           Disk.PrettyMIDI parse_midi disk f = Os.Ok midi
           /\ Disk.quantize sps midi = Py.Ok hands
           /\ disk' !! Disk.npy_name f ms_window = Some (npy_encode hands).
Proof.
  induction files as [|f0 files IH]; intros Hsep disk disk' Hrun f Hf;
    [destruct Hf|].
  assert (disk' !! f = disk !! f) as Hkeep.
  { pose proof (for_files_keeps sps ms_window true (f0 :: files) f disk) as Hk.
    rewrite Hrun in Hk. apply Hk. right. intros g Hg. now apply Hsep. }
  split; [exact Hkeep|].
  cbn [Disk.for_files] in Hrun.
  destruct (Disk.convert_file parse_midi npy_encode sps ms_window true f0 disk)
    as [[[]|e] disk1] eqn:Hstep; [|discriminate].
  assert (forall g, In g (f0 :: files) -> disk1 !! g = disk !! g) as Hsame.
  { intros g Hg.
    pose proof (convert_file_keeps sps ms_window true f0 disk g) as Hk.
    rewrite Hstep in Hk. apply Hk. right. apply Hsep; [exact Hg | now left]. }
  destruct (in_dec string_dec f files) as [Hin|Hout].
  - destruct (IH (fun a b Ha Hb => Hsep a b (or_intror Ha) (or_intror Hb))
                 disk1 disk' Hrun f Hin) as (_ & midi & hands & Hm & Hq & Hl).
    exists midi, hands. split; [|now split].
    unfold Disk.PrettyMIDI in Hm |- *. now rewrite <- (Hsame f Hf).
  - destruct Hf as [<-|Hf]; [|contradiction].
    unfold Disk.convert_file in Hstep. cbn [orb] in Hstep.
    destruct (Disk.PrettyMIDI parse_midi disk f0) as [midi|e] eqn:Hm; [|discriminate].
    destruct (Disk.quantize sps midi) as [hands|e] eqn:Hq; [|discriminate].
    injection Hstep as <-. exists midi, hands. split; [reflexivity|].
    split; [exact Hq|].
    pose proof (for_files_keeps sps ms_window true files
                  (Disk.npy_name f0 ms_window)
                  (Disk.np_save npy_encode (Disk.npy_name f0 ms_window) hands disk))
      as Hk.
    rewrite Hrun in Hk. cbn [snd] in Hk. rewrite Hk.
    + unfold Disk.np_save. apply lookup_insert_eq.
    + right. intros g Hg Heq. apply npy_name_inj in Heq. now subst g.
Qed.

(** X19.  After [_convert] with [overwrite] has returned, every MIDI file
    it found is unchanged and its artifact, read back with [np.load], is the
    grid that the quantizer computes from that file, provided [np.load]
    reads back what [np.save] wrote and no MIDI file found bears the name of
    an artifact. *)
Theorem X19_artifacts_hold_the_grids (path : string) (ms_window : Z)
        (disk disk' : gmap string File) (files : list string) :
  (forall a, npy_decode (npy_encode a) = Os.Ok a) ->
  Disk._get_files_from_path glob join disk path ["*.mid"%string; "*.midi"%string]
  = Os.Ok files ->
  (forall f g, In f files -> In g files -> f <> Disk.npy_name g ms_window) ->
  Disk._convert parse_midi npy_encode glob join path ms_window true disk
  = (Os.Ok tt, disk') ->
  forall f, In f files ->
    disk' !! f = disk !! f
    /\ exists midi hands,
         Disk.PrettyMIDI parse_midi disk f = Os.Ok midi
         /\ AllData._convert ms_window midi = Py.Ok hands
         /\ Disk.np_load npy_decode disk' (Disk.npy_name f ms_window) = Os.Ok hands.
Proof.
  intros Hdec Hfiles Hsep Hrun f Hf. unfold Disk._convert in Hrun.
  rewrite Hfiles in Hrun.
  destruct (Py.floordiv 1000 ms_window) as [sps|e] eqn:Hsps; [|discriminate].
  destruct (for_files_overwrite sps ms_window files Hsep disk disk' Hrun f Hf)
    as (Hkeep & midi & hands & Hm & Hq & Hl).
  split; [exact Hkeep|]. exists midi, hands. split; [exact Hm|].
  split; [now rewrite (quantize_convert ms_window sps)|].
  unfold Disk.np_load. now rewrite Hl.
Qed.

End DiskProperties.

Lemma X15_files_found_or_error_witness :
  Disk._get_files_from_path example_glob String.append example_disk "data/"
    ["*.mid"%string; "*.midi"%string]
  = Os.Ok ["data/a.mid"%string; "data/b.midi"%string]
  /\ Sorted Os.str_le ["data/a.mid"%string; "data/b.midi"%string]
  /\ Disk._get_files_from_path example_glob String.append example_disk "scores/"
       ["*.mid"%string; "*.midi"%string]
     = Os.Raise Os.FileNotFoundError
  /\ example_glob example_disk "scores/*.mid" = [].
Proof.
  assert (Disk._get_files_from_path example_glob String.append example_disk "data/"
            ["*.mid"%string; "*.midi"%string]
          = Os.Ok ["data/a.mid"%string; "data/b.midi"%string]) as Hfound
      by (vm_compute; reflexivity).
  assert (Disk._get_files_from_path example_glob String.append example_disk "scores/"
            ["*.mid"%string; "*.midi"%string]
          = Os.Raise Os.FileNotFoundError) as Hnone
      by (vm_compute; reflexivity).
  destruct (X15_files_found_or_error example_glob String.append example_disk "data/"
              ["*.mid"%string; "*.midi"%string]) as [Hok _].
  destruct (X15_files_found_or_error example_glob String.append example_disk "scores/"
              ["*.mid"%string; "*.midi"%string]) as [_ Hraise].
  destruct (Hok _ Hfound) as (_ & Hsorted & _).
  destruct (Hraise _ Hnone) as (_ & _ & Hnil).
  split; [exact Hfound|]. split; [exact Hsorted|]. split; [exact Hnone|].
  vm_compute in Hnil |- *. reflexivity.
Defined.

Lemma X16_existing_files_are_kept_witness :
  example_disk !! "data/b.midi_20ms.npy"%string = Some OtherFile
  /\ snd (Disk._convert example_parse_midi NpyFile example_glob String.append
            "data/" 20 false example_disk) !! "data/b.midi_20ms.npy"%string
     = Some OtherFile
  /\ snd (Disk.__init__ example_parse_midi NpyFile example_glob String.append
            false example_disk) !! "data/b.midi_20ms.npy"%string
     = Some OtherFile.
Proof.
  split; [vm_compute; reflexivity|].
  apply (X16_existing_files_are_kept example_parse_midi NpyFile example_glob
           String.append "data/" 20 false example_disk "data/b.midi_20ms.npy"
           OtherFile).
  vm_compute. reflexivity.
Defined.

Lemma X17_only_artifacts_are_written_witness :
  snd (Disk._convert example_parse_midi NpyFile example_glob String.append
         "data/" 20 true example_disk) !! "data/notes.txt"%string
  = example_disk !! "data/notes.txt"%string.
Proof.
  apply (X17_only_artifacts_are_written example_parse_midi NpyFile example_glob
           String.append "data/" 20 true example_disk "data/notes.txt").
  intros files f Hfiles Hf. vm_compute in Hfiles. injection Hfiles as <-.
  destruct Hf as [<-|[<-|[]]]; vm_compute; discriminate.
Defined.

Lemma X18_second_run_changes_nothing_witness :
  Disk._convert example_parse_midi NpyFile example_glob String.append
    "data/" 20 false example_disk
  = (Os.Ok tt, example_disk_converted)
  /\ is_Some (example_disk_converted !! "data/a.mid_20ms.npy"%string)
  /\ Disk._convert example_parse_midi NpyFile example_glob String.append
       "data/" 20 false example_disk_converted
     = (Os.Ok tt, example_disk_converted).
Proof.
  assert (Disk._convert example_parse_midi NpyFile example_glob String.append
            "data/" 20 false example_disk
          = (Os.Ok tt, example_disk_converted)) as Hrun
      by (vm_compute; reflexivity).
  destruct (X18_second_run_changes_nothing example_parse_midi NpyFile example_glob
              String.append "data/" 20 false example_disk example_disk_converted
              ["data/a.mid"%string; "data/b.midi"%string]) as [Hall Hagain];
    [vm_compute; reflexivity | exact Hrun |].
  split; [exact Hrun|]. split.
  - apply (Hall "data/a.mid"%string). now left.
  - apply Hagain. vm_compute. reflexivity.
Defined.

Lemma X19_artifacts_hold_the_grids_witness :
  Disk._convert example_parse_midi NpyFile example_glob String.append
    "data/" 20 true example_disk
  = (Os.Ok tt, example_disk_overwritten)
  /\ example_disk_overwritten !! "data/b.midi"%string
     = Some (MidiFile example_midi)
  /\ Os.lift (AllData._convert 20 example_midi)
     = Disk.np_load example_npy_decode example_disk_overwritten
         (Disk.npy_name "data/b.midi" 20).
Proof.
  assert (Disk._convert example_parse_midi NpyFile example_glob String.append
            "data/" 20 true example_disk
          = (Os.Ok tt, example_disk_overwritten)) as Hrun
      by (vm_compute; reflexivity).
  destruct (X19_artifacts_hold_the_grids example_parse_midi NpyFile
              example_npy_decode example_glob String.append "data/" 20
              example_disk example_disk_overwritten
              ["data/a.mid"%string; "data/b.midi"%string]
              (fun a => eq_refl)) with (f := "data/b.midi"%string)
    as (Hkeep & midi & hands & Hm & Hq & Hl).
  - vm_compute. reflexivity.
  - intros f g [<-|[<-|[]]] [<-|[<-|[]]]; vm_compute; discriminate.
  - exact Hrun.
  - right. now left.
  - split; [exact Hrun|]. split; [rewrite Hkeep; vm_compute; reflexivity|].
    assert (Os.Ok example_midi = Os.Ok midi) as Heq
        by (rewrite <- Hm; vm_compute; reflexivity).
    injection Heq as <-. rewrite Hq, Hl. reflexivity.
Defined.

(** ** The datasets of AllData *)

Lemma slice_first_two {A} (l : list A) : Py.slice l 0 2 = take 2 l.
Proof.
  unfold Py.slice, Py.slice_bound. cbn [Z.ltb Z.compare].
  replace (Z.max 0 (Z.min (Z.of_nat (length l)) 0)) with 0 by lia.
  change (skipn (Z.to_nat 0) l) with l. rewrite Z.sub_0_r.
  destruct (Z_lt_ge_dec (Z.of_nat (length l)) 2) as [Hs|Hb].
  - replace (Z.max 0 (Z.min (Z.of_nat (length l)) 2)) with (Z.of_nat (length l))
      by lia.
    rewrite Nat2Z.id.
    change (firstn (length l) l) with (take (length l) l).
    rewrite !take_ge by lia. reflexivity.
  - replace (Z.max 0 (Z.min (Z.of_nat (length l)) 2)) with 2 by lia. reflexivity.
Qed.

Section Datasets.

Context {File : Type}.

Variable npy_decode : File -> Os.result (Np.array3 bool).
Variable glob : gmap string File -> string -> list string.
Variable join : string -> string -> string.

Lemma load_all_run (disk : gmap string File) (files : list string) :
  forall arrays,
    Disk.load_all npy_decode disk files = Os.Ok arrays ->
    Forall2 (fun f a => Disk.np_load npy_decode disk f = Os.Ok a) files arrays.
Proof.
  induction files as [|f files IH]; intros arrays Hrun; cbn [Disk.load_all] in Hrun.
  - injection Hrun as <-. constructor.
  - destruct (Disk.np_load npy_decode disk f) as [a|e] eqn:Hf; [|discriminate].
    cbn [Os.bind] in Hrun.
    destruct (Disk.load_all npy_decode disk files) as [rest|e]; [|discriminate].
    injection Hrun as <-. constructor; [exact Hf | now apply IH].
Qed.

Lemma dataset_for_files_run (disk : gmap string File) (npy_files : list string)
      (len_sequence : Z) (debug : bool) :
  let used := if debug then take 2 npy_files else npy_files in
  (used = [] ->
   Disk._dataset_for_files npy_decode disk npy_files len_sequence debug
   = Os.Raise (Os.Python Py.ValueError))
  /\ (forall data_set,
        Disk._dataset_for_files npy_decode disk npy_files len_sequence debug
        = Os.Ok data_set ->
        exists arrays keys,
          Forall2 (fun f a => Disk.np_load npy_decode disk f = Os.Ok a) used arrays
          /\ HanndsDataset.len_sequence data_set = len_sequence
          /\ Forall (fun a => Np.dim2 a = keys) arrays
          /\ (concat (List.map Np.cells arrays) <> [] -> keys = 88 \/ keys = 0)
          /\ HanndsDataset.X (HanndsDataset.data data_set)
             = Np.Array2 keys (List.map X_row (concat (List.map Np.cells arrays)))
          /\ HanndsDataset.Y (HanndsDataset.data data_set)
             = Np.Array2 88
                 (if keys =? 88
                  then List.map Y_row (concat (List.map Np.cells arrays))
                  else repeat (repeat 0 88)
                         (length (concat (List.map Np.cells arrays))))).
Proof.
  intros used.
  assert (Disk._dataset_for_files npy_decode disk npy_files len_sequence debug
          = (arrays <-- Disk.load_all npy_decode disk used ;;
             npy_data <-- Os.lift (Npx.concatenate3 arrays) ;;
             Os.lift (HanndsDataset.__init__ npy_data len_sequence))) as ->.
  { unfold Disk._dataset_for_files, used. destruct debug; [|reflexivity].
    now rewrite slice_first_two. }
  split.
  - intros ->. reflexivity.
  - intros data_set Hrun.
    destruct (Disk.load_all npy_decode disk used) as [arrays|e] eqn:Hload;
      [|discriminate].
    cbn [Os.bind] in Hrun.
    destruct (Npx.concatenate3 arrays) as [npy_data|e] eqn:Hcat; [|discriminate].
    cbn [Os.lift Os.bind] in Hrun. unfold HanndsDataset.__init__ in Hrun.
    exists arrays, (Np.dim2 npy_data). split; [now apply load_all_run|].
    assert (Np.cells npy_data = concat (List.map Np.cells arrays)
            /\ Forall (fun a => Np.dim2 a = Np.dim2 npy_data) arrays) as [Hcells Hkeys].
    { unfold Npx.concatenate3 in Hcat. destruct arrays as [|p arrays]; [discriminate|].
      destruct (forallb _ _) eqn:Hall; [|discriminate]. injection Hcat as <-.
      split; [reflexivity|]. cbn [Np.dim2]. apply Forall_forall. intros q Hq.
      rewrite forallb_forall in Hall. specialize (Hall q Hq).
      apply andb_true_iff in Hall as [_ Hall]. now apply Z.eqb_eq in Hall. }
    destruct (Z_lt_ge_dec (Np.dim1 npy_data) 2) as [Hd1|Hd1];
      [rewrite compute_X_Y_bad_shape in Hrun by (now left); discriminate|].
    destruct (Z.eq_dec (Np.dim2 npy_data) 88) as [Hd2|Hd2].
    + rewrite compute_X_Y_rows in Hrun by lia.
      cbn [Py.bind Os.lift fst snd] in Hrun. injection Hrun as <-.
      cbn [HanndsDataset.len_sequence HanndsDataset.data HanndsDataset.X HanndsDataset.Y].
      rewrite Hcells, Hd2 in *. cbn [Z.eqb Pos.eqb].
      repeat split; try assumption. intros _. now left.
    + destruct (Z.eq_dec (Np.dim2 npy_data) 0) as [Hd0|Hd0];
        [|rewrite compute_X_Y_bad_shape in Hrun by (now right); discriminate].
      rewrite compute_X_Y_no_keys in Hrun by lia.
      cbn [Py.bind Os.lift fst snd] in Hrun. injection Hrun as <-.
      cbn [HanndsDataset.len_sequence HanndsDataset.data HanndsDataset.X HanndsDataset.Y].
      rewrite Hcells, Hd0 in *. cbn [Z.eqb].
      repeat split; try assumption. intros _. now right.
Qed.

(** X20.  [_dataset_for_files] reads the files of its list, in debug
    mode the first two only.  With no file to read it raises [ValueError].
    When it returns, every file read was loaded, the loaded arrays agree on
    their third axis, which is 88 or 0 long if they have a time step at all,
    and the dataset has the sequence length asked for.  With 88 keys its
    inputs and labels are computed time step by time step from the loaded
    arrays put end to end in the order of the list; with no key the inputs
    have no column and the labels are all zeros, 88 wide. *)
Theorem X20_dataset_of_the_files_read (disk : gmap string File)
        (npy_files : list string) (len_sequence : Z) (debug : bool) :
  let used := if debug then take 2 npy_files else npy_files in
  (used = [] ->
   Disk._dataset_for_files npy_decode disk npy_files len_sequence debug
   = Os.Raise (Os.Python Py.ValueError))
  /\ (forall data_set,
        Disk._dataset_for_files npy_decode disk npy_files len_sequence debug
        = Os.Ok data_set ->
        exists arrays keys,
          Forall2 (fun f a => Disk.np_load npy_decode disk f = Os.Ok a) used arrays
          /\ HanndsDataset.len_sequence data_set = len_sequence
          /\ Forall (fun a => Np.dim2 a = keys) arrays
          /\ (concat (List.map Np.cells arrays) <> [] -> keys = 88 \/ keys = 0)
          /\ HanndsDataset.X (HanndsDataset.data data_set)
             = Np.Array2 keys (List.map X_row (concat (List.map Np.cells arrays)))
          /\ HanndsDataset.Y (HanndsDataset.data data_set)
             = Np.Array2 88
                 (if keys =? 88
                  then List.map Y_row (concat (List.map Np.cells arrays))
                  else repeat (repeat 0 88)
                         (length (concat (List.map Np.cells arrays))))).
Proof. exact (dataset_for_files_run disk npy_files len_sequence debug). Qed.

Lemma dataset_for_files_nonempty (disk : gmap string File) (npy_files : list string)
      (len_sequence : Z) (debug : bool) (data_set : HanndsDataset.t) :
  Disk._dataset_for_files npy_decode disk npy_files len_sequence debug
  = Os.Ok data_set ->
  npy_files <> [] /\ HanndsDataset.len_sequence data_set = len_sequence.
Proof.
  intros Hrun.
  destruct (dataset_for_files_run disk npy_files len_sequence debug) as [Hnil Hok].
  cbv zeta in Hnil, Hok. split.
  - intros ->. rewrite Hnil in Hrun; [discriminate|]. now destruct debug.
  - now destruct (Hok data_set Hrun) as (arrays & keys & _ & Hlen & _).
Qed.

Lemma make_datasets_run (disk : gmap string File) (self self' : Disk.AllData)
      (len_train_sequence : Z) :
  Disk._make_datasets npy_decode disk self len_train_sequence = Os.Ok self' ->
  exists train valid test train_data valid_data test_data,
    Disk.train_files self = Some train /\ Disk.valid_files self = Some valid
    /\ Disk.test_files self = Some test
    /\ train <> [] /\ valid <> [] /\ test <> []
    /\ self' = Disk.mkAllData (Some train) (Some valid) (Some test) (Disk.debug self)
                 (Some train_data) (Some valid_data) (Some test_data)
    /\ HanndsDataset.len_sequence train_data = len_train_sequence
    /\ HanndsDataset.len_sequence valid_data = -1
    /\ HanndsDataset.len_sequence test_data = -1.
Proof.
  unfold Disk._make_datasets. intros Hrun.
  destruct (Disk.train_files self) as [train|]; [|discriminate].
  cbn [Disk.the_list Os.bind] in Hrun.
  destruct (Disk._dataset_for_files npy_decode disk train _ _) as [dt|e] eqn:Ht;
    [|discriminate].
  cbn [Os.bind] in Hrun.
  destruct (Disk.valid_files self) as [valid|]; [|discriminate].
  cbn [Disk.the_list Os.bind] in Hrun.
  destruct (Disk._dataset_for_files npy_decode disk valid _ _) as [dv|e] eqn:Hv;
    [|discriminate].
  cbn [Os.bind] in Hrun.
  destruct (Disk.test_files self) as [test|]; [|discriminate].
  cbn [Disk.the_list Os.bind] in Hrun.
  destruct (Disk._dataset_for_files npy_decode disk test _ _) as [de|e] eqn:He;
    [|discriminate].
  cbn [Os.bind] in Hrun. injection Hrun as <-.
  apply dataset_for_files_nonempty in Ht as [Ht1 Ht2].
  apply dataset_for_files_nonempty in Hv as [Hv1 Hv2].
  apply dataset_for_files_nonempty in He as [He1 He2].
  exists train, valid, test, dt, dv, de. repeat split; assumption.
Qed.

(** X22.  [initialize_from_lists] returns only when none of the three
    lists is empty.  The object then holds the three lists and three
    datasets; the training dataset has the sequence length given, and the
    validation and the test dataset each have length 1 and serve their
    whole [X] and [Y] as one window at every index. *)
Theorem X22_lists_give_one_window_each (disk : gmap string File)
        (self self' : Disk.AllData) (train valid test : list string)
        (len_train_sequence : Z) :
  Disk.initialize_from_lists npy_decode disk self train valid test len_train_sequence
  = Os.Ok self' ->
  train <> [] /\ valid <> [] /\ test <> []
  /\ Disk.train_files self' = Some train /\ Disk.valid_files self' = Some valid
  /\ Disk.test_files self' = Some test
  /\ exists train_data valid_data test_data,
       Disk.train_data self' = Some train_data
       /\ Disk.valid_data self' = Some valid_data
       /\ Disk.test_data self' = Some test_data
       /\ HanndsDataset.len_sequence train_data = len_train_sequence
       /\ HanndsDataset.__len__ valid_data = Py.Ok 1
       /\ HanndsDataset.__len__ test_data = Py.Ok 1
       /\ forall idx,
            HanndsDataset.__getitem__ valid_data idx
            = Py.Ok (HanndsDataset.X (HanndsDataset.data valid_data),
                     HanndsDataset.Y (HanndsDataset.data valid_data))
            /\ HanndsDataset.__getitem__ test_data idx
               = Py.Ok (HanndsDataset.X (HanndsDataset.data test_data),
                        HanndsDataset.Y (HanndsDataset.data test_data)).
Proof.
  unfold Disk.initialize_from_lists. intros Hrun.
  apply make_datasets_run in Hrun
    as (tr & va & te & dt & dv & de & [= <-] & [= <-] & [= <-]
        & Htr & Hva & Hte & -> & Hlt & Hlv & Hle).
  cbn [Disk.train_files Disk.valid_files Disk.test_files
       Disk.train_data Disk.valid_data Disk.test_data].
  do 6 (split; [assumption || reflexivity|]).
  exists dt, dv, de. do 4 (split; [assumption || reflexivity|]).
  unfold HanndsDataset.__len__, HanndsDataset.__getitem__. rewrite Hlv, Hle.
  cbn [Z.eqb Pos.eqb]. split; [reflexivity|]. split; [reflexivity|].
  intros idx. split; reflexivity.
Qed.

Section FromDir.

Variable shuffle : list string -> list string.
Hypothesis shuffle_permutes : forall l, Permutation (shuffle l) l.

(** X21.  [initialize_from_dir] needs three artifacts: with one or two
    files found under [data/] the training list is empty and the call raises
    [ValueError], whatever the files hold.  When it returns, at least three
    files were found, the three lists of the object put end to end are the
    shuffled files, none of them is empty, and the three datasets are
    set. *)
Theorem X21_directory_needs_three_artifacts (disk : gmap string File)
        (self : Disk.AllData) (len_train_sequence : Z) :
  let found := Disk._get_files_from_path glob join disk "data/" ["*.npy"%string] in
  (forall files,
     found = Os.Ok files -> (length files <= 2)%nat ->
     Disk.initialize_from_dir (F := Qfloat) npy_decode glob join shuffle disk self
       len_train_sequence
     = Os.Raise (Os.Python Py.ValueError))
  /\ (forall self',
        Disk.initialize_from_dir (F := Qfloat) npy_decode glob join shuffle disk self
          len_train_sequence
        = Os.Ok self' ->
        exists files train valid test,
          found = Os.Ok files /\ (3 <= length files)%nat
          /\ Disk.train_files self' = Some train
          /\ Disk.valid_files self' = Some valid
          /\ Disk.test_files self' = Some test
          /\ train ++ valid ++ test = shuffle files
          /\ train <> [] /\ valid <> [] /\ test <> []
          /\ is_Some (Disk.train_data self') /\ is_Some (Disk.valid_data self')
          /\ is_Some (Disk.test_data self')).
Proof.
  intros found.
  assert (forall files,
             found = Os.Ok files -> (length files <= 2)%nat ->
             Disk.initialize_from_dir (F := Qfloat) npy_decode glob join shuffle disk
               self len_train_sequence
             = Os.Raise (Os.Python Py.ValueError)) as Hsmall.
  { intros files Hfound Hlen. unfold Disk.initialize_from_dir. fold found.
    rewrite Hfound. cbn [Os.bind].
    destruct (split_every_count shuffle shuffle_permutes files)
      as (tr & va & te & Hsplit & _ & Hnil & _).
    rewrite Hsplit. cbn [Os.lift Os.bind fst snd]. rewrite Hnil by lia.
    unfold Disk._make_datasets.
    cbn [Disk.train_files Disk.debug Disk.the_list Os.bind].
    destruct (dataset_for_files_run disk [] len_train_sequence (Disk.debug self))
      as [Hempty _].
    cbv zeta in Hempty. rewrite Hempty; [reflexivity|]. now destruct (Disk.debug self). }
  split; [exact Hsmall|]. intros self' Hrun.
  destruct found as [files|e] eqn:Hfound.
  - exists files.
    destruct (le_lt_dec (length files) 2) as [Hle|Hgt];
      [rewrite (Hsmall files eq_refl Hle) in Hrun; discriminate|].
    unfold Disk.initialize_from_dir in Hrun. fold found in Hrun.
    rewrite Hfound in Hrun. cbn [Os.bind] in Hrun.
    destruct (split_every_count shuffle shuffle_permutes files)
      as (tr & va & te & Hsplit & Hcat & _).
    rewrite Hsplit in Hrun. cbn [Os.lift Os.bind fst snd] in Hrun.
    apply make_datasets_run in Hrun
      as (tr' & va' & te' & dt & dv & de & [= <-] & [= <-] & [= <-]
          & Htr & Hva & Hte & -> & _).
    exists tr, va, te.
    cbn [Disk.train_files Disk.valid_files Disk.test_files
         Disk.train_data Disk.valid_data Disk.test_data].
    repeat (split; [assumption || reflexivity || lia || (now eexists)|]).
    now eexists.
  - unfold Disk.initialize_from_dir in Hrun. fold found in Hrun.
    rewrite Hfound in Hrun. discriminate.
Qed.

End FromDir.

End Datasets.

Lemma X20_dataset_of_the_files_read_witness :
  Disk._dataset_for_files example_npy_decode example_artifacts [] 2 true
  = Os.Raise (Os.Python Py.ValueError)
  /\ exists data_set,
       Disk._dataset_for_files example_npy_decode example_artifacts
         ["data/a.npy"%string; "data/b.npy"%string; "data/c.npy"%string] 2 true
       = Os.Ok data_set
       /\ HanndsDataset.X (HanndsDataset.data data_set)
          = Np.Array2 88 (List.map X_row (Np.cells example_grid ++ Np.cells example_grid)).
Proof.
  split.
  - apply (X20_dataset_of_the_files_read example_npy_decode example_artifacts
             [] 2 true). reflexivity.
  - destruct (Disk._dataset_for_files example_npy_decode example_artifacts
                ["data/a.npy"%string; "data/b.npy"%string; "data/c.npy"%string] 2 true)
      as [data_set|e] eqn:Hrun; [|vm_compute in Hrun; discriminate].
    exists data_set. split; [reflexivity|].
    destruct (X20_dataset_of_the_files_read example_npy_decode example_artifacts
                ["data/a.npy"%string; "data/b.npy"%string; "data/c.npy"%string] 2 true)
      as [_ Hok].
    destruct (Hok data_set Hrun) as (arrays & keys & Hloads & _ & Hkeys & _ & HX & _).
    rewrite HX.
    inversion Hloads as [|f1 a1 fs1 as1 H1 Hrest1]; subst.
    inversion Hrest1 as [|f2 a2 fs2 as2 H2 Hrest2]; subst.
    inversion Hrest2; subst.
    vm_compute in H1. vm_compute in H2.
    injection H1 as <-. injection H2 as <-.
    apply Forall_inv in Hkeys. now rewrite <- Hkeys.
Defined.

Lemma X21_directory_needs_three_artifacts_witness :
  (forall l : list string, Permutation (rev l) l)
  /\ Disk.initialize_from_dir (F := Qfloat) example_npy_decode example_glob
       String.append (@rev string) example_two_artifacts example_self 1
     = Os.Raise (Os.Python Py.ValueError)
  /\ exists self',
       Disk.initialize_from_dir (F := Qfloat) example_npy_decode example_glob
         String.append (@rev string) example_artifacts example_self 1
       = Os.Ok self'
       /\ Disk.train_files self' = Some ["data/c.npy"%string]
       /\ Disk.valid_files self' = Some ["data/b.npy"%string]
       /\ Disk.test_files self' = Some ["data/a.npy"%string].
Proof.
  pose proof (fun l : list string => Permutation_sym (Permutation_rev l)) as Hperm.
  split; [exact Hperm|]. split.
  - apply (proj1 (X21_directory_needs_three_artifacts example_npy_decode example_glob
                    String.append (@rev string) Hperm example_two_artifacts
                    example_self 1)
             ["data/a.npy"%string; "data/b.npy"%string]);
      [vm_compute; reflexivity | cbn; lia].
  - destruct (Disk.initialize_from_dir (F := Qfloat) example_npy_decode example_glob
                String.append (@rev string) example_artifacts example_self 1)
      as [self'|e] eqn:Hrun; [|vm_compute in Hrun; discriminate].
    exists self'. split; [reflexivity|].
    destruct (proj2 (X21_directory_needs_three_artifacts example_npy_decode
                       example_glob String.append (@rev string) Hperm
                       example_artifacts example_self 1) self' Hrun)
      as (files & tr & va & te & _).
    vm_compute in Hrun. injection Hrun as <-. now cbn.
Defined.

Lemma X22_lists_give_one_window_each_witness :
  exists self' valid_data,
    Disk.initialize_from_lists example_npy_decode example_artifacts example_self
      ["data/a.npy"%string] ["data/b.npy"%string] ["data/c.npy"%string] 1
    = Os.Ok self'
    /\ Disk.valid_data self' = Some valid_data
    /\ HanndsDataset.__len__ valid_data = Py.Ok 1.
Proof.
  destruct (Disk.initialize_from_lists example_npy_decode example_artifacts
              example_self ["data/a.npy"%string] ["data/b.npy"%string]
              ["data/c.npy"%string] 1) as [self'|e] eqn:Hrun;
    [|vm_compute in Hrun; discriminate].
  destruct (X22_lists_give_one_window_each example_npy_decode example_artifacts
              example_self self' ["data/a.npy"%string] ["data/b.npy"%string]
              ["data/c.npy"%string] 1 Hrun)
    as (_ & _ & _ & _ & _ & _ & dt & dv & de & _ & Hv & _ & _ & Hlen & _).
  exists self', dv. split; [reflexivity|]. split; [exact Hv | exact Hlen].
Defined.

(** ** SingleFileAnnotate.process *)

Lemma for_app {A S} (xs ys : list A) (body : A -> S -> Py.result S) (s : S) :
  Py.for_ (xs ++ ys) body s = Py.bind (Py.for_ xs body s) (Py.for_ ys body).
Proof.
  revert s. induction xs as [|x xs IH]; intros s; [reflexivity|].
  cbn [app Py.for_]. destruct (body x s) as [s'|e]; [apply IH | reflexivity].
Qed.

Lemma for_concat {A S} (xss : list (list A)) (body : A -> S -> Py.result S) (s : S) :
  Py.for_ xss (fun xs s => Py.for_ xs body s) s = Py.for_ (concat xss) body s.
Proof.
  revert s. induction xss as [|xs xss IH]; intros s; [reflexivity|].
  cbn [concat Py.for_]. rewrite for_app.
  destruct (Py.for_ xs body s) as [s'|e]; [apply IH | reflexivity].
Qed.

(** A property of the messages handled so far and of the variables that
    every turn of the loop keeps holds when the loop ends. *)
Lemma for_invariant {A S} (Inv : list A -> S -> Prop) (body : A -> S -> Py.result S) :
  (forall done x s s', Inv done s -> body x s = Py.Ok s' -> Inv (done ++ [x]) s') ->
  forall xs done s s',
    Inv done s -> Py.for_ xs body s = Py.Ok s' -> Inv (done ++ xs) s'.
Proof.
  intros Hstep. induction xs as [|x xs IH]; intros done s s' Hinv Hrun.
  - injection Hrun as <-. now rewrite app_nil_r.
  - cbn [Py.for_] in Hrun. destruct (body x s) as [s1|e] eqn:Hx; [|discriminate].
    change (x :: xs) with ([x] ++ xs). rewrite app_assoc.
    apply (IH _ s1); [now apply (Hstep done x s) | exact Hrun].
Qed.

Lemma ticks_app (l k : list Mido.Message) : ticks (l ++ k) = ticks l + ticks k.
Proof.
  induction l as [|m l IH]; [reflexivity|].
  cbn [app]. unfold ticks in *. cbn [fold_right]. rewrite IH. lia.
Qed.

Lemma absolute_from_snoc (l : list Mido.Message) (msg : Mido.Message) :
  forall now,
    absolute_from now (l ++ [msg])
    = absolute_from now l ++ [Mido.copy msg (now + ticks l + Mido.time msg)].
Proof.
  induction l as [|m l IH]; intros now.
  - cbn. now rewrite Z.add_0_r.
  - cbn [app absolute_from]. rewrite IH. unfold ticks. cbn [fold_right].
    do 4 f_equal. lia.
Qed.

Lemma absolute_from_length (l : list Mido.Message) :
  forall now, length (absolute_from now l) = length l.
Proof. induction l as [|m l IH]; intros now; cbn; [reflexivity | now rewrite IH]. Qed.

Lemma absolute_to_reltime (l : list Mido.Message) :
  forall now, absolute_from now (Mido.to_reltime_from now l) = l.
Proof.
  induction l as [|m l IH]; intros now; [reflexivity|].
  cbn [Mido.to_reltime_from absolute_from Mido.copy Mido.time].
  replace (now + (Mido.time m - now)) with (Mido.time m) by lia.
  rewrite IH. now destruct m.
Qed.

Lemma of_hand_snoc (side : bool) (done : list Mido.Message) (hands : list bool)
      (msg : Mido.Message) (hand : bool) :
  length hands = length done ->
  of_hand side (zip (absolute (done ++ [msg])) (hands ++ [hand]))
  = of_hand side (zip (absolute done) hands)
    ++ (if negb (is_note msg) || Bool.eqb hand side
        then [Mido.copy msg (ticks done + Mido.time msg)] else []).
Proof.
  intros Hlen. unfold absolute. rewrite absolute_from_snoc.
  rewrite zip_with_app by (now rewrite absolute_from_length).
  unfold of_hand. rewrite List.filter_app, List.map_app. f_equal.
  cbn [zip_with List.filter fst snd].
  change (is_note (Mido.copy msg (0 + ticks done + Mido.time msg))) with (is_note msg).
  destruct (negb (is_note msg) || Bool.eqb hand side); reflexivity.
Qed.

Lemma playing_after_remove (playing : gset Z) (note n : Z) :
  bool_decide (n ∈ playing ∖ {[note]})
  = bool_decide (n ∈ playing) && negb (note =? n).
Proof.
  destruct (Z.eqb_spec note n) as [->|Hne]; cbn [negb].
  - rewrite andb_false_r. apply bool_decide_eq_false_2.
    rewrite elem_of_difference, elem_of_singleton. tauto.
  - rewrite andb_true_r. apply bool_decide_ext.
    rewrite elem_of_difference, elem_of_singleton.
    split; [tauto|]. intros H. split; [exact H | congruence].
Qed.

Lemma playing_after_add (playing : gset Z) (note n : Z) :
  bool_decide (n ∈ {[note]} ∪ playing) = (note =? n) || bool_decide (n ∈ playing).
Proof.
  destruct (Z.eqb_spec note n) as [->|Hne]; cbn [orb].
  - apply bool_decide_eq_true_2. apply elem_of_union. left. now apply elem_of_singleton.
  - apply bool_decide_ext. rewrite elem_of_union, elem_of_singleton.
    split; [intros [H|H]; [congruence | exact H] | tauto].
Qed.

Section Process.

Context {F : FloatOps}.

Variable fadd : float -> float -> float.
Variable tick2second : Z -> Z -> Z -> Py.result float.
Variable bpm2tempo : float -> Py.result Z.
Variable tempo2bpm : Z -> Py.result float.
Variable KalmanMapper : Type.
Variable midi_event : SingleFileAnnotate.MidiEvent -> KalmanMapper -> Py.result KalmanMapper.
Variable last_was_left_hand : KalmanMapper -> bool.

Local Abbreviation step := (SingleFileAnnotate.step fadd tick2second bpm2tempo tempo2bpm
                          KalmanMapper midi_event last_was_left_hand).
Local Abbreviation split := (SingleFileAnnotate.split fadd tick2second bpm2tempo tempo2bpm
                           KalmanMapper midi_event last_was_left_hand).

(** Every case of [step] that returns, with the test that chose it. *)
Lemma step_run (ticks_per_beat : Z) (msg : Mido.Message)
      (s s' : SingleFileAnnotate.locals KalmanMapper) :
  step ticks_per_beat msg s = Py.Ok s' ->
  let now := SingleFileAnnotate.total_ticks s + Mido.time msg in
  let copied := Mido.copy msg now in
  let playing := SingleFileAnnotate.left_hand_is_playing s in
  SingleFileAnnotate.total_ticks s' = now
  /\ ((ends_note msg = true /\ Mido.note msg ∈ playing
       /\ SingleFileAnnotate.left_hand s' = SingleFileAnnotate.left_hand s ++ [copied]
       /\ SingleFileAnnotate.right_hand s' = SingleFileAnnotate.right_hand s
       /\ SingleFileAnnotate.left_hand_is_playing s' = (playing ∖ {[Mido.note msg]}))
      \/ (ends_note msg = true /\ (Mido.note msg ∉ playing)
          /\ SingleFileAnnotate.left_hand s' = SingleFileAnnotate.left_hand s
          /\ SingleFileAnnotate.right_hand s' = SingleFileAnnotate.right_hand s ++ [copied]
          /\ SingleFileAnnotate.left_hand_is_playing s' = playing)
      \/ (starts_note msg = true
          /\ SingleFileAnnotate.left_hand s' = SingleFileAnnotate.left_hand s ++ [copied]
          /\ SingleFileAnnotate.right_hand s' = SingleFileAnnotate.right_hand s
          /\ SingleFileAnnotate.left_hand_is_playing s' = {[Mido.note msg]} ∪ playing)
      \/ (starts_note msg = true
          /\ SingleFileAnnotate.left_hand s' = SingleFileAnnotate.left_hand s
          /\ SingleFileAnnotate.right_hand s' = SingleFileAnnotate.right_hand s ++ [copied]
          /\ SingleFileAnnotate.left_hand_is_playing s' = playing)
      \/ (is_note msg = false
          /\ SingleFileAnnotate.left_hand s' = SingleFileAnnotate.left_hand s ++ [copied]
          /\ SingleFileAnnotate.right_hand s' = SingleFileAnnotate.right_hand s ++ [copied]
          /\ SingleFileAnnotate.left_hand_is_playing s' = playing)).
Proof.
  intros Hrun now copied playing. unfold SingleFileAnnotate.step in Hrun.
  destruct (bpm2tempo _) as [tempo|e]; [|discriminate]. cbn [Py.bind] in Hrun.
  destruct (tick2second _ _ _) as [sec|e]; [|discriminate]. cbn [Py.bind] in Hrun.
  unfold ends_note, starts_note, is_note.
  destruct (String.eqb (Mido.type msg) "note_off") eqn:Hoff;
    destruct (String.eqb (Mido.type msg) "note_on") eqn:Hon;
    destruct (Mido.velocity msg =? 0) eqn:Hvel;
    cbn [orb andb negb] in Hrun |- *;
    try (apply String.eqb_eq in Hoff; apply String.eqb_eq in Hon; congruence).
  - (* note_off *)
    destruct (midi_event _ _) as [mapper|e]; [|discriminate]. cbn [Py.bind] in Hrun.
    destruct (bool_decide (Mido.note msg ∈ _)) eqn:Hin;
      [apply bool_decide_eq_true in Hin | apply bool_decide_eq_false in Hin];
      injection Hrun as <-; (split; [reflexivity|]).
    + left. now repeat split.
    + right. left. now repeat split.
  - (* note_off *)
    destruct (midi_event _ _) as [mapper|e]; [|discriminate]. cbn [Py.bind] in Hrun.
    destruct (bool_decide (Mido.note msg ∈ _)) eqn:Hin;
      [apply bool_decide_eq_true in Hin | apply bool_decide_eq_false in Hin];
      injection Hrun as <-; (split; [reflexivity|]).
    + left. now repeat split.
    + right. left. now repeat split.
  - (* note_on with velocity 0 *)
    destruct (midi_event _ _) as [mapper|e]; [|discriminate]. cbn [Py.bind] in Hrun.
    destruct (bool_decide (Mido.note msg ∈ _)) eqn:Hin;
      [apply bool_decide_eq_true in Hin | apply bool_decide_eq_false in Hin];
      injection Hrun as <-; (split; [reflexivity|]).
    + left. now repeat split.
    + right. left. now repeat split.
  - (* note_on *)
    destruct (midi_event _ _) as [mapper|e]; [|discriminate]. cbn [Py.bind] in Hrun.
    destruct (last_was_left_hand mapper); injection Hrun as <-;
      (split; [reflexivity|]).
    + right. right. left. now repeat split.
    + right. right. right. left. now repeat split.
  - (* any other message, velocity 0 *)
    destruct (String.eqb (Mido.type msg) "set_tempo");
      [destruct (tempo2bpm _) as [bpm|e]; [|discriminate]|];
      cbn [Py.bind] in Hrun; injection Hrun as <-; (split; [reflexivity|]);
      right; right; right; right; now repeat split.
  - (* any other message *)
    destruct (String.eqb (Mido.type msg) "set_tempo");
      [destruct (tempo2bpm _) as [bpm|e]; [|discriminate]|];
      cbn [Py.bind] in Hrun; injection Hrun as <-; (split; [reflexivity|]);
      right; right; right; right; now repeat split.
Qed.

Lemma ends_note_is_note (msg : Mido.Message) : ends_note msg = true -> is_note msg = true.
Proof.
  unfold ends_note, is_note.
  destruct (String.eqb _ "note_off"), (String.eqb _ "note_on"); cbn; congruence.
Qed.

Lemma starts_note_is_note (msg : Mido.Message) :
  starts_note msg = true -> is_note msg = true.
Proof.
  unfold starts_note, is_note.
  destruct (String.eqb _ "note_off"), (String.eqb _ "note_on"); cbn; congruence.
Qed.

Lemma starts_not_ends (msg : Mido.Message) :
  starts_note msg = true -> ends_note msg = false.
Proof.
  unfold starts_note, ends_note.
  destruct (String.eqb _ "note_off") eqn:Hoff, (String.eqb _ "note_on") eqn:Hon,
    (Mido.velocity msg =? 0); cbn; try congruence.
  apply String.eqb_eq in Hoff. apply String.eqb_eq in Hon. congruence.
Qed.

Lemma split_run (mid : Mido.MidiFile) (mapper mapper' : KalmanMapper)
      (new_mid : Mido.MidiFile) :
  split mid mapper = Py.Ok (new_mid, mapper') ->
  exists s,
    Py.for_ (concat (Mido.tracks mid)) (step (Mido.ticks_per_beat mid))
      (SingleFileAnnotate.initially KalmanMapper mapper) = Py.Ok s
    /\ new_mid = Mido.mkMidiFile 480
                   [Mido._to_reltime (SingleFileAnnotate.right_hand s);
                    Mido._to_reltime (SingleFileAnnotate.left_hand s)].
Proof.
  unfold SingleFileAnnotate.split. rewrite for_concat.
  destruct (Py.for_ _ _ _) as [s|e]; [|discriminate].
  cbn [Py.bind]. intros [= <- _]. now exists s.
Qed.

(** X23.  When the split returns, the file to save has two tracks, the
    right hand first, and the default 480 ticks per beat whatever the file
    read has.  Every message read is in them with its time counted in ticks
    from the start of the first track read through all tracks, in the order
    read: a message that is not a note is in both tracks, and a note is in
    the track of one hand only.  The times saved are the differences of
    these times within a track. *)
Theorem X23_every_message_is_routed (mid : Mido.MidiFile) (mapper mapper' : KalmanMapper)
        (new_mid : Mido.MidiFile) :
  split mid mapper = Py.Ok (new_mid, mapper') ->
  let messages := absolute (concat (Mido.tracks mid)) in
  exists hands : list bool,
    let right := of_hand false (zip messages hands) in
    let left := of_hand true (zip messages hands) in
    length hands = length messages
    /\ new_mid = Mido.mkMidiFile 480 [Mido._to_reltime right; Mido._to_reltime left]
    /\ absolute (Mido._to_reltime right) = right
    /\ absolute (Mido._to_reltime left) = left.
Proof.
  intros Hrun messages. apply split_run in Hrun as (s & Hloop & ->).
  set (Inv := fun (done : list Mido.Message) (s : SingleFileAnnotate.locals KalmanMapper) =>
                SingleFileAnnotate.total_ticks s = ticks done
                /\ exists hands,
                     length hands = length done
                     /\ SingleFileAnnotate.left_hand s
                        = of_hand true (zip (absolute done) hands)
                     /\ SingleFileAnnotate.right_hand s
                        = of_hand false (zip (absolute done) hands)).
  assert (Inv ([] ++ concat (Mido.tracks mid)) s) as (_ & hands & Hlen & Hl & Hr).
  { apply (for_invariant Inv (step (Mido.ticks_per_beat mid))) with
      (s := SingleFileAnnotate.initially KalmanMapper mapper); [| |exact Hloop].
    - clear. intros done msg s s' (Hticks & hands & Hlen & Hl & Hr) Hstep.
      apply step_run in Hstep as (Hnow & Hcase). cbv zeta in Hcase.
      rewrite Hticks in Hnow, Hcase. split; [rewrite Hnow, ticks_app; unfold ticks; cbn; lia|].
      destruct Hcase as [(Hk & _ & Hl' & Hr' & _)|[(Hk & _ & Hl' & Hr' & _)
                        |[(Hk & Hl' & Hr' & _)|[(Hk & Hl' & Hr' & _)|(Hk & Hl' & Hr' & _)]]]].
      + apply ends_note_is_note in Hk. exists (hands ++ [true]).
        rewrite length_app, (length_app done), Hlen. split; [reflexivity|].
        rewrite !of_hand_snoc, Hk, Hl', Hr', Hl, Hr by exact Hlen. cbn.
        now rewrite app_nil_r.
      + apply ends_note_is_note in Hk. exists (hands ++ [false]).
        rewrite length_app, (length_app done), Hlen. split; [reflexivity|].
        rewrite !of_hand_snoc, Hk, Hl', Hr', Hl, Hr by exact Hlen. cbn.
        now rewrite app_nil_r.
      + apply starts_note_is_note in Hk. exists (hands ++ [true]).
        rewrite length_app, (length_app done), Hlen. split; [reflexivity|].
        rewrite !of_hand_snoc, Hk, Hl', Hr', Hl, Hr by exact Hlen. cbn.
        now rewrite app_nil_r.
      + apply starts_note_is_note in Hk. exists (hands ++ [false]).
        rewrite length_app, (length_app done), Hlen. split; [reflexivity|].
        rewrite !of_hand_snoc, Hk, Hl', Hr', Hl, Hr by exact Hlen. cbn.
        now rewrite app_nil_r.
      + exists (hands ++ [false]).
        rewrite length_app, (length_app done), Hlen. split; [reflexivity|].
        rewrite !of_hand_snoc, Hk, Hl', Hr', Hl, Hr by exact Hlen. cbn.
        split; reflexivity.
    - split; [reflexivity|]. exists []. repeat split. }
  cbn [app] in Hlen, Hl, Hr. exists hands. cbv zeta. fold messages in Hl, Hr.
  split; [unfold messages, absolute; now rewrite absolute_from_length|].
  rewrite <- Hl, <- Hr. split; [reflexivity|].
  split; apply absolute_to_reltime.
Qed.

(** *** Times *)

Lemma rising_bounds (track : list Mido.Message) :
  forall lo hi, rising lo hi track -> lo <= hi.
Proof.
  induction track as [|m track IH]; intros lo hi H; [exact H|].
  destruct H as [H1 H2]. apply IH in H2. lia.
Qed.

Lemma rising_later (track : list Mido.Message) (hi hi' : Z) :
  hi <= hi' -> forall lo, rising lo hi track -> rising lo hi' track.
Proof.
  intros Hhi. induction track as [|m track IH]; intros lo H; cbn in *; [lia|].
  destruct H as [H1 H2]. split; [exact H1 | now apply IH].
Qed.

Lemma rising_snoc (track : list Mido.Message) (msg : Mido.Message) (hi t : Z) :
  hi <= t ->
  forall lo, rising lo hi track -> rising lo t (track ++ [Mido.copy msg t]).
Proof.
  intros Ht. induction track as [|m track IH]; intros lo H; cbn in *; [lia|].
  destruct H as [H1 H2]. split; [exact H1 | now apply IH].
Qed.

Lemma rising_reltime (track : list Mido.Message) :
  forall lo hi,
    rising lo hi track ->
    Forall (fun msg => 0 <= Mido.time msg) (Mido.to_reltime_from lo track)
    /\ ticks (Mido.to_reltime_from lo track) <= hi - lo.
Proof.
  induction track as [|m track IH]; intros lo hi H.
  - cbn in *. split; [constructor | unfold ticks; cbn; lia].
  - destruct H as [H1 H2]. destruct (IH _ _ H2) as [IH1 IH2].
    cbn [Mido.to_reltime_from]. split.
    + constructor; [cbn; lia | exact IH1].
    + unfold ticks in *. cbn [fold_right Mido.copy Mido.time]. lia.
Qed.

Lemma ticks_nonneg (l : list Mido.Message) :
  Forall (fun msg => 0 <= Mido.time msg) l -> 0 <= ticks l.
Proof.
  induction 1 as [|m l Hm _ IH]; unfold ticks in *; cbn [fold_right]; lia.
Qed.

(** X24.  When no message read has a negative time, no message saved has
    one, and neither track saved lasts longer than the tracks read last
    one after the other. *)
Theorem X24_saved_times_are_not_negative (mid : Mido.MidiFile)
        (mapper mapper' : KalmanMapper) (new_mid : Mido.MidiFile) :
  Forall (fun msg => 0 <= Mido.time msg) (concat (Mido.tracks mid)) ->
  split mid mapper = Py.Ok (new_mid, mapper') ->
  Forall (fun track =>
            Forall (fun msg => 0 <= Mido.time msg) track
            /\ ticks track <= ticks (concat (Mido.tracks mid)))
         (Mido.tracks new_mid).
Proof.
  intros Hpos Hrun. apply split_run in Hrun as (s & Hloop & ->).
  set (Inv := fun (done : list Mido.Message) (s : SingleFileAnnotate.locals KalmanMapper) =>
                Forall (fun msg => 0 <= Mido.time msg) done ->
                SingleFileAnnotate.total_ticks s = ticks done
                /\ rising 0 (ticks done) (SingleFileAnnotate.left_hand s)
                /\ rising 0 (ticks done) (SingleFileAnnotate.right_hand s)).
  assert (Inv ([] ++ concat (Mido.tracks mid)) s) as Hend.
  { apply (for_invariant Inv (step (Mido.ticks_per_beat mid))) with
      (s := SingleFileAnnotate.initially KalmanMapper mapper); [| |exact Hloop].
    - clear. intros done msg s s' Hinv Hstep Hall.
      apply Forall_app in Hall as [Hdone Hmsg]. apply Forall_inv in Hmsg.
      destruct (Hinv Hdone) as (Hticks & Hl & Hr).
      apply step_run in Hstep as (Hnow & Hcase). cbv zeta in Hcase.
      rewrite Hticks in Hnow, Hcase.
      assert (ticks (done ++ [msg]) = ticks done + Mido.time msg) as Hsum
          by (rewrite ticks_app; unfold ticks; cbn; lia).
      rewrite Hsum. split; [exact Hnow|].
      assert (ticks done <= ticks done + Mido.time msg) as Hle by lia.
      destruct Hcase as [(_ & _ & -> & -> & _)|[(_ & _ & -> & -> & _)
                        |[(_ & -> & -> & _)|[(_ & -> & -> & _)|(_ & -> & -> & _)]]]];
        split;
        (apply (rising_snoc _ _ (ticks done)); [exact Hle | assumption])
        || (apply (rising_later _ (ticks done)); [exact Hle | assumption]).
    - intros _. cbn. unfold ticks. cbn. lia. }
  cbn [app] in Hend. destruct (Hend Hpos) as (_ & Hl & Hr).
  cbn [Mido.tracks]. unfold Mido._to_reltime.
  apply rising_reltime in Hl as [Hl1 Hl2]. apply rising_reltime in Hr as [Hr1 Hr2].
  repeat constructor; try assumption; lia.
Qed.

(** *** Notes of the left hand *)

Lemma note_ends_snoc (n : Z) (track : list Mido.Message) (msg : Mido.Message) :
  note_ends n (track ++ [msg])
  = (note_ends n track + (if ends_note msg && Z.eqb (Mido.note msg) n then 1 else 0))%nat.
Proof.
  unfold note_ends. rewrite List.filter_app, length_app. cbn [List.filter].
  now destruct (ends_note msg && (Mido.note msg =? n)).
Qed.

Lemma note_starts_snoc (n : Z) (track : list Mido.Message) (msg : Mido.Message) :
  note_starts n (track ++ [msg])
  = (note_starts n track + (if starts_note msg && Z.eqb (Mido.note msg) n then 1 else 0))%nat.
Proof.
  unfold note_starts. rewrite List.filter_app, length_app. cbn [List.filter].
  now destruct (starts_note msg && (Mido.note msg =? n)).
Qed.

Lemma take_to_reltime (k : nat) :
  forall track now,
    take k (Mido.to_reltime_from now track) = Mido.to_reltime_from now (take k track).
Proof.
  induction k as [|k IH]; intros [|m track] now; try reflexivity.
  cbn [take firstn Mido.to_reltime_from]. now rewrite <- IH.
Qed.

Lemma note_counts_reltime (n : Z) (track : list Mido.Message) :
  forall now,
    note_ends n (Mido.to_reltime_from now track) = note_ends n track
    /\ note_starts n (Mido.to_reltime_from now track) = note_starts n track.
Proof.
  unfold note_ends, note_starts.
  induction track as [|m track IH]; intros now; [now split|].
  destruct (IH (Mido.time m)) as [IH1 IH2].
  cbn [Mido.to_reltime_from List.filter].
  change (ends_note (Mido.copy m (Mido.time m - now))) with (ends_note m).
  change (starts_note (Mido.copy m (Mido.time m - now))) with (starts_note m).
  change (Mido.note (Mido.copy m (Mido.time m - now))) with (Mido.note m).
  destruct (ends_note m && _), (starts_note m && _); cbn [length];
    rewrite ?IH1, ?IH2; now split.
Qed.

Lemma ends_not_starts (msg : Mido.Message) :
  ends_note msg = true -> starts_note msg = false.
Proof.
  intros He. destruct (starts_note msg) eqn:Hs; [|reflexivity].
  apply starts_not_ends in Hs. congruence.
Qed.

Lemma other_counts (msg : Mido.Message) :
  is_note msg = false -> ends_note msg = false /\ starts_note msg = false.
Proof.
  intros Hn. split.
  - destruct (ends_note msg) eqn:He; [|reflexivity].
    apply ends_note_is_note in He. congruence.
  - destruct (starts_note msg) eqn:Hs; [|reflexivity].
    apply starts_note_is_note in Hs. congruence.
Qed.

(** X25.  In the track saved for the left hand, up to any of its
    messages, no note has been ended more often than it has been started,
    but for note 0, which may be ended once more: [left_hand_is_playing]
    holds 0 from the start. *)
Theorem X25_left_notes_end_after_they_start (mid : Mido.MidiFile)
        (mapper mapper' : KalmanMapper) (new_mid : Mido.MidiFile)
        (right left : list Mido.Message) :
  split mid mapper = Py.Ok (new_mid, mapper') ->
  Mido.tracks new_mid = [right; left] ->
  forall (k : nat) (n : Z),
    (note_ends n (take k left)
     <= note_starts n (take k left) + (if Z.eqb n 0 then 1 else 0))%nat.
Proof.
  intros Hrun Htracks. apply split_run in Hrun as (s & Hloop & ->).
  injection Htracks as _ <-.
  set (Inv := fun (done : list Mido.Message) (s : SingleFileAnnotate.locals KalmanMapper) =>
                (forall n,
                    (note_ends n (SingleFileAnnotate.left_hand s)
                     + (if bool_decide (n ∈ SingleFileAnnotate.left_hand_is_playing s)
                        then 1 else 0)
                     <= note_starts n (SingleFileAnnotate.left_hand s)
                        + (if Z.eqb n 0 then 1 else 0))%nat)
                /\ (forall k n,
                       (note_ends n (take k (SingleFileAnnotate.left_hand s))
                        <= note_starts n (take k (SingleFileAnnotate.left_hand s))
                           + (if Z.eqb n 0 then 1 else 0))%nat)).
  assert (Inv ([] ++ concat (Mido.tracks mid)) s) as [_ Hend].
  { apply (for_invariant Inv (step (Mido.ticks_per_beat mid))) with
      (s := SingleFileAnnotate.initially KalmanMapper mapper); [| |exact Hloop].
    - clear. intros done msg s s' [Hall Hpre] Hstep.
      apply step_run in Hstep as (_ & Hcase). cbv zeta in Hcase.
      set (copied := Mido.copy msg (SingleFileAnnotate.total_ticks s + Mido.time msg))
        in Hcase.
      assert (forall l S,
                 SingleFileAnnotate.left_hand s' = l ->
                 SingleFileAnnotate.left_hand_is_playing s' = S ->
                 (l = SingleFileAnnotate.left_hand s
                  \/ l = SingleFileAnnotate.left_hand s ++ [copied]) ->
                 (forall n,
                     (note_ends n l + (if bool_decide (n ∈ S) then 1 else 0)
                      <= note_starts n l + (if Z.eqb n 0 then 1 else 0))%nat) ->
                 Inv (done ++ [msg]) s') as Hclose.
      { intros l S Hl HS Hshape Hnew. split; rewrite Hl; [now rewrite HS|].
        intros k n. destruct Hshape as [->| ->]; [apply Hpre|].
        destruct (le_lt_dec k (length (SingleFileAnnotate.left_hand s))) as [Hk|Hk].
        - rewrite take_app_le by exact Hk. apply Hpre.
        - rewrite take_ge by (rewrite length_app; cbn; lia).
          specialize (Hnew n). lia. }
      destruct Hcase as [(Hk & Hin & Hl' & _ & HS')|[(Hk & Hin & Hl' & _ & HS')
                        |[(Hk & Hl' & _ & HS')|[(Hk & Hl' & _ & HS')|(Hk & Hl' & _ & HS')]]]].
      + apply (Hclose _ _ Hl' HS'); [now right|]. intros n. specialize (Hall n).
        rewrite note_ends_snoc, note_starts_snoc.
        change (ends_note copied) with (ends_note msg).
        change (starts_note copied) with (starts_note msg).
        change (Mido.note copied) with (Mido.note msg).
        rewrite Hk, (ends_not_starts _ Hk). cbn [andb].
        rewrite playing_after_remove.
        destruct (Z.eqb_spec (Mido.note msg) n) as [<-|Hne].
        * rewrite bool_decide_eq_true_2 in Hall by exact Hin.
          rewrite andb_false_r. lia.
        * rewrite andb_true_r. lia.
      + apply (Hclose _ _ Hl' HS'); [now left | exact Hall].
      + apply (Hclose _ _ Hl' HS'); [now right|]. intros n. specialize (Hall n).
        rewrite note_ends_snoc, note_starts_snoc.
        change (ends_note copied) with (ends_note msg).
        change (starts_note copied) with (starts_note msg).
        change (Mido.note copied) with (Mido.note msg).
        rewrite Hk, (starts_not_ends _ Hk). cbn [andb].
        rewrite playing_after_add.
        destruct (Z.eqb_spec (Mido.note msg) n) as [<-|Hne]; cbn [orb];
          destruct (bool_decide (_ ∈ SingleFileAnnotate.left_hand_is_playing s)); lia.
      + apply (Hclose _ _ Hl' HS'); [now left | exact Hall].
      + apply (Hclose _ _ Hl' HS'); [now right|]. intros n. specialize (Hall n).
        rewrite note_ends_snoc, note_starts_snoc.
        change (ends_note copied) with (ends_note msg).
        change (starts_note copied) with (starts_note msg).
        destruct (other_counts _ Hk) as [-> ->]. cbn [andb]. lia.
    - split.
      + intros n. cbn. destruct (Z.eqb_spec n 0) as [->|Hn].
        * rewrite bool_decide_eq_true_2 by (now apply elem_of_singleton). lia.
        * rewrite bool_decide_eq_false_2 by (now rewrite elem_of_singleton). lia.
      + intros k n. cbn. rewrite take_nil. cbn. lia. }
  intros k n. unfold Mido._to_reltime. rewrite take_to_reltime.
  destruct (note_counts_reltime n (take k (SingleFileAnnotate.left_hand s)) 0)
    as [-> ->].
  apply Hend.
Qed.

End Process.

(** *** The file saved *)

Lemma prefix_of_empty (old : string) : old <> EmptyString -> String.prefix old "" = false.
Proof. destruct old; [contradiction | reflexivity]. Qed.

Lemma replace_absent (old new : string) (s : string) :
  Str.contains old s = false -> Str.replace_from old new 0 s = s.
Proof.
  induction s as [|c s IH]; [reflexivity|].
  intros Habs. cbn [Str.contains] in Habs. apply orb_false_iff in Habs as [Hp Hrest].
  cbn [Str.replace_from]. rewrite Hp. now rewrite IH.
Qed.

Lemma replace_from_length (old new : string) :
  (1 <= String.length old <= String.length new)%nat ->
  forall s skip,
    (String.length s <= String.length (Str.replace_from old new skip s) + skip)%nat.
Proof.
  intros Hlen. induction s as [|c s IH]; intros skip; [cbn; lia|].
  cbn [Str.replace_from]. destruct skip as [|skip].
  - destruct (String.prefix old (String c s)).
    + rewrite string_length_app. specialize (IH (String.length old - 1)%nat).
      cbn [String.length]. lia.
    + specialize (IH 0%nat). cbn [String.length]. lia.
  - specialize (IH skip). cbn [String.length]. lia.
Qed.

Lemma replace_present_longer (old new : string) :
  (1 <= String.length old < String.length new)%nat ->
  forall s,
    Str.contains old s = true ->
    (String.length s < String.length (Str.replace_from old new 0 s))%nat.
Proof.
  intros Hlen. induction s as [|c s IH]; intros Hin.
  - cbn [Str.contains] in Hin. rewrite prefix_of_empty in Hin; [discriminate|].
    intros ->. cbn in Hlen. lia.
  - cbn [Str.contains] in Hin. cbn [Str.replace_from].
    destruct (String.prefix old (String c s)).
    + rewrite string_length_app.
      pose proof (replace_from_length old new ltac:(lia) s (String.length old - 1)%nat).
      cbn [String.length]. lia.
    + cbn [orb] in Hin. specialize (IH Hin). cbn [String.length]. lia.
Qed.

Section ProcessFile.

Context {F : FloatOps} {File : Type}.

Variable fadd : float -> float -> float.
Variable tick2second : Z -> Z -> Z -> Py.result float.
Variable bpm2tempo : float -> Py.result Z.
Variable tempo2bpm : Z -> Py.result float.
Variable KalmanMapper : Type.
Variable midi_event : SingleFileAnnotate.MidiEvent -> KalmanMapper -> Py.result KalmanMapper.
Variable last_was_left_hand : KalmanMapper -> bool.
Variable read_midi : File -> Os.result Mido.MidiFile.
Variable write_midi : Mido.MidiFile -> File.

(** X26.  [process] writes one path at most, the file name with every
    [.mid] in it replaced by [-split.mid], and nothing when it raises.  When
    it returns, that path holds the two tracks of the split of the file
    read.  The path is the file read itself, which is then lost, exactly
    when its name holds no [.mid]. *)
Theorem X26_where_the_split_is_saved (filename : string) (mapper : KalmanMapper)
        (disk : gmap string File) :
  let saved := Str.replace ".mid" "-split.mid" filename in
  let run := SingleFileAnnotate.process fadd tick2second bpm2tempo tempo2bpm
               KalmanMapper midi_event last_was_left_hand read_midi write_midi
               filename mapper disk in
  (forall p, p <> saved -> snd run !! p = disk !! p)
  /\ (forall e, fst run = Os.Raise e -> snd run = disk)
  /\ (forall mapper',
         fst run = Os.Ok mapper' ->
         exists f mid new_mid,
           disk !! filename = Some f /\ read_midi f = Os.Ok mid
           /\ SingleFileAnnotate.split fadd tick2second bpm2tempo tempo2bpm
                KalmanMapper midi_event last_was_left_hand mid mapper
              = Py.Ok (new_mid, mapper')
           /\ snd run !! saved = Some (write_midi new_mid))
  /\ (saved = filename <-> Str.contains ".mid" filename = false).
Proof.
  intros saved run. unfold run, SingleFileAnnotate.process. fold saved.
  split; [|split; [|split]].
  - intros p Hp. destruct (disk !! filename) as [f|]; [|reflexivity].
    destruct (read_midi f) as [mid|e]; [|reflexivity].
    destruct (SingleFileAnnotate.split _ _ _ _ _ _ _ mid mapper) as [[new_mid m]|e];
      [|reflexivity].
    cbn [snd]. now rewrite lookup_insert_ne.
  - intros e. destruct (disk !! filename) as [f|]; [|reflexivity].
    destruct (read_midi f) as [mid|e']; [|reflexivity].
    destruct (SingleFileAnnotate.split _ _ _ _ _ _ _ mid mapper) as [[new_mid m]|e'];
      [discriminate | reflexivity].
  - intros mapper'. destruct (disk !! filename) as [f|]; [|discriminate].
    destruct (read_midi f) as [mid|e] eqn:Hread; [|discriminate].
    destruct (SingleFileAnnotate.split _ _ _ _ _ _ _ mid mapper) as [[new_mid m]|e]
      eqn:Hsplit; [|discriminate].
    cbn [fst snd]. intros [= ->]. exists f, mid, new_mid.
    split; [reflexivity|]. split; [exact Hread|]. split; [exact Hsplit|].
    apply lookup_insert_eq.
  - unfold saved, Str.replace. split.
    + intros Hsame. destruct (Str.contains ".mid" filename) eqn:Hin; [|reflexivity].
      apply (replace_present_longer ".mid" "-split.mid") in Hin; [|cbn; lia].
      rewrite Hsame in Hin. lia.
    + apply replace_absent.
Qed.

End ProcessFile.

Lemma X23_every_message_is_routed_witness :
  exists new_mid hands,
    SingleFileAnnotate.split (F := Qfloat) Qplus example_tick2second example_bpm2tempo
      example_tempo2bpm bool example_midi_event id example_song true
    = Py.Ok (new_mid, true)
    /\ length hands = 6%nat
    /\ Mido.tracks new_mid
       = [ Mido._to_reltime
             (of_hand false (zip (absolute (concat (Mido.tracks example_song))) hands));
           Mido._to_reltime
             (of_hand true (zip (absolute (concat (Mido.tracks example_song))) hands)) ].
Proof.
  destruct (SingleFileAnnotate.split (F := Qfloat) Qplus example_tick2second example_bpm2tempo
              example_tempo2bpm bool example_midi_event id example_song true)
    as [[new_mid mapper']|e] eqn:Hrun; [|vm_compute in Hrun; discriminate].
  assert (mapper' = true) as -> by (vm_compute in Hrun; now injection Hrun).
  destruct (X23_every_message_is_routed (F := Qfloat) Qplus example_tick2second example_bpm2tempo
              example_tempo2bpm bool example_midi_event id example_song true true
              new_mid Hrun) as (hands & Hlen & -> & _).
  eexists. exists hands. split; [reflexivity|]. split; [exact Hlen | reflexivity].
Defined.

Lemma X24_saved_times_are_not_negative_witness :
  exists new_mid,
    SingleFileAnnotate.split (F := Qfloat) Qplus example_tick2second example_bpm2tempo
      example_tempo2bpm bool example_midi_event id example_song true
    = Py.Ok (new_mid, true)
    /\ Forall (fun track =>
                 Forall (fun msg => 0 <= Mido.time msg) track
                 /\ ticks track <= 144)
              (Mido.tracks new_mid).
Proof.
  destruct (SingleFileAnnotate.split (F := Qfloat) Qplus example_tick2second example_bpm2tempo
              example_tempo2bpm bool example_midi_event id example_song true)
    as [[new_mid mapper']|e] eqn:Hrun; [|vm_compute in Hrun; discriminate].
  assert (mapper' = true) as -> by (vm_compute in Hrun; now injection Hrun).
  exists new_mid. split; [reflexivity|].
  apply (X24_saved_times_are_not_negative (F := Qfloat) Qplus example_tick2second example_bpm2tempo
           example_tempo2bpm bool example_midi_event id example_song true true
           new_mid); [|exact Hrun].
  cbn. repeat constructor; cbn; lia.
Defined.

Lemma X25_left_notes_end_after_they_start_witness :
  SingleFileAnnotate.split (F := Qfloat) Qplus example_tick2second example_bpm2tempo
    example_tempo2bpm bool example_midi_event id example_stray_end true
  = Py.Ok (Mido.mkMidiFile 480 [[]; [Mido.mkMessage "note_off" 0 0 0 10]], true)
  /\ (note_ends 0 (take 1 [Mido.mkMessage "note_off" 0 0 0 10])
      <= note_starts 0 (take 1 [Mido.mkMessage "note_off" 0 0 0 10]) + 1)%nat.
Proof.
  assert (SingleFileAnnotate.split (F := Qfloat) Qplus example_tick2second example_bpm2tempo
            example_tempo2bpm bool example_midi_event id example_stray_end true
          = Py.Ok (Mido.mkMidiFile 480 [[]; [Mido.mkMessage "note_off" 0 0 0 10]], true))
    as Hrun by (vm_compute; reflexivity).
  split; [exact Hrun|].
  exact (X25_left_notes_end_after_they_start (F := Qfloat) Qplus example_tick2second
           example_bpm2tempo example_tempo2bpm bool example_midi_event id
           example_stray_end true true _ [] [Mido.mkMessage "note_off" 0 0 0 10]
           Hrun eq_refl 1%nat 0).
Defined.

Lemma X26_where_the_split_is_saved_witness :
  Str.replace ".mid" "-split.mid" "SONG.MID" = "SONG.MID"%string
  /\ Str.replace ".mid" "-split.mid" "song.mid" = "song-split.mid"%string
  /\ snd (SingleFileAnnotate.process (F := Qfloat) Qplus example_tick2second example_bpm2tempo
            example_tempo2bpm bool example_midi_event id Os.Ok id
            "song.mid" true example_songs) !! "song.mid"%string
     = Some example_song.
Proof.
  destruct (X26_where_the_split_is_saved (F := Qfloat) Qplus example_tick2second example_bpm2tempo
              example_tempo2bpm bool example_midi_event id Os.Ok id
              "SONG.MID" true example_songs) as (_ & _ & _ & Hname).
  destruct (X26_where_the_split_is_saved (F := Qfloat) Qplus example_tick2second example_bpm2tempo
              example_tempo2bpm bool example_midi_event id Os.Ok id
              "song.mid" true example_songs) as (Hother & _).
  split; [apply Hname; vm_compute; reflexivity|].
  split; [vm_compute; reflexivity|].
  rewrite Hother; [vm_compute; reflexivity | vm_compute; discriminate].
Defined.
